(** * pywemo_setup.py: discovery, rename, reset and setup of Wemo devices

    A shallow embedding of the command-line script [pywemo_setup.py] and the
    properties of its workflows.

    Conventions of the embedding.
    - A Python [str] is a [string]; a character is a code point below 256
      (the Latin-1 range), where [str.lower] and [str.strip] act character
      by character.
    - A Python [dict] with string keys is a [gmap string _].
    - A command is a computation in the monad [M]: it appends to a trace of
      observable events (log records, prompts, sub-processes, device calls)
      and ends either normally or with a raised exception.
    - What the script reads from the outside (devices found on the network,
      answers at the prompt, the outcome of running nmcli) is an environment
      record [Env] and the fields of [Device]. *)

From Stdlib Require Import String Ascii List ZArith Lia Bool.
From stdpp Require Import base gmap strings list fin_maps pretty.

Local Open Scope list_scope.
Local Open Scope string_scope.

(* ===================================================================== *)
(** ** Python strings *)
(* ===================================================================== *)

Module PyStr.

(** [str.isspace] on one code point below 256: TAB..CR, FS..US, SPACE,
    NEL (0x85) and NBSP (0xA0). *)
Definition is_space (c : ascii) : bool :=
  let n := nat_of_ascii c in
  ((9 <=? n)%nat && (n <=? 13)%nat) || ((28 <=? n)%nat && (n <=? 32)%nat)
  || (n =? 133)%nat || (n =? 160)%nat.

(** [str.lower] on one code point below 256: A..Z and the Latin-1 capitals
    0xC0..0xDE (the multiplication sign 0xD7 apart) move up by 32. *)
Definition lower_char (c : ascii) : ascii :=
  let n := nat_of_ascii c in
  if ((65 <=? n)%nat && (n <=? 90)%nat)
     || ((192 <=? n)%nat && (n <=? 222)%nat && negb (n =? 215)%nat)
  then ascii_of_nat (n + 32) else c.

(** [s.lower()] *)
Fixpoint lower (s : string) : string :=
  match s with
  | EmptyString => EmptyString
  | String c s' => String (lower_char c) (lower s')
  end.

(** [s.startswith(p)] *)
Fixpoint startswith (s p : string) {struct p} : bool :=
  match p, s with
  | EmptyString, _ => true
  | String _ _, EmptyString => false
  | String a p', String b s' => if ascii_dec a b then startswith s' p' else false
  end.

(** [s.lstrip()] *)
Fixpoint lstrip (s : string) : string :=
  match s with
  | EmptyString => EmptyString
  | String c s' => if is_space c then lstrip s' else s
  end.

(** [s.rstrip()] *)
Fixpoint rstrip (s : string) : string :=
  match s with
  | EmptyString => EmptyString
  | String c s' =>
      match rstrip s' with
      | EmptyString => if is_space c then EmptyString else String c EmptyString
      | r => String c r
      end
  end.

(** [s.strip()] *)
Definition strip (s : string) : string := lstrip (rstrip s).

(** [bool(s)]: a string is truthy when it is not empty. *)
Definition truthy (s : string) : bool :=
  match s with EmptyString => false | _ => true end.

(** [sep.join(l)] *)
Fixpoint join (sep : string) (l : list string) : string :=
  match l with
  | [] => EmptyString
  | [x] => x
  | x :: l' => x ++ sep ++ join sep l'
  end.

(** [s.split(c)] for a one-character separator: never the empty list. *)
Fixpoint split (c : ascii) (s : string) : list string :=
  match s with
  | EmptyString => [EmptyString]
  | String a s' =>
      if ascii_dec a c then EmptyString :: split c s'
      else match split c s' with
           | [] => [String a EmptyString]
           | w :: ws => String a w :: ws
           end
  end.

(** [s.rsplit(c, maxsplit)]: at most [maxsplit] cuts, taken from the right;
    what is left of them stays one piece, separators included. *)
Definition rsplit (c : ascii) (maxsplit : nat) (s : string) : list string :=
  let parts := split c s in
  let n := length parts in
  if (n <=? S maxsplit)%nat then parts
  else join (String c EmptyString) (take (n - maxsplit) parts)
         :: drop (n - maxsplit) parts.

(** The double quote, which the messages of the script contain. *)
Definition dquote : string := String (ascii_of_nat 34) EmptyString.

(** The line feed. *)
Definition LF : ascii := ascii_of_nat 10.

End PyStr.

(* ===================================================================== *)
(** ** Exceptions, events and the command monad *)
(* ===================================================================== *)

(** The exception classes the script raises, catches or lets through. *)
Inductive exn_class :=
  | ResetException
  | SetupException
  | AttributeError
  | KeyError
  | TypeError
  | ValueError
  | FileNotFoundError
  | CalledProcessError
  | OtherError (cls : string).

(** An exception object: its class, [str(exc)], and the class of the
    exception it was raised [from], if any. *)
Record exn := Exn {
  exn_cls : exn_class;
  exn_msg : string;
  exn_cause : option exn_class
}.

#[global] Instance exn_class_eq_dec : EqDecision exn_class.
Proof. solve_decision. Defined.

#[global] Instance exn_eq_dec : EqDecision exn.
Proof. solve_decision. Defined.

(** Logging levels of the [logging] module. *)
Inductive level := DEBUG | INFO | WARNING | ERROR | CRITICAL.

#[global] Instance level_eq_dec : EqDecision level.
Proof. solve_decision. Defined.

(** A value an action returns inside its result dictionary: a string, or a
    value of another type (on which [.lower()] is an AttributeError). *)
Inductive pyval :=
  | PStr (s : string)
  | PNone
  | PInt (z : Z).

#[global] Instance pyval_eq_dec : EqDecision pyval.
Proof. solve_decision. Defined.

(** What calling an action returns: a dictionary, or a value that cannot be
    subscripted with a string (a TypeError). *)
Inductive result :=
  | RDict (d : gmap string pyval)
  | RValue (v : pyval).

#[global] Instance result_eq_dec : EqDecision result.
Proof. solve_decision. Defined.

(** An argument of a log record: the logging module keeps the format and the
    arguments apart, and so does the trace. *)
Inductive arg :=
  | AStr (s : string)
  | AInt (z : Z)
  | AVal (v : pyval)
  | ARes (r : result)
  | AExn (e : exn).

#[global] Instance arg_eq_dec : EqDecision arg.
Proof. solve_decision. Defined.

(** What a command does that can be observed.  A device stands in an event
    by [str(device)]. *)
Inductive event :=
  | Log (lvl : level) (fmt : string) (args : list arg)
  | Confirm (prompt : string) (answer : bool)
  | Getpass
  | Run (argv : list string)
  | Sleep (seconds : Z)
  | Discover
  | CallAction (dev service action : string)
  | CallNetworkStatus (dev : string)
  | CallReset (dev : string) (data wifi : bool)
  | CallSetup (dev ssid password : string) (timeout : option Z)
  | CallRename (dev name : string).

#[global] Instance event_eq_dec : EqDecision event.
Proof. solve_decision. Defined.

(** How a computation ends. *)
Inductive outcome (A : Type) :=
  | Ok (a : A)
  | Raised (e : exn).
Arguments Ok {A} a.
Arguments Raised {A} e.

(** A computation: the events it produced, and how it ended. *)
Definition M (A : Type) : Type := list event * outcome A.

Definition ret {A} (a : A) : M A := ([], Ok a).

Definition raise {A} (e : exn) : M A := ([], Raised e).

Definition emit (ev : event) : M unit := ([ev], Ok tt).

Definition bind {A B} (m : M A) (f : A -> M B) : M B :=
  match m with
  | (t, Ok a) => let '(t', r) := f a in ((t ++ t')%list, r)
  | (t, Raised e) => (t, Raised e)
  end.

Notation "x <- m ;; k" := (bind m (fun x => k))
  (at level 100, m at next level, right associativity).
Notation "m ;;; k" := (bind m (fun _ => k))
  (at level 100, right associativity).

(** [try: m  except <classes>: h exc]: the handler runs when [m] raises an
    exception whose class [catches] accepts; anything else goes through. *)
Definition try_except {A} (m : M A) (catches : exn_class -> bool)
    (h : exn -> M A) : M A :=
  match m with
  | (t, Raised e) =>
      if catches (exn_cls e) then let '(t', r) := h e in ((t ++ t')%list, r)
      else (t, Raised e)
  | other => other
  end.

(** [for x in l: body x], with no [break]. *)
Fixpoint for_each {A} (l : list A) (body : A -> M unit) : M unit :=
  match l with
  | [] => ret tt
  | x :: l' => body x ;;; for_each l' body
  end.

Definition trace_of {A} (m : M A) : list event := fst m.
Definition outcome_of {A} (m : M A) : outcome A := snd m.

(** [LOG.info(fmt, *args)] and its siblings. *)
Definition log (lvl : level) (fmt : string) (args : list arg) : M unit :=
  emit (Log lvl fmt args).

(** [LOG.error(exc)]: the message of the record is the exception. *)
Definition log_exc (lvl : level) (e : exn) : M unit :=
  emit (Log lvl (exn_msg e) []).

(** [DASHES = '-' * (columns - 11)]: the separator line, from the width
    of the terminal (a negative count gives the empty string). *)
Fixpoint repeat_char (c : ascii) (n : nat) : string :=
  match n with
  | O => EmptyString
  | S n' => String c (repeat_char c n')
  end.

Definition DASHES (columns : nat) : string := repeat_char "-" (columns - 11).

(* ===================================================================== *)
(** ** Devices and the environment *)
(* ===================================================================== *)

(** What calling a method of a device does: it returns, or it raises. *)
Inductive call (A : Type) :=
  | Returns (a : A)
  | Throws (e : exn).
Arguments Returns {A} a.
Arguments Throws {A} e.

(** A device handle of the device-control library, with the behaviour of
    the methods the script calls on it. *)
Record Device := {
  dev_str : string;                         (* str(device) *)
  dev_name : string;                        (* device.name *)
  dev_host : string;                        (* device.host *)
  dev_UDN : string;                         (* device._config.get_UDN() *)
  dev_services : list (string * list string);
      (* device.services: service name to action names, in dict order *)
  dev_action : string -> string -> call result;
      (* device.services[service].actions[action]() *)
  dev_network_status : call string;
      (* device.WiFiSetup.GetNetworkStatus()['NetworkStatus'] *)
  dev_reset : bool -> bool -> call unit;    (* device.reset(data, wifi) *)
  dev_setup : string -> string -> option Z -> call unit;
      (* device.setup(ssid, password, timeout) *)
  dev_rename : string -> call unit
      (* device.basicevent.ChangeFriendlyName(FriendlyName=name) *)
}.

(** How a sub-process run ends: the program is missing
    (FileNotFoundError), or it ran and exited, or [subprocess.run] raised
    another error (an OSError such as PermissionError). *)
Inductive run_result :=
  | NotInstalled
  | Completed (returncode : Z) (stdout stderr : string)
  | RunRaises (e : exn).

(** The outside world of one run of the script. *)
Record Env := {
  nmcli : list string -> run_result;
      (* subprocess.run(argv, ...) *)
  discover_devices : option string -> list Device;
      (* pywemo.discover_devices(), on the host's own network (None) or
         once joined to the given access point *)
  confirm : string -> bool;                 (* click.confirm(prompt) *)
  getpass : string;                         (* getpass() *)
  columns : nat                             (* shutil.get_terminal_size().columns *)
}.

(** Turn a method call into a computation. *)
Definition do_call {A} (ev : event) (c : call A) : M A :=
  emit ev ;;; match c with Returns a => ret a | Throws e => raise e end.

(* ===================================================================== *)
(** ** Sub-processes and the access-point scan *)
(* ===================================================================== *)

(** [subprocess.run(argv, check=check, ...)]: a missing program is a
    FileNotFoundError; with [check], a non-zero exit status is a
    CalledProcessError; any other error of the run goes through as it is.
    The standard output is taken as already decoded. *)
Definition subprocess_run (env : Env) (argv : list string) (check : bool)
    : M (string * string) :=
  emit (Run argv) ;;;
  match nmcli env argv with
  | NotInstalled =>
      raise (Exn FileNotFoundError "No such file or directory" None)
  | Completed rc out err =>
      if check && negb (rc =? 0)%Z
      then raise (Exn CalledProcessError "non-zero exit status" None)
      else ret (out, err)
  | RunRaises e => raise e
  end.

Definition is_class (c : exn_class) : exn_class -> bool :=
  fun c' => bool_decide (c' = c).

Definition msg_nmcli_missing : string :=
  "nmcli command failed (NetworkManager must be installed)".
Definition msg_nmcli_failed : string := "nmcli command failed".
Definition msg_nmcli_connect_failed : string :=
  "nmcli command failed (network may not exist anymore or may no longer be reachable)".

(** The two [except] clauses around the nmcli calls.  In the
    CalledProcessError clause the name [networks] is never bound (the
    assignment did not complete), so the two [LOG.error] lines end in the
    UnboundLocalError that the inner [try] passes over: nothing is logged. *)
Definition nmcli_guard {A} (m : M A) (failed_msg : string) : M A :=
  try_except
    (try_except m (is_class FileNotFoundError)
       (fun exc => raise (Exn SetupException msg_nmcli_missing (Some (exn_cls exc)))))
    (is_class CalledProcessError)
    (fun exc => raise (Exn SetupException failed_msg (Some (exn_cls exc)))).

Definition argv_rescan : list string := ["nmcli"; "device"; "wifi"; "rescan"].
Definition argv_list : list string :=
  ["nmcli"; "--get-values"; "SSID,IN-USE,CHAN,SIGNAL,SECURITY"; "device"; "wifi"].
Definition argv_connect (ssid : string) : list string :=
  ["nmcli"; "device"; "wifi"; "connect"; ssid].

Definition fmt_result_of : string :=
  "result of " ++ PyStr.dquote ++ "%s" ++ PyStr.dquote ++ ":"
  ++ String PyStr.LF "stdout:" ++ String PyStr.LF "%s".

(** [ssid.lower().startswith('wemo.')] *)
Definition is_wemo_ssid (ssid : string) : bool :=
  PyStr.startswith (PyStr.lower ssid) "wemo.".

(** What unpacking fewer than five values into five names raises: the
    message tells how many values there were. *)
Definition short_line_error (got : nat) : exn :=
  Exn ValueError
    ("not enough values to unpack (expected 5, got " ++ pretty got ++ ")") None.

(** The loop of [find_wemo_aps] over the lines of the listing, with the two
    variables it updates. *)
Fixpoint scan_lines (lines : list string) (wemo_networks : list string)
    (current_network : string) : M (list string * string) :=
  match lines with
  | [] => ret (wemo_networks, current_network)
  | line :: rest =>
      if negb (PyStr.truthy (PyStr.strip line))
      then scan_lines rest wemo_networks current_network
      else
        match PyStr.rsplit ":" 4 line with
        | [ssid; in_use; channel; signal; security] =>
            cur <- (if String.eqb in_use "*"
                    then log DEBUG
                           "current network: %s (channel=%s, signal=%s, security=%s)"
                           [AStr ssid; AStr channel; AStr signal; AStr security] ;;;
                         ret (if PyStr.truthy current_network
                              then current_network else ssid)
                    else ret current_network) ;;
            nets <- (if is_wemo_ssid ssid
                     then log INFO
                            "expected wemo ap: %s (channel=%s, signal=%s, security=%s)"
                            [AStr ssid; AStr channel; AStr signal; AStr security] ;;;
                          ret (wemo_networks ++ [ssid])%list
                     else ret wemo_networks) ;;
            scan_lines rest nets cur
        | parts => raise (short_line_error (length parts))
        end
  end.

(** [find_wemo_aps()] *)
Definition find_wemo_aps (env : Env) : M (list string * string) :=
  networks <- nmcli_guard
                (subprocess_run env argv_rescan false ;;;
                 subprocess_run env argv_list true)
                msg_nmcli_failed ;;
  let args := PyStr.join " " argv_list in
  let stdout := PyStr.strip (fst networks) in
  log DEBUG fmt_result_of [AStr args; AStr stdout] ;;;
  (if negb (PyStr.truthy stdout)
   then log WARNING "no result from nmcli, try again" [] else ret tt) ;;;
  scan_lines (PyStr.split PyStr.LF stdout) [] EmptyString.

(* ===================================================================== *)
(** ** Diagnostics of one device *)
(* ===================================================================== *)

(** The actions of [log_details] at the higher verbosity levels: every
    action whose lowered name starts with get, the skipped ones apart. *)
Definition get_actions (services : list (string * list string))
    (skip_actions : list string) : list (string * string * option string) :=
  flat_map
    (fun '(service_name, actions) =>
       flat_map
         (fun action_name =>
            if bool_decide (PyStr.lower action_name ∈ skip_actions) then []
            else if PyStr.startswith (PyStr.lower action_name) "get"
                 then [(service_name, action_name, None)] else [])
         actions)
    services.

(** [data_to_print] of [log_details]: (service, action, key) triples. *)
Definition data_to_print (device : Device) (verbose : Z)
    : list (string * string * option string) :=
  if (verbose =? 0)%Z then
    [ ("basicevent", "GetFriendlyName", Some "FriendlyName");
      ("basicevent", "GetMacAddr", None);
      ("metainfo", "GetMetaInfo", Some "MetaInfo") ]
  else if (verbose =? 1)%Z then
    [ ("basicevent", "GetFriendlyName", Some "FriendlyName");
      ("basicevent", "GetSignalStrength", Some "SignalStrength");
      ("basicevent", "GetMacAddr", None);
      ("firmwareupdate", "GetFirmwareVersion", Some "FirmwareVersion");
      ("metainfo", "GetMetaInfo", Some "MetaInfo");
      ("metainfo", "GetExtMetaInfo", Some "ExtMetaInfo");
      ("deviceinfo", "GetDeviceInformation", Some "DeviceInformation") ]
  else
    get_actions (dev_services device)
      (if (verbose =? 2)%Z then ["getaplist"; "getnetworklist"] else []).

(** [result[key]] for a key that is a string or None: the keys of a result
    dictionary are strings, so None is never found. *)
Definition subscript (r : result) (key : option string) : call pyval :=
  match r with
  | RDict d =>
      match key with
      | Some k =>
          match d !! k with
          | Some v => Returns v
          | None => Throws (Exn KeyError k None)
          end
      | None => Throws (Exn KeyError "None" None)
      end
  | RValue _ => Throws (Exn TypeError "object is not subscriptable" None)
  end.

(** [v.lower()] on a value of a result. *)
Definition val_lower (v : pyval) : call string :=
  match v with
  | PStr s => Returns (PyStr.lower s)
  | _ => Throws (Exn AttributeError "object has no attribute 'lower'" None)
  end.

(** [str(key)] inside the f-string. *)
Definition key_str (key : option string) : string :=
  match key with Some k => k | None => "None" end.

Definition fmt_detail : string := "    %60s: %s".

Definition catches_detail (c : exn_class) : bool :=
  match c with
  | AttributeError | KeyError | TypeError => true
  | _ => false
  end.

(** What the inner [try] of [log_details] decides for a result. *)
Inductive fault_check :=
  | Deferred                 (* appended to failed_calls, [continue] *)
  | Printed                  (* not a fault, or no such key *)
  | CheckRaises (e : exn).   (* leaves the inner try *)

Definition check_fault (r : result) : fault_check :=
  match subscript r (Some "faultstring") with
  | Returns v =>
      match val_lower v with
      | Returns s => if String.eqb s "upnperror" then Deferred else Printed
      | Throws e => CheckRaises e
      end
  | Throws e =>
      if bool_decide (exn_cls e = KeyError) then Printed else CheckRaises e
  end.

(** One turn of the loop of [log_details]; [failed_calls] is threaded. *)
Definition log_detail_step (device : Device)
    (failed_calls : list (string * result))
    (item : string * string * option string) : M (list (string * result)) :=
  let '(service_name, action_name, key) := item in
  let name := service_name ++ "." ++ action_name in
  let name_key := name ++ "[" ++ key_str key ++ "]" in
  let warn (nm : string) (exc : exn) : M (list (string * result)) :=
    log WARNING fmt_detail [AStr ("Failed to get result for s" ++ nm); AExn exc] ;;;
    ret failed_calls in
  emit (CallAction (dev_str device) service_name action_name) ;;;
  match dev_action device service_name action_name with
  | Throws exc =>
      if catches_detail (exn_cls exc) then warn name exc else raise exc
  | Returns res =>
      match check_fault res with
      | Deferred => ret (failed_calls ++ [(name, res)])%list
      | CheckRaises exc =>
          if catches_detail (exn_cls exc) then warn name exc else raise exc
      | Printed =>
          match subscript res key with
          | Returns v => log INFO fmt_detail [AStr name_key; AVal v] ;;; ret failed_calls
          | Throws exc =>
              if bool_decide (exn_cls exc = KeyError)
              then log INFO fmt_detail [AStr name_key; ARes res] ;;; ret failed_calls
              else if catches_detail (exn_cls exc) then warn name_key exc
                   else raise exc
          end
      end
  end.

(** The loop of [log_details] over [data_to_print]. *)
Fixpoint log_detail_loop (device : Device)
    (items : list (string * string * option string))
    (failed_calls : list (string * result)) : M (list (string * result)) :=
  match items with
  | [] => ret failed_calls
  | item :: rest =>
      failed <- log_detail_step device failed_calls item ;;
      log_detail_loop device rest failed
  end.

Definition msg_failed_calls : string :=
  "    The results below resulted in an error.  This may be due to the action no longer working or that the method requires an argument.".

(** The report of the deferred calls, after the loop. *)
Definition log_failed_calls (failed_calls : list (string * result)) : M unit :=
  (match failed_calls with
   | [] => ret tt
   | _ => log WARNING msg_failed_calls []
   end) ;;;
  for_each failed_calls
    (fun '(name, res) => log INFO fmt_detail [AStr name; ARes res]).

(** The body of [log_details] for a given list of calls. *)
Definition log_details_of (device : Device)
    (items : list (string * string * option string)) : M unit :=
  failed_calls <- log_detail_loop device items [] ;;
  log_failed_calls failed_calls.

(** [log_details(device, verbose)] *)
Definition log_details (device : Device) (verbose : Z) : M unit :=
  log_details_of device (data_to_print device verbose).

(* ===================================================================== *)
(** ** Discovery *)
(* ===================================================================== *)

(** The loop of [discover_and_log_devices] with [only_needing_setup]:
    [not_setup] collects the devices whose network status is not '1'. *)
Fixpoint needing_setup_loop (devices : list Device) (not_setup : list Device)
    : M (list Device) :=
  match devices with
  | [] => ret not_setup
  | device :: rest =>
      status <- do_call (CallNetworkStatus (dev_str device))
                  (dev_network_status device) ;;
      (if negb (String.eqb status "1")
       then log INFO "found device needing setup: %s" [AStr (dev_str device)] ;;;
            needing_setup_loop rest (not_setup ++ [device])%list
       else needing_setup_loop rest not_setup)
  end.

(** [discover_and_log_devices(only_needing_setup, verbose)].  The first
    argument of the model, [net], is the access point the host has joined
    when the function runs (None: its own network). *)
Definition discover_and_log_devices (env : Env) (net : option string)
    (only_needing_setup : bool) (verbose : Z) : M (list Device) :=
  emit Discover ;;;
  let devices := discover_devices env net in
  if only_needing_setup then needing_setup_loop devices []
  else
    for_each devices
      (fun device =>
         log INFO (DASHES (columns env)) [] ;;;
         log INFO "found device: %s" [AStr (dev_str device)] ;;;
         (if (0 <=? verbose)%Z then log_details device verbose else ret tt)) ;;;
    (match devices with
     | [] => ret tt
     | _ => log INFO (DASHES (columns env)) []
     end) ;;;
    log INFO "found %s devices" [AInt (Z.of_nat (length devices))] ;;;
    ret devices.

(** [connect_to_wemo_and_setup(wemossid, ssid, password, timeout=20.0)] *)
Definition connect_to_wemo_and_setup (env : Env)
    (wemossid ssid password : string) : M unit :=
  networks <- nmcli_guard (subprocess_run env (argv_connect wemossid) true)
                msg_nmcli_connect_failed ;;
  let args := PyStr.join " " (argv_connect wemossid) in
  let stdout := PyStr.strip (fst networks) in
  log DEBUG fmt_result_of [AStr args; AStr stdout] ;;;
  emit (Sleep 2) ;;;
  log INFO "searching %s for wemo devices" [AStr wemossid] ;;;
  devices <- discover_and_log_devices env (Some wemossid) true 0 ;;
  for_each devices
    (fun device =>
       do_call (CallSetup (dev_str device) ssid password (Some 20%Z))
         (dev_setup device ssid password (Some 20%Z))).

(** [wemo_discover(verbose, info)], after the logger is set up. *)
Definition wemo_discover (env : Env) (info : Z) : M unit :=
  discover_and_log_devices env None false (info + 1) ;;; ret tt.

(* ===================================================================== *)
(** ** Rename *)
(* ===================================================================== *)

(** The two dictionaries the rename file is loaded into. *)
Record names := Names {
  udn_to_name : gmap string string;
  ip_to_name : gmap string string
}.

Definition no_names : names := Names ∅ ∅.

(** What unpacking more than three values into three names raises. *)
Definition unpack_error : exn :=
  Exn ValueError "too many values to unpack (expected 3)" None.

(** One turn of the loop over [csv.reader(fin)]: a row is the list of its
    fields.  The three-name unpacking needs exactly three. *)
Definition read_row (maps : names) (row : list string) : outcome names :=
  if (length row <? 3)%nat
     || PyStr.startswith (nth 0 row EmptyString) "#"
  then Ok maps
  else
    match map PyStr.strip row with
    | [udn; ip; name] =>
        if negb (PyStr.truthy name) then Ok maps
        else
          let udns := if PyStr.truthy udn
                      then <[udn := name]> (udn_to_name maps)
                      else udn_to_name maps in
          let ips := if PyStr.truthy ip
                     then <[ip := name]> (ip_to_name maps)
                     else ip_to_name maps in
          Ok (Names udns ips)
    | _ => Raised unpack_error
    end.

(** The loop over the rows that follow the header. *)
Fixpoint read_rows (maps : names) (rows : list (list string)) : outcome names :=
  match rows with
  | [] => Ok maps
  | row :: rest =>
      match read_row maps row with
      | Ok maps' => read_rows maps' rest
      | Raised e => Raised e
      end
  end.

(** [d.get(k, default)] *)
Definition dict_get (d : gmap string string) (k default : string) : string :=
  match d !! k with Some v => v | None => default end.

(** The name [wemo_rename] settles on for a device: by IP first, then by
    UDN, which overrides. *)
Definition chosen_name (maps : names) (device : Device) : string :=
  let udn := dev_UDN device in
  let ip := dev_host device in
  let name := dict_get (ip_to_name maps) ip EmptyString in
  dict_get (udn_to_name maps) udn name.

Definition fmt_no_name : string :=
  "no name found for device %s with UDN=" ++ PyStr.dquote ++ "%s" ++ PyStr.dquote
  ++ " and IP=" ++ PyStr.dquote ++ "%s" ++ PyStr.dquote.

(** The body of the loop of [wemo_rename] over the discovered devices. *)
Definition rename_device (maps : names) (device : Device) : M unit :=
  let name := chosen_name maps device in
  if PyStr.truthy name
  then log INFO "changing %s name to: %s" [AStr (dev_str device); AStr name] ;;;
       do_call (CallRename (dev_str device) name) (dev_rename device name)
  else log INFO fmt_no_name
         [AStr (dev_str device); AStr (dev_UDN device); AStr (dev_host device)].

(** [wemo_rename(verbose, path)], after the logger is set up; [rows] are the
    rows [csv.reader] yields for the file at [path] once its first line, the
    header, has been read off. *)
Definition wemo_rename (env : Env) (rows : list (list string)) : M unit :=
  maps <- ([], read_rows no_names rows) ;;
  devices <- discover_and_log_devices env None false 0 ;;
  for_each devices (rename_device maps).

(* ===================================================================== *)
(** ** Reset and setup *)
(* ===================================================================== *)

(** The selection loop of the single-device modes of reset and setup:
    [if device.name.lower() == name.lower(): selected = device; break].
    The second component counts the loop's iterations. *)
Fixpoint select_by_name (devices : list Device) (name : string)
    : option Device * nat :=
  match devices with
  | [] => (None, O)
  | device :: rest =>
      if String.eqb (PyStr.lower (dev_name device)) (PyStr.lower name)
      then (Some device, 1%nat)
      else let '(selected, n) := select_by_name rest name in (selected, S n)
  end.

Definition msg_not_found (name : string) : string :=
  "device named " ++ PyStr.dquote ++ name ++ PyStr.dquote ++ " not found".

Definition prompt_reset_all (n : nat) : string :=
  "Are you sure you want to reset all " ++ pretty n ++ " devices listed above?".

Definition prompt_setup_all (n : nat) : string :=
  "Are you sure you want to setup all " ++ pretty n ++ " "
  ++ PyStr.dquote ++ "expected wemo" ++ PyStr.dquote ++ " devices listed above?".

(** [click.confirm(prompt)] *)
Definition ask (env : Env) (prompt : string) : M bool :=
  emit (Confirm prompt (confirm env prompt)) ;;; ret (confirm env prompt).

(** The body of the reset-all loop for one device. *)
Definition reset_one (env : Env) (data wifi : bool) (device : Device) : M unit :=
  log INFO (DASHES (columns env)) [] ;;;
  try_except
    (do_call (CallReset (dev_str device) data wifi) (dev_reset device data wifi))
    (is_class ResetException)
    (fun exc =>
       log_exc ERROR exc ;;;
       log ERROR "|-- thus skipping: %s" [AStr (dev_str device)]).

(** What stands inside the [try] of [click_wemo_reset]. *)
Definition reset_body (env : Env) (data wifi reset_all : bool)
    (name : option string) : M unit :=
  (if reset_all then
     devices <- discover_and_log_devices env None false 0 ;;
     (match name with
      | Some _ =>
          log WARNING "name %s ignored, all discovered devices will be reset" []
      | None => ret tt
      end) ;;;
     match devices with
     | [] => ret tt
     | _ =>
         yes <- ask env (prompt_reset_all (length devices)) ;;
         if yes then
           for_each devices (reset_one env data wifi) ;;;
           log INFO (DASHES (columns env)) []
         else ret tt
     end
   else
     match name with
     | Some name =>
         devices <- discover_and_log_devices env None false 0 ;;
         match fst (select_by_name devices name) with
         | None => raise (Exn ResetException (msg_not_found name) None)
         | Some selected =>
             do_call (CallReset (dev_str selected) data wifi)
               (dev_reset selected data wifi)
         end
     | None =>
         raise (Exn ResetException "--reset-all or --name=<str> is required" None)
     end) ;;;
  log INFO "devices will take approximately 90 seconds to reset" [].

(** [click_wemo_reset(verbose, data, wifi, full, reset_all, name)], after
    the logger is set up. *)
Definition click_wemo_reset (env : Env) (data wifi full reset_all : bool)
    (name : option string) : M unit :=
  let data := if full then true else data in
  let wifi := if full then true else wifi in
  try_except (reset_body env data wifi reset_all name)
    (is_class ResetException)
    (fun exc => log_exc CRITICAL exc).

Definition msg_no_aps : string :=
  "No valid Wemo device AP's found.  Try running this again, otherwise consider directly connecting to the devices network and using the --name option.".

(** The body of the setup-all loop for one access point. *)
Definition setup_one (env : Env) (ssid password wemo_ap : string) : M unit :=
  log INFO (DASHES (columns env)) [] ;;;
  try_except (connect_to_wemo_and_setup env wemo_ap ssid password)
    (is_class SetupException)
    (fun exc =>
       log_exc ERROR exc ;;;
       log ERROR "|-- thus skipping: %s" [AStr wemo_ap]).

(** The reconnection of the host to the network it was on. *)
Definition reconnect (env : Env) (current : string) : M unit :=
  if PyStr.truthy current && negb (is_wemo_ssid current) then
    try_except
      (log INFO "attempting to reconnect host to %s" [AStr current] ;;;
       subprocess_run env (argv_connect current) true ;;; ret tt)
      (fun c => is_class CalledProcessError c || is_class FileNotFoundError c)
      (fun _ => ret tt)
  else ret tt.

(** What stands inside the [try] of [click_wemo_setup]. *)
Definition setup_body (env : Env) (ssid password : string) (setup_all : bool)
    (name : option string) : M unit :=
  log INFO (DASHES (columns env)) [] ;;;
  log INFO
    "NOTE: If some or all devices fail to connect, try re-running the same command a second time!"
    [] ;;;
  log INFO (DASHES (columns env)) [] ;;;
  if setup_all then
    found <- find_wemo_aps env ;;
    let '(wemo_aps, current) := found in
    match wemo_aps with
    | [] => raise (Exn SetupException msg_no_aps None)
    | _ =>
        yes <- ask env (prompt_setup_all (length wemo_aps)) ;;
        if yes then
          log INFO (DASHES (columns env)) [] ;;;
          password <- (if negb (PyStr.truthy password)
                       then emit Getpass ;;; ret (getpass env)
                       else ret password) ;;
          for_each wemo_aps (setup_one env ssid password) ;;;
          log INFO (DASHES (columns env)) [] ;;;
          reconnect env current
        else ret tt
    end
  else
    match name with
    | Some name =>
        devices <- discover_and_log_devices env None false 0 ;;
        match fst (select_by_name devices name) with
        | None => raise (Exn SetupException (msg_not_found name) None)
        | Some selected =>
            do_call (CallSetup (dev_str selected) ssid password None)
              (dev_setup selected ssid password None)
        end
    | None =>
        raise (Exn SetupException "--setup-all or --name=<str> is required" None)
    end.

(** [click_wemo_setup(verbose, ssid, password, setup_all, name)], after the
    logger is set up. *)
Definition click_wemo_setup (env : Env) (ssid password : string)
    (setup_all : bool) (name : option string) : M unit :=
  try_except (setup_body env ssid password setup_all name)
    (is_class SetupException)
    (fun exc => log_exc CRITICAL exc).

(* ===================================================================== *)
(** ** Observers of traces and sample inputs *)
(* ===================================================================== *)

(** A row the loader passes over: fewer than three fields, a first field
    that starts with the comment sign, or three fields the last of which is
    blank. *)
Definition skipped_row (row : list string) : bool :=
  (length row <? 3)%nat
  || PyStr.startswith (nth 0 row EmptyString) "#"
  || ((length row =? 3)%nat
      && negb (PyStr.truthy (PyStr.strip (nth 2 row EmptyString)))).

(** Every name stored in a dictionary is a non-empty string. *)
Definition all_named (d : gmap string string) : Prop :=
  forall k v, d !! k = Some v -> PyStr.truthy v = true.

(** A line of the listing the scan passes over. *)
Definition blank_line (line : string) : bool :=
  negb (PyStr.truthy (PyStr.strip line)).

(** The SSID of a line of the listing: what stands before its last four
    colons. *)
Definition ssid_of_line (line : string) : string :=
  nth 0 (PyStr.rsplit ":" 4 line) EmptyString.

(** The SSIDs the listing names, in order. *)
Definition listed_ssids (lines : list string) : list string :=
  map ssid_of_line (List.filter (fun line => negb (blank_line line)) lines).

(** A line the scan can read: blank, or with at least four colons. *)
Definition well_formed_line (line : string) : bool :=
  blank_line line || (length (PyStr.rsplit ":" 4 line) =? 5)%nat.

(** What the scan raises when nmcli is missing, and when nmcli exits with
    a non-zero status. *)
Definition scanner_unavailable : exn :=
  Exn SetupException msg_nmcli_missing (Some FileNotFoundError).
Definition scan_error : exn :=
  Exn SetupException msg_nmcli_failed (Some CalledProcessError).

(** An event discovery may produce: a record at level info or warning, the
    discovery itself, or a diagnostic call on a device. *)
Definition discovery_event (ev : event) : Prop :=
  match ev with
  | Log INFO _ _ | Log WARNING _ _ => True
  | Discover | CallAction _ _ _ | CallNetworkStatus _ => True
  | _ => False
  end.

(** The devices whose reset was called, in the order of the calls. *)
Definition reset_attempts (t : list event) : list string :=
  flat_map (fun ev => match ev with CallReset d _ _ => [d] | _ => [] end) t.

(** The devices of the records that tell of a skipped device. *)
Definition skip_record (ev : event) : list string :=
  match ev with
  | Log ERROR fmt [AStr d] =>
      if bool_decide (fmt = "|-- thus skipping: %s") then [d] else []
  | _ => []
  end.

Definition skipped_devices (t : list event) : list string :=
  flat_map skip_record t.

(** The critical records of a trace. *)
Definition critical_records (t : list event) : list string :=
  flat_map (fun ev => match ev with Log CRITICAL msg _ => [msg] | _ => [] end) t.

(** The reset of a device raises. *)
Definition reset_fails (data wifi : bool) (d : Device) : bool :=
  match dev_reset d data wifi with Throws _ => true | Returns _ => false end.

(** The reset of a device returns, or raises a reset error. *)
Definition reset_error_only (data wifi : bool) (d : Device) : bool :=
  match dev_reset d data wifi with
  | Throws e => bool_decide (exn_cls e = ResetException)
  | Returns _ => true
  end.

(** What one turn of the reset-all loop leaves in the trace: the separator,
    the call, and for a failed call the error and the record of the skip. *)
Definition reset_events (env : Env) (data wifi : bool) (d : Device) : list event :=
  Log INFO (DASHES (columns env)) []
  :: CallReset (dev_str d) data wifi
  :: match dev_reset d data wifi with
     | Returns _ => []
     | Throws exc =>
         [ Log ERROR (exn_msg exc) [];
           Log ERROR "|-- thus skipping: %s" [AStr (dev_str d)] ]
     end.

(** The warning of reset-all about a name it does not use. *)
Definition name_warning (name : option string) : list event :=
  match name with
  | Some _ => [Log WARNING "name %s ignored, all discovered devices will be reset" []]
  | None => []
  end.

(** A device with the given identity whose methods all succeed, except that
    [reset] behaves as told. *)
Definition sample_device (name host udn : string) (reset : call unit) : Device :=
  {| dev_str := name;
     dev_name := name;
     dev_host := host;
     dev_UDN := udn;
     dev_services := [];
     dev_action := fun _ _ => Returns (RDict ∅);
     dev_network_status := Returns "0";
     dev_reset := fun _ _ => reset;
     dev_setup := fun _ _ _ => Returns tt;
     dev_rename := fun _ => Returns tt |}.

(** A host that finds [devices] on its own network and nothing on any
    access point, where the prompt is answered [answer] and nmcli prints
    [listing] for the list of networks. *)
Definition sample_env (devices : list Device) (answer : bool)
    (listing : run_result) : Env :=
  {| nmcli := fun argv =>
       if bool_decide (argv = argv_list) then listing
       else Completed 0 EmptyString EmptyString;
     discover_devices := fun net =>
       match net with None => devices | Some _ => [] end;
     confirm := fun _ => answer;
     getpass := "secret";
     columns := 12 |}.

(** A listing with two access points of devices and the host's own
    network, which is in use. *)
Definition sample_listing : string :=
  PyStr.join (String PyStr.LF EmptyString)
    [ "wemo.livingroom::1:50:";
      "WEMO.KITCHEN::6:60:";
      "mywemodevice:*:11:70:WPA2" ].

(** Three devices, the second of which refuses to be reset. *)
Definition sample_devices : list Device :=
  [ sample_device "Lamp" "10.0.0.5" "uuid:Socket-1" (Returns tt);
    sample_device "Fan" "10.0.0.6" "uuid:Socket-2"
      (Throws (Exn ResetException "Fan could not be reset" None));
    sample_device "Porch" "10.0.0.7" "uuid:Socket-3" (Returns tt) ].

(** The prompts shown to the user. *)
Definition prompts (t : list event) : list string :=
  flat_map (fun ev => match ev with Confirm p _ => [p] | _ => [] end) t.

(** The number a record found N devices tells, if the event is one. *)
Definition found_report (ev : event) : list Z :=
  match ev with
  | Log INFO fmt [AInt n] =>
      if bool_decide (fmt = "found %s devices") then [n] else []
  | _ => []
  end.

(** The numbers of the records found N devices. *)
Definition found_reports (t : list event) : list Z := flat_map found_report t.

(** A call on a device. *)
Definition device_call (ev : event) : bool :=
  match ev with
  | CallAction _ _ _ | CallNetworkStatus _ | CallReset _ _ _
  | CallSetup _ _ _ _ | CallRename _ _ => true
  | _ => false
  end.

(** The calls on devices in a trace. *)
Definition device_calls (t : list event) : list event := List.filter device_call t.

(** The last steps of [connect_to_wemo_and_setup]: the discovery on the
    access point and the setup of what it finds. *)
Definition setup_found_devices (env : Env) (wemossid ssid password : string)
    : M unit :=
  devices <- discover_and_log_devices env (Some wemossid) true 0 ;;
  for_each devices
    (fun device =>
       do_call (CallSetup (dev_str device) ssid password (Some 20%Z))
         (dev_setup device ssid password (Some 20%Z))).

(** A result is a fault when its faultstring is a string that lowers to
    upnperror. *)
Definition is_fault (res : result) : bool :=
  match res with
  | RDict d =>
      match d !! "faultstring" with
      | Some (PStr s) => String.eqb (PyStr.lower s) "upnperror"
      | _ => false
      end
  | RValue _ => false
  end.

(** A diagnostic call returns, or raises one of the three classes
    [log_details] handles. *)
Definition benign_call (device : Device)
    (item : string * string * option string) : bool :=
  match dev_action device (fst (fst item)) (snd (fst item)) with
  | Returns _ => true
  | Throws exc => catches_detail (exn_cls exc)
  end.

(** The calls whose result is a fault, with the name they are reported
    under. *)
Definition deferred_calls (device : Device)
    (items : list (string * string * option string)) : list (string * result) :=
  flat_map
    (fun item =>
       match dev_action device (fst (fst item)) (snd (fst item)) with
       | Returns res =>
           if is_fault res
           then [(fst (fst item) ++ "." ++ snd (fst item), res)] else []
       | Throws _ => []
       end) items.

(** The report of the deferred calls: the warning, if there is any, and one
    record for each. *)
Definition failed_section (failed_calls : list (string * result)) : list event :=
  (match failed_calls with
   | [] => []
   | _ => [Log WARNING msg_failed_calls []]
   end
   ++ map (fun call => Log INFO fmt_detail [AStr (fst call); ARes (snd call)])
        failed_calls)%list.

(** The diagnostic calls of a trace, in order. *)
Definition action_calls (t : list event) : list (string * string) :=
  flat_map
    (fun ev => match ev with CallAction _ s a => [(s, a)] | _ => [] end) t.

(** A device all of whose actions behave as told. *)
Definition probe_device (answer : call result) : Device :=
  {| dev_str := "Lamp";
     dev_name := "Lamp";
     dev_host := "10.0.0.5";
     dev_UDN := "uuid:Socket-1";
     dev_services := [];
     dev_action := fun _ _ => answer;
     dev_network_status := Returns "1";
     dev_reset := fun _ _ => Returns tt;
     dev_setup := fun _ _ _ => Returns tt;
     dev_rename := fun _ => Returns tt |}.

(** A device that reports a fault for GetMacAddr, does not know
    GetMetaInfo, and answers the other actions. *)
Definition mixed_device : Device :=
  {| dev_str := "Lamp";
     dev_name := "Lamp";
     dev_host := "10.0.0.5";
     dev_UDN := "uuid:Socket-1";
     dev_services := [];
     dev_action := fun _ action =>
       if String.eqb action "GetMacAddr"
       then Returns (RDict (<["faultstring" := PStr "UPnPError"]> ∅))
       else if String.eqb action "GetMetaInfo"
            then Throws (Exn KeyError "GetMetaInfo" None)
            else Returns (RDict (<["FriendlyName" := PStr "Lamp"]> ∅));
     dev_network_status := Returns "1";
     dev_reset := fun _ _ => Returns tt;
     dev_setup := fun _ _ _ => Returns tt;
     dev_rename := fun _ => Returns tt |}.

(** The three records [click_wemo_setup] starts with. *)
Definition setup_banner (env : Env) : list event :=
  [ Log INFO (DASHES (columns env)) [];
    Log INFO
      "NOTE: If some or all devices fail to connect, try re-running the same command a second time!"
      [];
    Log INFO (DASHES (columns env)) [] ].

(** What follows the first occurrence of an event in a trace. *)
Fixpoint events_after (ev : event) (t : list event) : list event :=
  match t with
  | [] => []
  | x :: t' => if bool_decide (x = ev) then t' else events_after ev t'
  end.

(** A host that sees the access points of [sample_listing] and cannot join
    the first of them. *)
Definition unreachable_ap_env : Env :=
  {| nmcli := fun argv =>
       if bool_decide (argv = argv_list)
       then Completed 0 sample_listing EmptyString
       else if bool_decide (argv = argv_connect "wemo.livingroom")
            then Completed 10 EmptyString "No network with SSID found"
            else Completed 0 EmptyString EmptyString;
     discover_devices := fun _ => [];
     confirm := fun _ => true;
     getpass := "secret";
     columns := 12 |}.

(** The rename calls of a trace: device and new name, in order. *)
Definition rename_calls (t : list event) : list (string * string) :=
  flat_map (fun ev => match ev with CallRename d n => [(d, n)] | _ => [] end) t.

(** The devices whose setup was called, in the order of the calls. *)
Definition setup_attempts (t : list event) : list string :=
  flat_map (fun ev => match ev with CallSetup d _ _ _ => [d] | _ => [] end) t.

(** The networks nmcli was asked to join, in order. *)
Definition connect_attempt (ev : event) : list string :=
  match ev with
  | Run [_; _; _; _; ssid] =>
      if bool_decide (ev = Run (argv_connect ssid)) then [ssid] else []
  | _ => []
  end.

Definition connect_attempts (t : list event) : list string :=
  flat_map connect_attempt t.

(** The rename call [wemo_rename] makes for a device, if it has a name for
    it. *)
Definition planned_rename (maps : names) (device : Device)
    : list (string * string) :=
  if PyStr.truthy (chosen_name maps device)
  then [(dev_str device, chosen_name maps device)] else [].

(** The rename of a device, if one is due, returns. *)
Definition rename_returns (maps : names) (device : Device) : bool :=
  if PyStr.truthy (chosen_name maps device)
  then match dev_rename device (chosen_name maps device) with
       | Returns _ => true
       | Throws _ => false
       end
  else true.

(** A device that cannot be renamed. *)
Definition stubborn_device (name host udn : string) : Device :=
  {| dev_str := name;
     dev_name := name;
     dev_host := host;
     dev_UDN := udn;
     dev_services := [];
     dev_action := fun _ _ => Returns (RDict ∅);
     dev_network_status := Returns "0";
     dev_reset := fun _ _ =>
       Throws (Exn (OtherError "ConnectionError") "no route to host" None);
     dev_setup := fun _ _ _ =>
       Throws (Exn SetupException "device did not join the network" None);
     dev_rename := fun _ =>
       Throws (Exn (OtherError "ConnectionError") "no route to host" None) |}.

(** The SSIDs of the lines of the listing that are marked as in use. *)
Definition in_use_ssids (lines : list string) : list string :=
  map ssid_of_line
    (List.filter
       (fun line =>
          negb (blank_line line)
          && String.eqb (nth 1 (PyStr.rsplit ":" 4 line) EmptyString) "*")
       lines).

(** The first in-use SSID that is not the empty string, if any. *)
Definition first_in_use (lines : list string) : string :=
  hd EmptyString (List.filter PyStr.truthy (in_use_ssids lines)).

(** A listing whose second line lacks fields. *)
Definition broken_listing : string :=
  PyStr.join (String PyStr.LF EmptyString)
    [ "wemo.livingroom::1:50:"; "home:*"; "WEMO.KITCHEN::6:60:" ].

(** [c in s] *)
Fixpoint contains (c : ascii) (s : string) : bool :=
  match s with
  | EmptyString => false
  | String a s' => if ascii_dec a c then true else contains c s'
  end.

(** A line of the listing as nmcli prints it, from its five fields. *)
Definition listing_line (ssid in_use channel signal security : string) : string :=
  ssid ++ ":" ++ in_use ++ ":" ++ channel ++ ":" ++ signal ++ ":" ++ security.

(** The network status of a device can be read. *)
Definition status_returns (d : Device) : bool :=
  match dev_network_status d with Returns _ => true | Throws _ => false end.

(** The network status of a device is not '1': it is not set up. *)
Definition needs_setup (d : Device) : bool :=
  match dev_network_status d with
  | Returns status => negb (String.eqb status "1")
  | Throws _ => false
  end.

(** The setup of a device with the given credentials and the timeout of
    setup-all returns. *)
Definition setup_returns (ssid password : string) (d : Device) : bool :=
  match dev_setup d ssid password (Some 20%Z) with
  | Returns _ => true
  | Throws _ => false
  end.

(** What the discovery of the devices needing setup leaves in the trace for
    one device. *)
Definition status_events (d : Device) : list event :=
  CallNetworkStatus (dev_str d)
  :: if needs_setup d
     then [Log INFO "found device needing setup: %s" [AStr (dev_str d)]]
     else [].

(** How often the hidden password prompt was shown. *)
Definition getpass_count (t : list event) : nat :=
  length (List.filter (fun ev => bool_decide (ev = Getpass)) t).

(** A factory-fresh device and one that is set up already. *)
Definition fresh_device (name : string) : Device :=
  sample_device name "10.22.22.1" name (Returns tt).

Definition configured_device (name : string) : Device :=
  {| dev_str := name;
     dev_name := name;
     dev_host := "10.22.22.1";
     dev_UDN := name;
     dev_services := [];
     dev_action := fun _ _ => Returns (RDict ∅);
     dev_network_status := Returns "1";
     dev_reset := fun _ _ => Returns tt;
     dev_setup := fun _ _ _ => Returns tt;
     dev_rename := fun _ => Returns tt |}.

(** A host that, once it has joined an access point, finds the given
    devices there. *)
Definition ap_env (devices : list Device) (answer : bool) : Env :=
  {| nmcli := fun argv =>
       if bool_decide (argv = argv_list)
       then Completed 0 sample_listing EmptyString
       else Completed 0 EmptyString EmptyString;
     discover_devices := fun net =>
       match net with None => [] | Some _ => devices end;
     confirm := fun _ => answer;
     getpass := "secret";
     columns := 12 |}.

(** The service and the action of a diagnostic call. *)
Definition call_of (item : string * string * option string) : string * string :=
  (fst (fst item), snd (fst item)).

(** A device with two services and actions of several kinds. *)
Definition rich_device : Device :=
  {| dev_str := "Lamp";
     dev_name := "Lamp";
     dev_host := "10.0.0.5";
     dev_UDN := "uuid:Socket-1";
     dev_services :=
       [ ("basicevent", ["GetFriendlyName"; "SetBinaryState"; "getSignalStrength"]);
         ("WiFiSetup", ["GetApList"; "GetNetworkStatus"; "ConnectHomeNetwork"]) ];
     dev_action := fun _ _ => Returns (RDict ∅);
     dev_network_status := Returns "1";
     dev_reset := fun _ _ => Returns tt;
     dev_setup := fun _ _ _ => Returns tt;
     dev_rename := fun _ => Returns tt |}.

(** What running a program that may not be executed raises: an OSError
    that is neither of the two classes the script handles. *)
Definition permission_error : exn :=
  Exn (OtherError "PermissionError") "[Errno 13] Permission denied: 'nmcli'" None.

(** A host where every run of nmcli ends as [result]. *)
Definition reconnect_env (result : run_result) : Env :=
  {| nmcli := fun _ => result;
     discover_devices := fun _ => [];
     confirm := fun _ => true;
     getpass := "secret";
     columns := 12 |}.

(** A host where the rescan is refused, with exit status 10, and the
    listing then prints [sample_listing]. *)
Definition rescan_refused_env : Env :=
  {| nmcli := fun argv =>
       if bool_decide (argv = argv_list)
       then Completed 0 sample_listing EmptyString
       else Completed 10 EmptyString
              "Error: Scanning not allowed immediately following previous scan.";
     discover_devices := fun _ => [];
     confirm := fun _ => true;
     getpass := "secret";
     columns := 12 |}.

(** The events of the turns of the rename loop for [devices]. *)
Definition rename_events (maps : names) (devices : list Device) : list event :=
  flat_map (fun x => trace_of (rename_device maps x)) devices.

(** A file that names the second of [sample_devices] by its UDN and gives
    another name for its address. *)
Definition precedence_rows : list (list string) :=
  [ ["uuid:Socket-2"; EmptyString; "Ceiling fan"];
    [EmptyString; "10.0.0.6"; "Heater"] ].

(** A file that knows the second of [sample_devices] by its address only,
    and the others not at all. *)
Definition address_rows : list (list string) :=
  [ [EmptyString; "10.0.0.6"; "Ceiling fan"] ].

(* ===================================================================== *)
(** * Properties *)
(* ===================================================================== *)

(** ** The monad *)

Lemma bind_Ok {A B} (t : list event) (a : A) (f : A -> M B) :
  bind (t, Ok a) f = ((t ++ trace_of (f a))%list, outcome_of (f a)).
Proof. unfold bind, trace_of, outcome_of. now destruct (f a). Qed.

Lemma bind_Raised {A B} (t : list event) (e : exn) (f : A -> M B) :
  bind (t, Raised e) f = (t, Raised e).
Proof. reflexivity. Qed.

Lemma M_eta {A} (m : M A) : m = (trace_of m, outcome_of m).
Proof. now destruct m. Qed.

Lemma bind_outcome_Ok {A B} (m : M A) (a : A) (f : A -> M B) :
  outcome_of m = Ok a ->
  bind m f = ((trace_of m ++ trace_of (f a))%list, outcome_of (f a)).
Proof.
  intros H. rewrite (M_eta m), H. apply bind_Ok.
Qed.

Lemma bind_outcome_Raised {A B} (m : M A) (e : exn) (f : A -> M B) :
  outcome_of m = Raised e -> bind m f = (trace_of m, Raised e).
Proof.
  intros H. rewrite (M_eta m), H. apply bind_Raised.
Qed.

(** A loop whose every turn ends normally ends normally, and its trace is
    the turns' traces one after the other. *)
Lemma for_each_Ok {A} (l : list A) (body : A -> M unit) :
  Forall (fun x => outcome_of (body x) = Ok tt) l ->
  for_each l body = (flat_map (fun x => trace_of (body x)) l, Ok tt).
Proof.
  induction 1 as [|x l Hx _ IH]; [reflexivity|].
  cbn [for_each flat_map].
  rewrite (bind_outcome_Ok _ tt _ Hx), IH. reflexivity.
Qed.

Lemma for_each_runs {A} (l : list A) (body : A -> M unit)
    (events : A -> list event) :
  Forall (fun x => body x = (events x, Ok tt)) l ->
  for_each l body = (flat_map events l, Ok tt).
Proof.
  induction 1 as [|x l Hx _ IH]; [reflexivity|].
  cbn [for_each flat_map]. now rewrite Hx, IH.
Qed.

(** ** Python strings *)

Example lower_WEMO : PyStr.lower "WEMO.Kitchen" = "wemo.kitchen".
Proof. reflexivity. Qed.

Example strip_spaces : PyStr.strip "  Kitchen Light  " = "Kitchen Light".
Proof. reflexivity. Qed.

Example rsplit_line :
  PyStr.rsplit ":" 4 "a:b:*:6:80:WPA2" = ["a:b"; "*"; "6"; "80"; "WPA2"].
Proof. reflexivity. Qed.

Example rsplit_short : PyStr.rsplit ":" 4 "a:b" = ["a"; "b"].
Proof. reflexivity. Qed.

Lemma truthy_false (s : string) : PyStr.truthy s = false <-> s = EmptyString.
Proof. destruct s; cbn; split; congruence. Qed.

Lemma truthy_true (s : string) : PyStr.truthy s = true <-> s <> EmptyString.
Proof. destruct s; cbn; split; congruence. Qed.

Lemma lstrip_no_hash (s : string) :
  PyStr.lstrip s = EmptyString -> PyStr.startswith s "#" = false.
Proof.
  destruct s as [|c s]; [reflexivity|]. cbn [PyStr.lstrip PyStr.startswith].
  destruct (ascii_dec "#" c) as [<-|]; [|reflexivity].
  cbn. discriminate.
Qed.

Lemma rstrip_head (c : ascii) (s : string) :
  PyStr.is_space c = false -> exists r, PyStr.rstrip (String c s) = String c r.
Proof.
  intros Hc. cbn [PyStr.rstrip]. destruct (PyStr.rstrip s); rewrite ?Hc; eauto.
Qed.

(** A field that strips to nothing does not start with the comment sign. *)
Lemma strip_empty_no_hash (s : string) :
  PyStr.strip s = EmptyString -> PyStr.startswith s "#" = false.
Proof.
  destruct s as [|c s]; [reflexivity|]. unfold PyStr.strip.
  destruct (PyStr.is_space c) eqn:Hc.
  - intros _. cbn [PyStr.startswith].
    destruct (ascii_dec "#" c) as [<-|]; [discriminate Hc|reflexivity].
  - destruct (rstrip_head c s Hc) as [r ->]. cbn [PyStr.lstrip].
    rewrite Hc. discriminate.
Qed.

(** ** The rename file *)

Lemma read_row_skipped (maps : names) (row : list string) :
  skipped_row row = true -> read_row maps row = Ok maps.
Proof.
  unfold skipped_row, read_row. intros H.
  destruct ((length row <? 3)%nat || PyStr.startswith (nth 0 row EmptyString) "#")
    eqn:Hskip; [reflexivity|].
  cbn [orb] in H. apply andb_prop in H as [Hlen Hname].
  apply Nat.eqb_eq in Hlen.
  destruct row as [|udn [|ip [|name [|x row]]]]; try discriminate Hlen.
  cbn [map nth] in *. now rewrite Hname.
Qed.

Lemma read_rows_app (maps : names) (pre post : list (list string)) :
  read_rows maps (pre ++ post) =
  match read_rows maps pre with
  | Ok maps' => read_rows maps' post
  | Raised e => Raised e
  end.
Proof.
  revert maps. induction pre as [|row pre IH]; intros maps; [reflexivity|].
  cbn [app read_rows]. destruct (read_row maps row); [apply IH|reflexivity].
Qed.

(** Dropping a skipped row from the file changes nothing. *)
Lemma read_rows_skipped (maps : names) (pre post : list (list string))
    (row : list string) :
  skipped_row row = true ->
  read_rows maps (pre ++ row :: post) = read_rows maps (pre ++ post).
Proof.
  intros H. rewrite !read_rows_app.
  destruct (read_rows maps pre) as [maps'|e]; [|reflexivity].
  cbn [read_rows]. now rewrite (read_row_skipped _ _ H).
Qed.

(** C4. Rows of the rename file, one turn of the loader's loop each.  A
    row whose UDN field is blank and whose IP and name fields are not
    stores the name under the IP only; a row of three fields whose name
    field is empty or only white space changes neither dictionary, and no
    row with such a third field ever yields changed dictionaries; a row
    whose first field starts with the comment sign changes neither,
    whatever its other fields; a row with fewer than three fields changes
    neither.  For the last three kinds the file without the row loads to
    the same dictionaries, and [wemo_rename] does the same with and without
    the row.  In the loader's loop over the rows of the file, a row of the
    first kind, coming after rows that load, adds its stripped name under
    its stripped IP to the IP dictionary the rows before it gave, leaves
    the UDN dictionary as they gave it, and the loop goes on from there;
    when no row follows, these are the dictionaries the devices are named
    from. *)
Theorem C4_read_row (maps : names) :
  (forall udn ip name,
      PyStr.strip udn = EmptyString ->
      PyStr.strip ip <> EmptyString ->
      PyStr.strip name <> EmptyString ->
      read_row maps [udn; ip; name] =
      Ok (Names (udn_to_name maps)
            (<[PyStr.strip ip := PyStr.strip name]> (ip_to_name maps))))
  /\ (forall udn ip name,
         PyStr.strip name = EmptyString ->
         read_row maps [udn; ip; name] = Ok maps)
  /\ (forall row name maps',
         nth_error row 2 = Some name ->
         PyStr.strip name = EmptyString ->
         read_row maps row = Ok maps' -> maps' = maps)
  /\ (forall first rest,
         PyStr.startswith first "#" = true ->
         read_row maps (first :: rest) = Ok maps)
  /\ (forall row, (length row < 3)%nat -> read_row maps row = Ok maps)
  /\ (forall row pre post,
         skipped_row row = true ->
         read_rows maps (pre ++ row :: post) = read_rows maps (pre ++ post))
  /\ (forall pre post maps1 udn ip name,
         read_rows maps pre = Ok maps1 ->
         PyStr.strip udn = EmptyString ->
         PyStr.strip ip <> EmptyString ->
         PyStr.strip name <> EmptyString ->
         read_rows maps (pre ++ [udn; ip; name] :: post)
         = read_rows
             (Names (udn_to_name maps1)
                (<[PyStr.strip ip := PyStr.strip name]> (ip_to_name maps1)))
             post)
  /\ (forall env pre maps1 udn ip name,
         read_rows no_names pre = Ok maps1 ->
         PyStr.strip udn = EmptyString ->
         PyStr.strip ip <> EmptyString ->
         PyStr.strip name <> EmptyString ->
         wemo_rename env (pre ++ [[udn; ip; name]])
         = (devices <- discover_and_log_devices env None false 0 ;;
            for_each devices
              (rename_device
                 (Names (udn_to_name maps1)
                    (<[PyStr.strip ip := PyStr.strip name]> (ip_to_name maps1))))))
  /\ (forall env row pre post,
         skipped_row row = true ->
         wemo_rename env (pre ++ row :: post) = wemo_rename env (pre ++ post)).
Proof.
  assert (Hpopulate : forall m udn ip name,
             PyStr.strip udn = EmptyString ->
             PyStr.strip ip <> EmptyString ->
             PyStr.strip name <> EmptyString ->
             read_row m [udn; ip; name] =
             Ok (Names (udn_to_name m)
                   (<[PyStr.strip ip := PyStr.strip name]> (ip_to_name m)))).
  { intros m udn ip name Hudn Hip Hname. unfold read_row.
    cbn [length nth map Nat.ltb Nat.leb orb].
    rewrite (strip_empty_no_hash _ Hudn), Hudn.
    apply truthy_true in Hip, Hname. now rewrite Hip, Hname. }
  split; [|split; [|split; [|split; [|split; [|split; [|split; [|split]]]]]]].
  - apply Hpopulate.
  - intros udn ip name Hname. apply read_row_skipped. unfold skipped_row.
    cbn [length nth Nat.eqb andb]. rewrite Hname. cbn. apply orb_true_r.
  - intros row name maps' Hnth Hname. unfold read_row.
    destruct ((length row <? 3)%nat || PyStr.startswith (nth 0 row EmptyString) "#");
      [congruence|].
    destruct row as [|f0 [|f1 [|f2 [|f3 row]]]]; try discriminate Hnth.
    + cbn in Hnth. injection Hnth as ->. cbn [map]. rewrite Hname. cbn. congruence.
    + discriminate.
  - intros first rest Hfirst. unfold read_row. cbn [nth].
    rewrite Hfirst. now rewrite orb_true_r.
  - intros row Hlen. unfold read_row.
    apply Nat.ltb_lt in Hlen. now rewrite Hlen.
  - intros row pre post. apply read_rows_skipped.
  - intros pre post maps1 udn ip name Hpre Hudn Hip Hname.
    rewrite read_rows_app, Hpre. cbn [read_rows].
    now rewrite (Hpopulate maps1 udn ip name Hudn Hip Hname).
  - intros env pre maps1 udn ip name Hpre Hudn Hip Hname. unfold wemo_rename.
    rewrite read_rows_app, Hpre. cbn [read_rows].
    rewrite (Hpopulate maps1 udn ip name Hudn Hip Hname). cbn [bind app].
    now destruct (bind _ _).
  - intros env row pre post Hrow. unfold wemo_rename.
    now rewrite (read_rows_skipped no_names pre post row Hrow).
Qed.

(** C4 at the rows of the specification: an empty UDN with an IP and a
    name, a blank name, a commented row and a short row; and at a file
    whose second row is the first of these. *)
Lemma C4_read_row_witness :
  read_row no_names [EmptyString; "10.0.0.5"; "Kitchen Light"]
  = Ok (Names ∅ (<["10.0.0.5" := "Kitchen Light"]> ∅))
  /\ read_row no_names ["uuid:Socket-1"; "10.0.0.5"; "   "] = Ok no_names
  /\ read_row no_names ["#uuid:Socket-1"; "10.0.0.5"; "Kitchen Light"] = Ok no_names
  /\ read_row no_names ["uuid:Socket-1"; "10.0.0.5"] = Ok no_names
  /\ read_rows no_names
       ([ ["uuid:Socket-1"; EmptyString; "Lamp"] ]
        ++ [EmptyString; " 10.0.0.5 "; "Kitchen Light"] :: [])
     = Ok (Names (<["uuid:Socket-1" := "Lamp"]> ∅)
             (<["10.0.0.5" := "Kitchen Light"]> ∅)).
Proof.
  destruct (C4_read_row no_names)
    as (Hip & Hblank & _ & Hhash & Hshort & _ & Hrows & _).
  split; [|split; [|split; [|split]]].
  - apply (Hip EmptyString "10.0.0.5" "Kitchen Light");
      [reflexivity | discriminate | discriminate].
  - apply (Hblank "uuid:Socket-1" "10.0.0.5" "   "). reflexivity.
  - apply (Hhash "#uuid:Socket-1" ["10.0.0.5"; "Kitchen Light"]). reflexivity.
  - apply (Hshort ["uuid:Socket-1"; "10.0.0.5"]). cbn. lia.
  - rewrite (Hrows [ ["uuid:Socket-1"; EmptyString; "Lamp"] ] []
               (Names (<["uuid:Socket-1" := "Lamp"]> ∅) ∅)
               EmptyString " 10.0.0.5 " "Kitchen Light");
      [reflexivity | reflexivity | reflexivity | discriminate | discriminate].
Defined.

Lemma read_row_long (maps : names) (row : list string) :
  (3 < length row)%nat ->
  PyStr.startswith (nth 0 row EmptyString) "#" = false ->
  read_row maps row = Raised unpack_error.
Proof.
  intros Hlen Hhash. unfold read_row. rewrite Hhash.
  destruct row as [|f0 [|f1 [|f2 [|f3 row]]]]; cbn in Hlen; try lia.
  reflexivity.
Qed.

(** C10. There is a row of more than three fields, which neither the
    comment test nor the short-row test passes over, on which the loader
    raises the unpacking ValueError, and [wemo_rename], which has no handler
    for it, ends with that error before any device is looked for.  This is
    so for every such row, wherever it stands after rows that load. *)
Theorem C10_long_row_fails :
  (exists row,
      (3 < length row)%nat
      /\ skipped_row row = false
      /\ (forall maps, read_row maps row = Raised unpack_error)
      /\ (forall env, wemo_rename env [row] = ([], Raised unpack_error)))
  /\ (forall row maps,
         (3 < length row)%nat ->
         PyStr.startswith (nth 0 row EmptyString) "#" = false ->
         read_row maps row = Raised unpack_error)
  /\ (forall env row pre post maps,
         (3 < length row)%nat ->
         PyStr.startswith (nth 0 row EmptyString) "#" = false ->
         read_rows no_names pre = Ok maps ->
         wemo_rename env (pre ++ row :: post) = ([], Raised unpack_error)).
Proof.
  split; [|split].
  - exists ["uuid:Socket-1"; "10.0.0.5"; "Kitchen Light"; "extra"].
    repeat split; try reflexivity. cbn. lia.
  - intros row maps. apply read_row_long.
  - intros env row pre post maps Hlen Hhash Hpre. unfold wemo_rename.
    rewrite read_rows_app, Hpre. cbn [read_rows].
    now rewrite (read_row_long _ _ Hlen Hhash).
Qed.

(** C10 at a file whose second row has four fields. *)
Lemma C10_long_row_fails_witness :
  wemo_rename (sample_env [] true NotInstalled)
    [ ["uuid:Socket-1"; "10.0.0.5"; "Kitchen Light"];
      ["uuid:Socket-2"; "10.0.0.6"; "Porch"; "extra"] ]
  = ([], Raised unpack_error).
Proof.
  destruct C10_long_row_fails as (_ & _ & H).
  apply (H (sample_env [] true NotInstalled)
           ["uuid:Socket-2"; "10.0.0.6"; "Porch"; "extra"]
           [ ["uuid:Socket-1"; "10.0.0.5"; "Kitchen Light"] ] []
           (Names (<["uuid:Socket-1" := "Kitchen Light"]> ∅)
                  (<["10.0.0.5" := "Kitchen Light"]> ∅))).
  - cbn. lia.
  - reflexivity.
  - reflexivity.
Defined.

(** The loader stores non-empty names only. *)
Lemma read_row_all_named (maps maps' : names) (row : list string) :
  all_named (udn_to_name maps) -> all_named (ip_to_name maps) ->
  read_row maps row = Ok maps' ->
  all_named (udn_to_name maps') /\ all_named (ip_to_name maps').
Proof.
  intros Hu Hi. unfold read_row.
  destruct ((length row <? 3)%nat || PyStr.startswith (nth 0 row EmptyString) "#").
  { intros [= <-]. now split. }
  destruct (map PyStr.strip row) as [|udn [|ip [|name [|x l]]]]; try discriminate.
  destruct (PyStr.truthy name) eqn:Hname; cbn [negb].
  2:{ intros [= <-]. now split. }
  intros [= <-]. cbn [udn_to_name ip_to_name]. split.
  - destruct (PyStr.truthy udn); [|exact Hu].
    intros k v. rewrite lookup_insert. case_decide; [congruence|apply Hu].
  - destruct (PyStr.truthy ip); [|exact Hi].
    intros k v. rewrite lookup_insert. case_decide; [congruence|apply Hi].
Qed.

Lemma read_rows_all_named (rows : list (list string)) (maps maps' : names) :
  all_named (udn_to_name maps) -> all_named (ip_to_name maps) ->
  read_rows maps rows = Ok maps' ->
  all_named (udn_to_name maps') /\ all_named (ip_to_name maps').
Proof.
  revert maps. induction rows as [|row rows IH]; intros maps Hu Hi; cbn [read_rows].
  - intros [= <-]. now split.
  - destruct (read_row maps row) as [m1|e] eqn:Hrow; [|discriminate].
    destruct (read_row_all_named _ _ _ Hu Hi Hrow). now apply IH.
Qed.

(** ** Selection by name *)

Lemma select_by_name_first (pre post : list Device) (d : Device) (name : string) :
  Forall (fun x => PyStr.lower (dev_name x) <> PyStr.lower name) pre ->
  PyStr.lower (dev_name d) = PyStr.lower name ->
  select_by_name (pre ++ d :: post) name = (Some d, S (length pre)).
Proof.
  intros Hpre Hd. induction Hpre as [|x pre Hx _ IH]; cbn [app select_by_name length].
  - apply String.eqb_eq in Hd. now rewrite Hd.
  - apply String.eqb_neq in Hx. now rewrite Hx, IH.
Qed.

Lemma select_by_name_none (devices : list Device) (name : string) :
  Forall (fun x => PyStr.lower (dev_name x) <> PyStr.lower name) devices ->
  select_by_name devices name = (None, length devices).
Proof.
  induction 1 as [|x l Hx _ IH]; cbn [select_by_name length]; [reflexivity|].
  apply String.eqb_neq in Hx. now rewrite Hx, IH.
Qed.

(** The selection finds a device exactly when one matches, and then it is
    the first that does. *)
Lemma select_by_name_spec (devices : list Device) (name : string) :
  match fst (select_by_name devices name) with
  | Some d =>
      exists pre post,
        devices = (pre ++ d :: post)%list
        /\ Forall (fun x => PyStr.lower (dev_name x) <> PyStr.lower name) pre
        /\ PyStr.lower (dev_name d) = PyStr.lower name
  | None => Forall (fun x => PyStr.lower (dev_name x) <> PyStr.lower name) devices
  end.
Proof.
  induction devices as [|x l IH]; cbn [select_by_name]; [constructor|].
  destruct (String.eqb (PyStr.lower (dev_name x)) (PyStr.lower name)) eqn:Hx.
  - apply String.eqb_eq in Hx. exists [], l. cbn. auto.
  - apply String.eqb_neq in Hx.
    destruct (select_by_name l name) as [[d|] n]; cbn [fst] in *.
    + destruct IH as (pre & post & -> & Hpre & Hd).
      exists (x :: pre), post. cbn. auto.
    + now constructor.
Qed.

(** C8. In the single-device modes of reset and setup the device selected
    is the first one, in discovery order, whose friendly name equals the
    target name once both are lowered; the loop stops there, after as many
    turns as there are devices up to that one, so the devices behind it play
    no part; the action of the command is called on that device.  With
    devices named Lamp and lamp2 the target LAMP selects the first. *)
Theorem C8_first_match (name : string) :
  (forall pre d post,
      Forall (fun x => PyStr.lower (dev_name x) <> PyStr.lower name) pre ->
      PyStr.lower (dev_name d) = PyStr.lower name ->
      select_by_name (pre ++ d :: post) name = (Some d, S (length pre)))
  /\ (forall devices d,
         fst (select_by_name devices name) = Some d ->
         exists pre post,
           devices = (pre ++ d :: post)%list
           /\ Forall (fun x => PyStr.lower (dev_name x) <> PyStr.lower name) pre
           /\ PyStr.lower (dev_name d) = PyStr.lower name)
  /\ (forall env data wifi pre d post,
         outcome_of (discover_and_log_devices env None false 0)
         = Ok (pre ++ d :: post)%list ->
         Forall (fun x => PyStr.lower (dev_name x) <> PyStr.lower name) pre ->
         PyStr.lower (dev_name d) = PyStr.lower name ->
         exists t,
           trace_of (click_wemo_reset env data wifi false false (Some name))
           = (trace_of (discover_and_log_devices env None false 0)
              ++ CallReset (dev_str d) data wifi :: t)%list
           /\ forall ev, In ev t -> exists lvl fmt args, ev = Log lvl fmt args)
  /\ (forall env ssid password pre d post,
         outcome_of (discover_and_log_devices env None false 0)
         = Ok (pre ++ d :: post)%list ->
         Forall (fun x => PyStr.lower (dev_name x) <> PyStr.lower name) pre ->
         PyStr.lower (dev_name d) = PyStr.lower name ->
         exists t,
           trace_of (click_wemo_setup env ssid password false (Some name))
           = (Log INFO (DASHES (columns env)) []
              :: Log INFO
                   "NOTE: If some or all devices fail to connect, try re-running the same command a second time!"
                   []
              :: Log INFO (DASHES (columns env)) []
              :: trace_of (discover_and_log_devices env None false 0)
              ++ CallSetup (dev_str d) ssid password None :: t)%list
           /\ forall ev, In ev t -> exists lvl fmt args, ev = Log lvl fmt args).
Proof.
  split; [|split; [|split]].
  - intros pre d post. apply select_by_name_first.
  - intros devices d Hsel. pose proof (select_by_name_spec devices name) as H.
    now rewrite Hsel in H.
  - intros env data wifi pre d post Hdisc Hpre Hd.
    unfold click_wemo_reset, reset_body.
    destruct (discover_and_log_devices env None false 0) as [tD [devs|e]];
      cbn [outcome_of snd] in Hdisc; [injection Hdisc as ->|discriminate].
    cbn [bind]. rewrite (select_by_name_first pre post d name Hpre Hd). cbn [fst].
    unfold do_call, emit, log, log_exc, try_except, is_class, trace_of, outcome_of.
    destruct (dev_reset d data wifi) as [[]|e]; cbn;
      [|case_bool_decide; cbn]; rewrite <- ?app_assoc; cbn [app];
      (eexists; split; [reflexivity|]); intros ev Hev;
      repeat (destruct Hev as [<-|Hev]; [eauto|]); destruct Hev.
  - intros env ssid password pre d post Hdisc Hpre Hd.
    unfold click_wemo_setup, setup_body.
    destruct (discover_and_log_devices env None false 0) as [tD [devs|e]];
      cbn [outcome_of snd] in Hdisc; [injection Hdisc as ->|discriminate].
    cbn [bind]. rewrite (select_by_name_first pre post d name Hpre Hd). cbn [fst].
    unfold do_call, emit, log, log_exc, try_except, is_class, trace_of, outcome_of.
    destruct (dev_setup d ssid password None) as [[]|e]; cbn;
      [|case_bool_decide; cbn]; rewrite <- ?app_assoc; cbn [app];
      (eexists; split; [reflexivity|]); intros ev Hev;
      repeat (destruct Hev as [<-|Hev]; [eauto|]); destruct Hev.
Qed.

(** C8 at the devices Lamp and lamp2 and the target LAMP. *)
Lemma C8_first_match_witness :
  select_by_name
    [ sample_device "Lamp" "10.0.0.5" "uuid:Socket-1" (Returns tt);
      sample_device "lamp2" "10.0.0.6" "uuid:Socket-2" (Returns tt) ] "LAMP"
  = (Some (sample_device "Lamp" "10.0.0.5" "uuid:Socket-1" (Returns tt)), 1%nat).
Proof.
  destruct (C8_first_match "LAMP") as (H & _).
  apply (H [] (sample_device "Lamp" "10.0.0.5" "uuid:Socket-1" (Returns tt))
           [sample_device "lamp2" "10.0.0.6" "uuid:Socket-2" (Returns tt)]).
  - constructor.
  - reflexivity.
Defined.

(** ** The access-point scan *)

Lemma subprocess_run_completed (env : Env) (argv : list string) (check : bool)
    (rc : Z) (out err : string) :
  nmcli env argv = Completed rc out err ->
  check = false \/ rc = 0%Z ->
  subprocess_run env argv check = ([Run argv], Ok (out, err)).
Proof.
  intros Hrun Hok. unfold subprocess_run. rewrite Hrun.
  destruct Hok as [-> | ->]; [reflexivity|].
  now rewrite andb_false_r.
Qed.

Lemma subprocess_run_missing (env : Env) (argv : list string) (check : bool) :
  nmcli env argv = NotInstalled ->
  subprocess_run env argv check
  = ([Run argv], Raised (Exn FileNotFoundError "No such file or directory" None)).
Proof. intros Hrun. unfold subprocess_run. now rewrite Hrun. Qed.

Lemma subprocess_run_raises (env : Env) (argv : list string) (check : bool)
    (e : exn) :
  nmcli env argv = RunRaises e ->
  subprocess_run env argv check = ([Run argv], Raised e).
Proof. intros Hrun. unfold subprocess_run. now rewrite Hrun. Qed.

Lemma subprocess_run_failed (env : Env) (argv : list string)
    (rc : Z) (out err : string) :
  nmcli env argv = Completed rc out err ->
  rc <> 0%Z ->
  subprocess_run env argv true
  = ([Run argv], Raised (Exn CalledProcessError "non-zero exit status" None)).
Proof.
  intros Hrun Hrc. unfold subprocess_run. rewrite Hrun.
  apply Z.eqb_neq in Hrc. now rewrite Hrc.
Qed.

(** The scan's loop never drops or reorders: what it returns is what it
    was given followed by the listed SSIDs that pass the test. *)
Lemma scan_lines_result (lines : list string) (nets : list string) (cur : string)
    (r : list string * string) :
  outcome_of (scan_lines lines nets cur) = Ok r ->
  fst r = (nets ++ List.filter is_wemo_ssid (listed_ssids lines))%list.
Proof.
  revert nets cur. induction lines as [|line lines IH]; intros nets cur.
  - cbn. intros [= <-]. cbn. now rewrite app_nil_r.
  - cbn [scan_lines]. unfold listed_ssids. cbn [List.filter]. unfold blank_line at 1.
    destruct (negb (PyStr.truthy (PyStr.strip line))) eqn:Hblank; cbn [negb].
    { apply IH. }
    cbn [map]. unfold ssid_of_line at 1.
    destruct (PyStr.rsplit ":" 4 line)
      as [|ssid [|in_use [|channel [|signal [|security [|x l]]]]]];
      try (cbn; discriminate).
    cbn [nth List.filter].
    destruct (String.eqb in_use "*"), (is_wemo_ssid ssid);
      unfold log, emit, ret; cbn [bind];
      match goal with
      | |- context [scan_lines lines ?n ?c] =>
          specialize (IH n c); destruct (scan_lines lines n c) as [t o]
      end;
      cbn [outcome_of snd] in *; intros Hr; rewrite (IH Hr);
      rewrite <- ?app_assoc; reflexivity.
Qed.

(** On a listing it can read the loop ends normally. *)
Lemma scan_lines_total (lines : list string) (nets : list string) (cur : string) :
  Forall (fun line => well_formed_line line = true) lines ->
  exists r, outcome_of (scan_lines lines nets cur) = Ok r.
Proof.
  intros Hwf. revert nets cur.
  induction Hwf as [|line lines Hline _ IH]; intros nets cur.
  - cbn. eauto.
  - cbn [scan_lines]. unfold well_formed_line, blank_line in Hline.
    destruct (negb (PyStr.truthy (PyStr.strip line))) eqn:Hblank; [apply IH|].
    cbn [orb] in Hline. apply Nat.eqb_eq in Hline.
    destruct (PyStr.rsplit ":" 4 line)
      as [|ssid [|in_use [|channel [|signal [|security [|x l]]]]]];
      try discriminate Hline.
    destruct (String.eqb in_use "*"), (is_wemo_ssid ssid);
      unfold log, emit, ret; cbn [bind];
      match goal with
      | |- context [scan_lines lines ?n ?c] =>
          destruct (IH n c) as [r Hr]; destruct (scan_lines lines n c) as [t o]
      end;
      cbn [outcome_of snd] in *; eauto.
Qed.

(** The test on an SSID is a prefix test on the lowered SSID. *)
Lemma startswith_spec (s p : string) :
  PyStr.startswith s p = true <-> exists rest, s = p ++ rest.
Proof.
  revert s. induction p as [|a p IH]; intros s; cbn [PyStr.startswith].
  - split; [intros _; now exists s|reflexivity].
  - destruct s as [|b s].
    + split; [discriminate|intros [rest H]; discriminate H].
    + destruct (ascii_dec a b) as [<-|Hab].
      * rewrite IH. split; intros [rest H]; exists rest.
        -- now rewrite H.
        -- change (String a s = String a (p ++ rest)) in H. now injection H.
      * split; [discriminate|intros [rest H]].
        change (String b s = String a (p ++ rest)) in H. injection H as H1 H2.
        now destruct Hab.
Qed.

Lemma find_wemo_aps_listing (env : Env) (rc0 : Z) (out0 err0 out err : string) :
  nmcli env argv_rescan = Completed rc0 out0 err0 ->
  nmcli env argv_list = Completed 0 out err ->
  find_wemo_aps env =
  let stdout := PyStr.strip out in
  let m := scan_lines (PyStr.split PyStr.LF stdout) [] EmptyString in
  ((Run argv_rescan :: Run argv_list
    :: Log DEBUG fmt_result_of [AStr (PyStr.join " " argv_list); AStr stdout]
    :: (if PyStr.truthy stdout then []
        else [Log WARNING "no result from nmcli, try again" []])
    ++ trace_of m)%list,
   outcome_of m).
Proof.
  intros Hrescan Hlist. unfold find_wemo_aps, nmcli_guard.
  rewrite (subprocess_run_completed env argv_rescan false rc0 out0 err0 Hrescan)
    by now left.
  rewrite (subprocess_run_completed env argv_list true 0 out err Hlist)
    by now right.
  cbn [bind try_except ret fst app]. cbv zeta.
  destruct (PyStr.truthy (PyStr.strip out)); cbn [negb];
    unfold log, emit, ret; cbn [bind app];
    destruct (scan_lines _ _ _) as [t o]; reflexivity.
Qed.

(** C7. In the access-point scan of setup-all an SSID of the listing is
    kept as a candidate exactly when its lowered form starts with the
    vendor prefix: on a listing the scan can read it returns the listed
    SSIDs that pass this test, in order, and an SSID passes if and only if
    lowering it gives the prefix followed by something.  So
    wemo.livingroom and WEMO.KITCHEN are kept and mywemodevice is not. *)
Theorem C7_ssid_filter (env : Env) (rc0 : Z) (out0 err0 out err : string) :
  nmcli env argv_rescan = Completed rc0 out0 err0 ->
  nmcli env argv_list = Completed 0 out err ->
  Forall (fun line => well_formed_line line = true)
    (PyStr.split PyStr.LF (PyStr.strip out)) ->
  let ssids := listed_ssids (PyStr.split PyStr.LF (PyStr.strip out)) in
  (exists cur,
      outcome_of (find_wemo_aps env) = Ok (List.filter is_wemo_ssid ssids, cur))
  /\ (forall ssid,
         In ssid ssids ->
         (In ssid (List.filter is_wemo_ssid ssids)
          <-> exists rest, PyStr.lower ssid = "wemo." ++ rest))
  /\ is_wemo_ssid "wemo.livingroom" = true
  /\ is_wemo_ssid "WEMO.KITCHEN" = true
  /\ is_wemo_ssid "mywemodevice" = false.
Proof.
  intros Hrescan Hlist Hwf ssids. split; [|split; [|now vm_compute]].
  - rewrite (find_wemo_aps_listing env rc0 out0 err0 out err Hrescan Hlist).
    destruct (scan_lines_total _ [] EmptyString Hwf) as [[nets cur] Hr].
    pose proof (scan_lines_result _ _ _ _ Hr) as Hnets. cbn [fst app] in Hnets.
    exists cur. cbv zeta. unfold outcome_of at 1. cbn [snd].
    rewrite Hr. now subst nets.
  - intros ssid Hin. rewrite filter_In. unfold is_wemo_ssid at 1.
    rewrite startswith_spec. tauto.
Qed.

(** C7 at a listing with the three SSIDs of the specification. *)
Lemma C7_ssid_filter_witness :
  exists cur,
    outcome_of (find_wemo_aps (sample_env [] true (Completed 0 sample_listing EmptyString)))
    = Ok (["wemo.livingroom"; "WEMO.KITCHEN"], cur).
Proof.
  destruct (C7_ssid_filter
              (sample_env [] true (Completed 0 sample_listing EmptyString))
              0 EmptyString EmptyString sample_listing EmptyString) as [H _].
  - reflexivity.
  - reflexivity.
  - vm_compute. repeat constructor.
  - exact H.
Defined.

(** The loop over the lines raises nothing but the error of the
    unpacking. *)
Lemma scan_lines_raises (lines : list string) (nets : list string) (cur : string)
    (e : exn) :
  outcome_of (scan_lines lines nets cur) = Raised e -> exn_cls e = ValueError.
Proof.
  revert nets cur. induction lines as [|line lines IH]; intros nets cur.
  - discriminate.
  - cbn [scan_lines]. destruct (negb (PyStr.truthy (PyStr.strip line))); [apply IH|].
    destruct (PyStr.rsplit ":" 4 line)
      as [|ssid [|in_use [|channel [|signal [|security [|x l]]]]]];
      try (cbn; now intros [= <-]).
    destruct (String.eqb in_use "*"), (is_wemo_ssid ssid);
      unfold log, emit, ret; cbn [bind];
      match goal with
      | |- context [scan_lines lines ?n ?c] =>
          specialize (IH n c); destruct (scan_lines lines n c) as [t o]
      end;
      cbn [outcome_of snd] in *; exact IH.
Qed.

(** The claim C9 read for every run of the tool fails on the rescan.  On a
    host where the rescan is refused and exits with status 10, the scan does
    not fail: it goes on to the listing and returns its two access points
    and the current network. *)
Lemma C9_counterexample :
  nmcli rescan_refused_env argv_rescan
  = Completed 10 EmptyString
      "Error: Scanning not allowed immediately following previous scan."
  /\ find_wemo_aps rescan_refused_env
     = ([ Run argv_rescan; Run argv_list;
          Log DEBUG fmt_result_of
            [AStr (PyStr.join " " argv_list); AStr sample_listing];
          Log INFO "expected wemo ap: %s (channel=%s, signal=%s, security=%s)"
            [AStr "wemo.livingroom"; AStr "1"; AStr "50"; AStr EmptyString];
          Log INFO "expected wemo ap: %s (channel=%s, signal=%s, security=%s)"
            [AStr "WEMO.KITCHEN"; AStr "6"; AStr "60"; AStr EmptyString];
          Log DEBUG "current network: %s (channel=%s, signal=%s, security=%s)"
            [AStr "mywemodevice"; AStr "11"; AStr "70"; AStr "WPA2"] ],
        Ok (["wemo.livingroom"; "WEMO.KITCHEN"], "mywemodevice")).
Proof. split; reflexivity. Qed.

(** C9. The scan fails in two ways that its caller can tell apart.  When
    nmcli is not installed (the first run, or the second, finds no such
    program) it raises a setup error whose message says that
    NetworkManager must be installed and whose cause is the
    FileNotFoundError; when the listing exits with a non-zero status it
    raises a setup error with another message, whose cause is the
    CalledProcessError.  The two differ in message and in cause, and so do
    the critical records [click_wemo_setup] logs for them.  The exit status
    of the rescan is not looked at: whatever it is, when the listing exits
    with status zero the scan ends as its loop over the listing does, and
    so with no setup error. *)
Theorem C9_scan_failures (env : Env) :
  (nmcli env argv_rescan = NotInstalled ->
   find_wemo_aps env = ([Run argv_rescan], Raised scanner_unavailable))
  /\ (forall rc0 out0 err0,
         nmcli env argv_rescan = Completed rc0 out0 err0 ->
         nmcli env argv_list = NotInstalled ->
         find_wemo_aps env
         = ([Run argv_rescan; Run argv_list], Raised scanner_unavailable))
  /\ (forall rc0 out0 err0 rc out err,
         nmcli env argv_rescan = Completed rc0 out0 err0 ->
         nmcli env argv_list = Completed rc out err ->
         rc <> 0%Z ->
         find_wemo_aps env
         = ([Run argv_rescan; Run argv_list], Raised scan_error))
  /\ exn_msg scanner_unavailable <> exn_msg scan_error
  /\ exn_cause scanner_unavailable <> exn_cause scan_error
  /\ log_exc CRITICAL scanner_unavailable <> log_exc CRITICAL scan_error
  /\ (forall rc0 out0 err0 out err,
         nmcli env argv_rescan = Completed rc0 out0 err0 ->
         nmcli env argv_list = Completed 0 out err ->
         outcome_of (find_wemo_aps env)
         = outcome_of (scan_lines (PyStr.split PyStr.LF (PyStr.strip out))
                         [] EmptyString)
         /\ forall e, outcome_of (find_wemo_aps env) = Raised e ->
                      exn_cls e <> SetupException).
Proof.
  split; [|split; [|split; [|split; [|split; [|split]]]]]; try discriminate.
  - intros Hrescan. unfold find_wemo_aps, nmcli_guard.
    now rewrite (subprocess_run_missing env argv_rescan false Hrescan).
  - intros rc0 out0 err0 Hrescan Hlist. unfold find_wemo_aps, nmcli_guard.
    rewrite (subprocess_run_completed env argv_rescan false rc0 out0 err0 Hrescan)
      by now left.
    now rewrite (subprocess_run_missing env argv_list true Hlist).
  - intros rc0 out0 err0 rc out err Hrescan Hlist Hrc.
    unfold find_wemo_aps, nmcli_guard.
    rewrite (subprocess_run_completed env argv_rescan false rc0 out0 err0 Hrescan)
      by now left.
    now rewrite (subprocess_run_failed env argv_list rc out err Hlist Hrc).
  - intros rc0 out0 err0 out err Hrescan Hlist.
    rewrite (find_wemo_aps_listing env rc0 out0 err0 out err Hrescan Hlist).
    cbv zeta. unfold outcome_of at 1 3. cbn [snd]. split; [reflexivity|].
    intros e He. rewrite (scan_lines_raises _ _ _ e He). discriminate.
Qed.

(** C9 at a host without nmcli for the listing, at a host where the
    listing exits with status 1, and at a host where the rescan exits with
    status 10. *)
Lemma C9_scan_failures_witness :
  outcome_of (find_wemo_aps (sample_env [] true NotInstalled))
  = Raised scanner_unavailable
  /\ outcome_of
       (find_wemo_aps (sample_env [] true (Completed 1 EmptyString "no wifi device")))
     = Raised scan_error
  /\ outcome_of (find_wemo_aps rescan_refused_env)
     = outcome_of (scan_lines (PyStr.split PyStr.LF (PyStr.strip sample_listing))
                     [] EmptyString).
Proof.
  split; [|split].
  3:{ destruct (C9_scan_failures rescan_refused_env) as (_ & _ & _ & _ & _ & _ & H).
      destruct (H 10%Z EmptyString
                  "Error: Scanning not allowed immediately following previous scan."
                  sample_listing EmptyString) as [Hout _];
        [reflexivity | reflexivity | exact Hout]. }
  - destruct (C9_scan_failures (sample_env [] true NotInstalled)) as (_ & H & _).
    rewrite (H 0%Z EmptyString EmptyString); reflexivity.
  - destruct (C9_scan_failures
                (sample_env [] true (Completed 1 EmptyString "no wifi device")))
      as (_ & _ & H & _).
    rewrite (H 0%Z EmptyString EmptyString 1%Z EmptyString "no wifi device");
      [reflexivity | reflexivity | reflexivity | discriminate].
Defined.

(** ** Traces of discovery *)

Section TraceInvariant.

Variable P : event -> Prop.

Lemma bind_trace_all {A B} (m : M A) (f : A -> M B) :
  Forall P (trace_of m) ->
  (forall a, Forall P (trace_of (f a))) ->
  Forall P (trace_of (bind m f)).
Proof.
  intros Hm Hf. destruct m as [t [a|e]]; cbn [bind trace_of fst] in *.
  - specialize (Hf a). destruct (f a) as [t' r]. cbn [fst] in *.
    apply Forall_app. now split.
  - exact Hm.
Qed.

Lemma for_each_trace_all {A} (l : list A) (body : A -> M unit) :
  (forall x, Forall P (trace_of (body x))) ->
  Forall P (trace_of (for_each l body)).
Proof.
  intros Hbody. induction l as [|x l IH]; cbn [for_each].
  - constructor.
  - apply bind_trace_all; [apply Hbody|intros _; exact IH].
Qed.

Lemma log_trace_all (lvl : level) (fmt : string) (args : list arg) :
  P (Log lvl fmt args) -> Forall P (trace_of (log lvl fmt args)).
Proof. intros H. repeat constructor. exact H. Qed.

Lemma ret_trace_all {A} (a : A) : Forall P (trace_of (ret a)).
Proof. constructor. Qed.

Lemma raise_trace_all {A} (e : exn) : Forall P (trace_of (@raise A e)).
Proof. constructor. Qed.

End TraceInvariant.

Lemma log_detail_step_trace (device : Device) (failed : list (string * result))
    (item : string * string * option string) :
  Forall discovery_event (trace_of (log_detail_step device failed item)).
Proof.
  destruct item as [[service_name action_name] key]. unfold log_detail_step.
  apply bind_trace_all; [repeat constructor|intros _].
  destruct (dev_action device service_name action_name) as [res|exc].
  - destruct (check_fault res) as [| |exc].
    + constructor.
    + destruct (subscript res key) as [v|exc].
      * repeat constructor.
      * case_bool_decide; [repeat constructor|].
        destruct (catches_detail (exn_cls exc)); repeat constructor.
    + destruct (catches_detail (exn_cls exc)); repeat constructor.
  - destruct (catches_detail (exn_cls exc)); repeat constructor.
Qed.

Lemma log_details_trace (device : Device) (verbose : Z) :
  Forall discovery_event (trace_of (log_details device verbose)).
Proof.
  unfold log_details, log_details_of.
  generalize (data_to_print device verbose) as items.
  generalize (@nil (string * result)) as failed.
  intros failed items. apply bind_trace_all.
  - revert failed. induction items as [|item items IH]; intros failed.
    + constructor.
    + cbn [log_detail_loop]. apply bind_trace_all;
        [apply log_detail_step_trace|intros f; apply IH].
  - intros calls. unfold log_failed_calls. apply bind_trace_all.
    + destruct calls; repeat constructor.
    + intros _. apply for_each_trace_all. intros [nm res]. repeat constructor.
Qed.

Lemma needing_setup_loop_trace (devices not_setup : list Device) :
  Forall discovery_event (trace_of (needing_setup_loop devices not_setup)).
Proof.
  revert not_setup. induction devices as [|device devices IH]; intros not_setup.
  - constructor.
  - cbn [needing_setup_loop]. apply bind_trace_all.
    + unfold do_call. apply bind_trace_all; [repeat constructor|intros _].
      destruct (dev_network_status device); constructor.
    + intros status. destruct (negb (String.eqb status "1")); [|apply IH].
      apply bind_trace_all; [repeat constructor|intros _; apply IH].
Qed.

(** Discovery only logs at the levels info and warning and only queries the
    devices: it resets, renames and sets up nothing and asks nothing. *)
Lemma discover_trace (env : Env) (net : option string) (only : bool) (verbose : Z) :
  Forall discovery_event
    (trace_of (discover_and_log_devices env net only verbose)).
Proof.
  unfold discover_and_log_devices.
  apply bind_trace_all; [repeat constructor|intros _].
  destruct only; [apply needing_setup_loop_trace|].
  apply bind_trace_all.
  - apply for_each_trace_all. intros device.
    apply bind_trace_all; [repeat constructor|intros _].
    apply bind_trace_all; [repeat constructor|intros _].
    destruct (0 <=? verbose)%Z; [apply log_details_trace|constructor].
  - intros _. apply bind_trace_all.
    + destruct (discover_devices env net); repeat constructor.
    + intros _. apply bind_trace_all; [repeat constructor|intros _; constructor].
Qed.

Lemma reset_attempts_discovery (t : list event) :
  Forall discovery_event t -> reset_attempts t = [].
Proof.
  induction 1 as [|ev t Hev _ IH]; [reflexivity|].
  unfold reset_attempts in *. cbn [flat_map]. rewrite IH.
  destruct ev; try reflexivity; destruct Hev.
Qed.

Lemma skipped_devices_discovery (t : list event) :
  Forall discovery_event t -> skipped_devices t = [].
Proof.
  induction 1 as [|ev t Hev _ IH]; [reflexivity|].
  unfold skipped_devices in *. cbn [flat_map]. rewrite IH.
  destruct ev as [[] ? ?| | | | | | | | | |]; try reflexivity; destruct Hev.
Qed.

(** ** The rename workflow *)

Lemma rename_calls_app (t1 t2 : list event) :
  rename_calls (t1 ++ t2) = (rename_calls t1 ++ rename_calls t2)%list.
Proof. apply flat_map_app. Qed.

Lemma rename_calls_discovery (t : list event) :
  Forall discovery_event t -> rename_calls t = [].
Proof.
  induction 1 as [|ev t Hev _ IH]; [reflexivity|].
  unfold rename_calls in *. cbn [flat_map]. rewrite IH.
  destruct ev; try reflexivity; destruct Hev.
Qed.

Lemma rename_calls_device (maps : names) (device : Device) :
  rename_calls (trace_of (rename_device maps device)) = planned_rename maps device.
Proof.
  unfold rename_device, planned_rename.
  destruct (PyStr.truthy (chosen_name maps device)); [|reflexivity].
  unfold do_call, log, emit.
  destruct (dev_rename device (chosen_name maps device)); reflexivity.
Qed.

Lemma rename_device_returns (maps : names) (device : Device) :
  rename_returns maps device = true ->
  rename_device maps device = (trace_of (rename_device maps device), Ok tt).
Proof.
  unfold rename_returns, rename_device.
  destruct (PyStr.truthy (chosen_name maps device)); [|reflexivity].
  unfold do_call, log, emit.
  destruct (dev_rename device (chosen_name maps device)) as [[]|e];
    [reflexivity|discriminate].
Qed.

Lemma rename_calls_devices (maps : names) (devices : list Device) :
  rename_calls (flat_map (fun d => trace_of (rename_device maps d)) devices)
  = flat_map (planned_rename maps) devices.
Proof.
  induction devices as [|d devices IH]; [reflexivity|].
  cbn [flat_map]. now rewrite rename_calls_app, rename_calls_device, IH.
Qed.

Lemma for_each_after {A} (pre rest : list A) (body : A -> M unit)
    (events : A -> list event) :
  Forall (fun y => body y = (events y, Ok tt)) pre ->
  for_each (pre ++ rest) body
  = ((flat_map events pre ++ trace_of (for_each rest body))%list,
     outcome_of (for_each rest body)).
Proof.
  induction 1 as [|y pre Hy _ IH]; cbn [app for_each flat_map].
  - now destruct (for_each rest body).
  - rewrite Hy, IH. cbn [bind]. now rewrite app_assoc.
Qed.

(** The workflow up to a device the loop reaches: the file is loaded, the
    devices are found, and the devices before it are dealt with. *)
Lemma wemo_rename_upto (env : Env) (rows : list (list string)) (maps : names)
    (pre rest : list Device) :
  read_rows no_names rows = Ok maps ->
  outcome_of (discover_and_log_devices env None false 0) = Ok (pre ++ rest)%list ->
  Forall (fun x => rename_returns maps x = true) pre ->
  wemo_rename env rows
  = ((trace_of (discover_and_log_devices env None false 0)
      ++ rename_events maps pre
      ++ trace_of (for_each rest (rename_device maps)))%list,
     outcome_of (for_each rest (rename_device maps))).
Proof.
  intros Hrows Hdisc Hpre. unfold wemo_rename. rewrite Hrows. cbn [bind app].
  destruct (discover_and_log_devices env None false 0) as [tD [devs|e]];
    cbn [outcome_of trace_of fst snd] in *; [injection Hdisc as ->|discriminate].
  cbn [bind].
  rewrite (for_each_after pre rest (rename_device maps)
             (fun x => trace_of (rename_device maps x))).
  - reflexivity.
  - eapply Forall_impl; [exact Hpre|]. intros x. apply rename_device_returns.
Qed.

Lemma rename_calls_upto (env : Env) (maps : names) (pre : list Device)
    (t : list event) :
  rename_calls
    (trace_of (discover_and_log_devices env None false 0)
     ++ rename_events maps pre ++ t)
  = (flat_map (planned_rename maps) pre ++ rename_calls t)%list.
Proof.
  rewrite !rename_calls_app,
    (rename_calls_discovery _ (discover_trace env None false 0)).
  unfold rename_events. now rewrite rename_calls_devices.
Qed.

(** A device with a name is renamed when the loop reaches it. *)
Lemma wemo_rename_named (env : Env) (rows : list (list string)) (maps : names)
    (pre post : list Device) (d : Device) (n : string) :
  read_rows no_names rows = Ok maps ->
  outcome_of (discover_and_log_devices env None false 0) = Ok (pre ++ d :: post)%list ->
  Forall (fun x => rename_returns maps x = true) pre ->
  chosen_name maps d = n ->
  PyStr.truthy n = true ->
  exists t2,
    trace_of (wemo_rename env rows)
    = (trace_of (discover_and_log_devices env None false 0)
       ++ rename_events maps pre
       ++ [ Log INFO "changing %s name to: %s" [AStr (dev_str d); AStr n];
            CallRename (dev_str d) n ]
       ++ t2)%list
    /\ rename_calls (trace_of (wemo_rename env rows))
       = (flat_map (planned_rename maps) pre
          ++ (dev_str d, n) :: rename_calls t2)%list.
Proof.
  intros Hrows Hdisc Hpre Hn Htruthy.
  rewrite (wemo_rename_upto env rows maps pre (d :: post) Hrows Hdisc Hpre).
  cbn [trace_of fst for_each]. unfold rename_device at 1 3.
  rewrite Hn, Htruthy. unfold do_call, log, emit.
  destruct (dev_rename d n) as [[]|e]; cbn [bind app ret raise].
  - destruct (for_each post (rename_device maps)) as [t o]. cbn [fst].
    exists t. split; [reflexivity|]. now rewrite rename_calls_upto.
  - exists []. split; [reflexivity|]. now rewrite rename_calls_upto.
Qed.

(** C1. In the rename workflow, a discovered device whose UDN is a key of
    the UDN-to-name dictionary loaded from the file is given the name
    stored there, whatever the IP-to-name dictionary holds for its address.
    So when [wemo_rename] has loaded the file and found the devices, and the
    renames of the devices found before this one return, the loop reaches
    the device, logs the change to that name and calls the rename action
    with it: it is the rename call that follows those of the devices before
    it. *)
Theorem C1_udn_precedence (rows : list (list string)) (maps : names) :
  read_rows no_names rows = Ok maps ->
  forall (d : Device) (n : string),
    udn_to_name maps !! dev_UDN d = Some n ->
    chosen_name maps d = n
    /\ (forall ips, chosen_name (Names (udn_to_name maps) ips) d = n)
    /\ trace_of (rename_device maps d) =
       [ Log INFO "changing %s name to: %s" [AStr (dev_str d); AStr n];
         CallRename (dev_str d) n ]
    /\ (forall (env : Env) (pre post : list Device),
           outcome_of (discover_and_log_devices env None false 0)
           = Ok (pre ++ d :: post)%list ->
           Forall (fun x => rename_returns maps x = true) pre ->
           exists t2,
             trace_of (wemo_rename env rows)
             = (trace_of (discover_and_log_devices env None false 0)
                ++ rename_events maps pre
                ++ [ Log INFO "changing %s name to: %s" [AStr (dev_str d); AStr n];
                     CallRename (dev_str d) n ]
                ++ t2)%list
             /\ rename_calls (trace_of (wemo_rename env rows))
                = (flat_map (planned_rename maps) pre
                   ++ (dev_str d, n) :: rename_calls t2)%list).
Proof.
  intros Hrows d n Hudn.
  assert (Hchosen : forall ips, chosen_name (Names (udn_to_name maps) ips) d = n).
  { intros ips. unfold chosen_name, dict_get. cbn [udn_to_name]. now rewrite Hudn. }
  assert (Hn : chosen_name maps d = n).
  { unfold chosen_name, dict_get. now rewrite Hudn. }
  destruct (read_rows_all_named rows no_names maps) as [Hu _]; try exact Hrows;
    try (intros k v; cbn; rewrite lookup_empty; discriminate).
  split; [exact Hn|]. split; [exact Hchosen|]. split.
  - unfold rename_device. rewrite Hn, (Hu _ _ Hudn).
    unfold do_call, log, emit. destruct (dev_rename d n); reflexivity.
  - intros env pre post Hdisc Hpre.
    exact (wemo_rename_named env rows maps pre post d n Hrows Hdisc Hpre Hn
             (Hu _ _ Hudn)).
Qed.

(** C1 at three devices and a file that gives the second of them the name
    Ceiling fan by its UDN and the name Heater by its address: the one
    rename call of the workflow gives it the first. *)
Lemma C1_udn_precedence_witness :
  chosen_name
    (Names (<["uuid:Socket-2" := "Ceiling fan"]> ∅) (<["10.0.0.6" := "Heater"]> ∅))
    (sample_device "Fan" "10.0.0.6" "uuid:Socket-2"
       (Throws (Exn ResetException "Fan could not be reset" None)))
  = "Ceiling fan"
  /\ exists t2,
       rename_calls
         (trace_of (wemo_rename (sample_env sample_devices true NotInstalled)
                      precedence_rows))
       = ([] ++ ("Fan", "Ceiling fan") :: rename_calls t2)%list.
Proof.
  destruct (C1_udn_precedence precedence_rows
              (Names (<["uuid:Socket-2" := "Ceiling fan"]> ∅)
                 (<["10.0.0.6" := "Heater"]> ∅)))
    with (d := sample_device "Fan" "10.0.0.6" "uuid:Socket-2"
                 (Throws (Exn ResetException "Fan could not be reset" None)))
         (n := "Ceiling fan")
    as (Hname & _ & _ & Hflow).
  - vm_compute. reflexivity.
  - vm_compute. reflexivity.
  - split; [exact Hname|].
    destruct (Hflow (sample_env sample_devices true NotInstalled)
                [sample_device "Lamp" "10.0.0.5" "uuid:Socket-1" (Returns tt)]
                [sample_device "Porch" "10.0.0.7" "uuid:Socket-3" (Returns tt)])
      as (t2 & _ & Hcalls).
    + reflexivity.
    + repeat constructor.
    + exists t2. exact Hcalls.
Defined.

(** ** Reset *)

Lemma reset_one_run (env : Env) (data wifi : bool) (d : Device) :
  reset_error_only data wifi d = true ->
  reset_one env data wifi d = (reset_events env data wifi d, Ok tt).
Proof.
  unfold reset_error_only, reset_one, reset_events, do_call, log, log_exc, emit.
  destruct (dev_reset d data wifi) as [[]|exc]; [reflexivity|].
  intros Hexc. cbn. unfold is_class. now rewrite Hexc.
Qed.

Lemma reset_attempts_app (t1 t2 : list event) :
  reset_attempts (t1 ++ t2) = (reset_attempts t1 ++ reset_attempts t2)%list.
Proof. apply flat_map_app. Qed.

Lemma skipped_devices_app (t1 t2 : list event) :
  skipped_devices (t1 ++ t2) = (skipped_devices t1 ++ skipped_devices t2)%list.
Proof. apply flat_map_app. Qed.

Lemma reset_attempts_loop (env : Env) (data wifi : bool) (devices : list Device) :
  reset_attempts (flat_map (reset_events env data wifi) devices)
  = map dev_str devices.
Proof.
  induction devices as [|d devices IH]; [reflexivity|].
  cbn [flat_map map]. rewrite reset_attempts_app, IH. unfold reset_events.
  destruct (dev_reset d data wifi); reflexivity.
Qed.

Lemma skipped_devices_loop (env : Env) (data wifi : bool) (devices : list Device) :
  skipped_devices (flat_map (reset_events env data wifi) devices)
  = map dev_str (List.filter (reset_fails data wifi) devices).
Proof.
  induction devices as [|d devices IH]; [reflexivity|].
  cbn [flat_map map List.filter]. rewrite skipped_devices_app, IH.
  unfold reset_events, reset_fails.
  destruct (dev_reset d data wifi); reflexivity.
Qed.

Lemma filter_split_length {A} (f : A -> bool) (l : list A) :
  length (List.filter (fun x => negb (f x)) l)
  = (length l - length (List.filter f l))%nat.
Proof.
  induction l as [|x l IH]; [reflexivity|]. cbn [List.filter length].
  pose proof (filter_length_le f l) as Hle.
  destruct (f x); cbn [negb length]; lia.
Qed.

(** The run of reset-all once discovery has returned and the user has said
    yes, when no reset raises anything but a reset error. *)
Lemma reset_all_run (env : Env) (data wifi : bool) (name : option string)
    (devices : list Device) :
  outcome_of (discover_and_log_devices env None false 0) = Ok devices ->
  confirm env (prompt_reset_all (length devices)) = true ->
  Forall (fun d => reset_error_only data wifi d = true) devices ->
  reset_body env data wifi true name =
  ((trace_of (discover_and_log_devices env None false 0)
    ++ name_warning name
    ++ match devices with
       | [] => []
       | _ => Confirm (prompt_reset_all (length devices)) true
              :: flat_map (reset_events env data wifi) devices
              ++ [Log INFO (DASHES (columns env)) []]
       end
    ++ [Log INFO "devices will take approximately 90 seconds to reset" []])%list,
   Ok tt).
Proof.
  intros Hdisc Hyes Hres. unfold reset_body.
  assert (Hloop : for_each devices (reset_one env data wifi)
                  = (flat_map (reset_events env data wifi) devices, Ok tt)).
  { apply for_each_runs. eapply Forall_impl; [exact Hres|].
    intros d Hd. now apply reset_one_run. }
  destruct (discover_and_log_devices env None false 0) as [tD [devs|e]];
    cbn [outcome_of trace_of fst snd] in *; [injection Hdisc as ->|discriminate].
  cbn [bind]. unfold ask. rewrite Hyes.
  destruct devices as [|d0 devices].
  - destruct name; cbn; rewrite <- ?app_assoc; reflexivity.
  - rewrite Hloop.
    destruct name; unfold log, emit, ret; cbn [bind app name_warning];
      rewrite <- ?app_assoc; cbn [app]; rewrite <- ?app_assoc; reflexivity.
Qed.

Lemma critical_records_app (t1 t2 : list event) :
  critical_records (t1 ++ t2) = (critical_records t1 ++ critical_records t2)%list.
Proof. apply flat_map_app. Qed.

Lemma critical_records_discovery (t : list event) :
  Forall discovery_event t -> critical_records t = [].
Proof.
  induction 1 as [|ev t Hev _ IH]; [reflexivity|].
  unfold critical_records in *. cbn [flat_map]. rewrite IH.
  destruct ev as [[] ? ?| | | | | | | | | |]; try reflexivity; destruct Hev.
Qed.

Lemma critical_records_loop (env : Env) (data wifi : bool) (devices : list Device) :
  critical_records (flat_map (reset_events env data wifi) devices) = [].
Proof.
  induction devices as [|d devices IH]; [reflexivity|].
  cbn [flat_map]. rewrite critical_records_app, IH. unfold reset_events.
  destruct (dev_reset d data wifi); reflexivity.
Qed.

Lemma reset_attempts_cons (ev : event) (t : list event) :
  reset_attempts (ev :: t)
  = (match ev with CallReset d _ _ => [d] | _ => [] end ++ reset_attempts t)%list.
Proof. reflexivity. Qed.

Lemma skipped_devices_cons (ev : event) (t : list event) :
  skipped_devices (ev :: t) = (skip_record ev ++ skipped_devices t)%list.
Proof. reflexivity. Qed.

Lemma critical_records_cons (ev : event) (t : list event) :
  critical_records (ev :: t)
  = (match ev with Log CRITICAL msg _ => [msg] | _ => [] end
     ++ critical_records t)%list.
Proof. reflexivity. Qed.

(** C2. In reset-all mode, once discovery has returned N devices and the
    user has said yes, the reset is called on each of the N devices, in
    discovery order; a reset that raises a reset error leaves the error and
    a record of the skipped device in the log and the loop goes on; the
    devices so skipped are exactly the M whose reset raised, the other N - M
    are reset, and the command ends normally, with no critical record. *)
Theorem C2_reset_all (env : Env) (data wifi full : bool) (name : option string)
    (devices : list Device) :
  let data' := if full then true else data in
  let wifi' := if full then true else wifi in
  let run := click_wemo_reset env data wifi full true name in
  outcome_of (discover_and_log_devices env None false 0) = Ok devices ->
  confirm env (prompt_reset_all (length devices)) = true ->
  Forall (fun d => reset_error_only data' wifi' d = true) devices ->
  outcome_of run = Ok tt
  /\ trace_of run =
     (trace_of (discover_and_log_devices env None false 0)
      ++ name_warning name
      ++ match devices with
         | [] => []
         | _ => Confirm (prompt_reset_all (length devices)) true
                :: flat_map (reset_events env data' wifi') devices
                ++ [Log INFO (DASHES (columns env)) []]
         end
      ++ [Log INFO "devices will take approximately 90 seconds to reset" []])%list
  /\ reset_attempts (trace_of run) = map dev_str devices
  /\ skipped_devices (trace_of run)
     = map dev_str (List.filter (reset_fails data' wifi') devices)
  /\ critical_records (trace_of run) = []
  /\ length (List.filter (fun d => negb (reset_fails data' wifi' d)) devices)
     = (length devices - length (List.filter (reset_fails data' wifi') devices))%nat.
Proof.
  intros data' wifi' run Hdisc Hyes Hres.
  assert (Hrun : run =
    ((trace_of (discover_and_log_devices env None false 0)
      ++ name_warning name
      ++ match devices with
         | [] => []
         | _ => Confirm (prompt_reset_all (length devices)) true
                :: flat_map (reset_events env data' wifi') devices
                ++ [Log INFO (DASHES (columns env)) []]
         end
      ++ [Log INFO "devices will take approximately 90 seconds to reset" []])%list,
     Ok tt)).
  { subst run. unfold click_wemo_reset. fold data' wifi'.
    now rewrite (reset_all_run env data' wifi' name devices Hdisc Hyes Hres). }
  pose proof (discover_trace env None false 0) as Hquiet.
  rewrite Hrun. cbn [outcome_of trace_of fst snd].
  split; [reflexivity|]. split; [reflexivity|].
  rewrite !reset_attempts_app, !skipped_devices_app, !critical_records_app.
  rewrite (reset_attempts_discovery _ Hquiet), (skipped_devices_discovery _ Hquiet),
    (critical_records_discovery _ Hquiet).
  split; [|split; [|split]].
  - destruct name, devices as [|d0 l]; cbn [name_warning app];
      rewrite ?reset_attempts_cons, ?reset_attempts_app, ?reset_attempts_loop,
        ?reset_attempts_cons; cbn [app reset_attempts flat_map];
      rewrite ?app_nil_r; reflexivity.
  - destruct name, devices as [|d0 l]; cbn [name_warning app];
      rewrite ?skipped_devices_cons, ?skipped_devices_app, ?skipped_devices_loop,
        ?skipped_devices_cons; cbn [app skipped_devices flat_map skip_record];
      rewrite ?app_nil_r; reflexivity.
  - destruct name, devices as [|d0 l]; cbn [name_warning app];
      rewrite ?critical_records_cons, ?critical_records_app, ?critical_records_loop,
        ?critical_records_cons; cbn [app critical_records flat_map];
      rewrite ?app_nil_r; reflexivity.
  - apply filter_split_length.
Qed.

(** C2 at three devices, the second of which raises a reset error. *)
Lemma C2_reset_all_witness :
  outcome_of (click_wemo_reset (sample_env sample_devices true NotInstalled)
                false false true true None) = Ok tt
  /\ reset_attempts
       (trace_of (click_wemo_reset (sample_env sample_devices true NotInstalled)
                    false false true true None))
     = ["Lamp"; "Fan"; "Porch"]
  /\ skipped_devices
       (trace_of (click_wemo_reset (sample_env sample_devices true NotInstalled)
                    false false true true None))
     = ["Fan"].
Proof.
  destruct (C2_reset_all (sample_env sample_devices true NotInstalled)
              false false true None sample_devices)
    as (Hok & _ & Hall & Hskip & _).
  - reflexivity.
  - reflexivity.
  - repeat constructor.
  - split; [exact Hok|]. split; [exact Hall|exact Hskip].
Defined.

(** ** The command boundary *)

Lemma try_except_caught {A} (m : M A) (catches : exn_class -> bool)
    (h : exn -> M A) (e : exn) :
  outcome_of m = Raised e -> catches (exn_cls e) = true ->
  try_except m catches h
  = ((trace_of m ++ trace_of (h e))%list, outcome_of (h e)).
Proof.
  destruct m as [t [a|e']]; cbn; [discriminate|].
  intros [= ->] ->. now destruct (h e).
Qed.

Lemma try_except_passed {A} (m : M A) (catches : exn_class -> bool)
    (h : exn -> M A) (e : exn) :
  outcome_of m = Raised e -> catches (exn_cls e) = false ->
  try_except m catches h = m.
Proof.
  destruct m as [t [a|e']]; cbn; [discriminate|].
  now intros [= ->] ->.
Qed.

Lemma try_except_Ok {A} (m : M A) (catches : exn_class -> bool)
    (h : exn -> M A) (a : A) :
  outcome_of m = Ok a -> try_except m catches h = m.
Proof. destruct m as [t [a'|e']]; cbn; [reflexivity|discriminate]. Qed.

(** A command that wraps its body in [try: ... except cls as exc:
    LOG.critical(exc)] never ends with an error of class [cls], and when the
    body raises one the critical record is the last event of the command. *)
Lemma boundary (cls : exn_class) (body : M unit) :
  let run := try_except body (is_class cls) (fun exc => log_exc CRITICAL exc) in
  (forall e, outcome_of run = Raised e -> exn_cls e <> cls)
  /\ (forall e, outcome_of body = Raised e -> exn_cls e = cls ->
         run = ((trace_of body ++ [Log CRITICAL (exn_msg e) []])%list, Ok tt)).
Proof.
  cbv zeta. split.
  - intros e. destruct body as [t [[]|e']]; cbn; [discriminate|].
    unfold is_class. case_bool_decide as Hcls; cbn; [discriminate|].
    now intros [= ->].
  - intros e Hbody Hcls.
    rewrite (try_except_caught body _ _ e Hbody); [reflexivity|].
    unfold is_class. now apply bool_decide_eq_true.
Qed.

(** The claim C3 read for every reset error and every setup error a command
    meets fails on the batch modes.  In reset-all the reset error of the
    second of three devices is logged at level error, no critical record is
    written, and the third device is reset afterwards; in setup-all the setup
    error of the first access point is logged at level error and the second
    access point is joined afterwards. *)
Lemma C3_counterexample :
  (dev_reset (sample_device "Fan" "10.0.0.6" "uuid:Socket-2"
                (Throws (Exn ResetException "Fan could not be reset" None)))
     true true
   = Throws (Exn ResetException "Fan could not be reset" None)
   /\ critical_records
        (trace_of (click_wemo_reset (sample_env sample_devices true NotInstalled)
                     false false true true None)) = []
   /\ events_after (Log ERROR "Fan could not be reset" [])
        (trace_of (click_wemo_reset (sample_env sample_devices true NotInstalled)
                     false false true true None))
      = [ Log ERROR "|-- thus skipping: %s" [AStr "Fan"];
          Log INFO "-" [];
          CallReset "Porch" true true;
          Log INFO "-" [];
          Log INFO "devices will take approximately 90 seconds to reset" [] ])
  /\ (outcome_of (connect_to_wemo_and_setup unreachable_ap_env
                    "wemo.livingroom" "home" "pw")
      = Raised (Exn SetupException msg_nmcli_connect_failed (Some CalledProcessError))
      /\ critical_records
           (trace_of (click_wemo_setup unreachable_ap_env "home" "pw" true None)) = []
      /\ events_after (Log ERROR msg_nmcli_connect_failed [])
           (trace_of (click_wemo_setup unreachable_ap_env "home" "pw" true None))
         = [ Log ERROR "|-- thus skipping: %s" [AStr "wemo.livingroom"];
             Log INFO "-" [];
             Run (argv_connect "WEMO.KITCHEN");
             Log DEBUG fmt_result_of
               [AStr "nmcli device wifi connect WEMO.KITCHEN"; AStr EmptyString];
             Sleep 2;
             Log INFO "searching %s for wemo devices" [AStr "WEMO.KITCHEN"];
             Discover;
             Log INFO "-" [];
             Log INFO "attempting to reconnect host to %s" [AStr "mywemodevice"];
             Run (argv_connect "mywemodevice") ]).
Proof. vm_compute. repeat split. Qed.

(** C3, amended.  A reset error that leaves the body of the reset command,
    and a setup error that leaves the body of the setup command, is caught
    at the command boundary: the command writes it as a critical record,
    which is its last event, and ends normally, so it never ends with an
    error of that kind.  This is what happens when no option says what to
    reset or set up, when no device has the name asked for, when the action
    on the named device raises, when the scan fails and when the scan finds
    no access point of a device.  The errors that do not leave the body are
    those of one device in the reset-all loop and of one access point in the
    setup-all loop: they are caught in the loop, logged at level error, and
    the loop goes on. *)
Theorem C3_command_boundary (env : Env) :
  (forall (data wifi full reset_all : bool) (name : option string),
      let body := reset_body env (if full then true else data)
                    (if full then true else wifi) reset_all name in
      let run := click_wemo_reset env data wifi full reset_all name in
      (forall e, outcome_of run = Raised e -> exn_cls e <> ResetException)
      /\ (forall e, outcome_of body = Raised e -> exn_cls e = ResetException ->
             run = ((trace_of body ++ [Log CRITICAL (exn_msg e) []])%list, Ok tt)))
  /\ (forall ssid password setup_all name,
         let body := setup_body env ssid password setup_all name in
         let run := click_wemo_setup env ssid password setup_all name in
         (forall e, outcome_of run = Raised e -> exn_cls e <> SetupException)
         /\ (forall e, outcome_of body = Raised e -> exn_cls e = SetupException ->
                run = ((trace_of body ++ [Log CRITICAL (exn_msg e) []])%list, Ok tt)))
  /\ (forall data wifi full,
         click_wemo_reset env data wifi full false None
         = ([Log CRITICAL "--reset-all or --name=<str> is required" []], Ok tt))
  /\ (forall data wifi full name devices,
         outcome_of (discover_and_log_devices env None false 0) = Ok devices ->
         fst (select_by_name devices name) = None ->
         click_wemo_reset env data wifi full false (Some name)
         = ((trace_of (discover_and_log_devices env None false 0)
             ++ [Log CRITICAL (msg_not_found name) []])%list, Ok tt))
  /\ (forall (data wifi full : bool) name devices selected e,
         outcome_of (discover_and_log_devices env None false 0) = Ok devices ->
         fst (select_by_name devices name) = Some selected ->
         dev_reset selected (if full then true else data)
           (if full then true else wifi) = Throws e ->
         exn_cls e = ResetException ->
         click_wemo_reset env data wifi full false (Some name)
         = ((trace_of (discover_and_log_devices env None false 0)
             ++ [ CallReset (dev_str selected) (if full then true else data)
                    (if full then true else wifi);
                  Log CRITICAL (exn_msg e) [] ])%list, Ok tt))
  /\ (forall ssid password,
         click_wemo_setup env ssid password false None
         = ((setup_banner env
             ++ [Log CRITICAL "--setup-all or --name=<str> is required" []])%list,
            Ok tt))
  /\ (forall ssid password name devices,
         outcome_of (discover_and_log_devices env None false 0) = Ok devices ->
         fst (select_by_name devices name) = None ->
         click_wemo_setup env ssid password false (Some name)
         = ((setup_banner env
             ++ trace_of (discover_and_log_devices env None false 0)
             ++ [Log CRITICAL (msg_not_found name) []])%list, Ok tt))
  /\ (forall ssid password name current,
         outcome_of (find_wemo_aps env) = Ok (@nil string, current) ->
         click_wemo_setup env ssid password true name
         = ((setup_banner env ++ trace_of (find_wemo_aps env)
             ++ [Log CRITICAL msg_no_aps []])%list, Ok tt))
  /\ (forall ssid password name e,
         outcome_of (find_wemo_aps env) = Raised e ->
         exn_cls e = SetupException ->
         click_wemo_setup env ssid password true name
         = ((setup_banner env ++ trace_of (find_wemo_aps env)
             ++ [Log CRITICAL (exn_msg e) []])%list, Ok tt))
  /\ (forall data wifi device e,
         dev_reset device data wifi = Throws e ->
         exn_cls e = ResetException ->
         reset_one env data wifi device
         = ([ Log INFO (DASHES (columns env)) [];
              CallReset (dev_str device) data wifi;
              Log ERROR (exn_msg e) [];
              Log ERROR "|-- thus skipping: %s" [AStr (dev_str device)] ], Ok tt))
  /\ (forall ssid password wemo_ap e,
         outcome_of (connect_to_wemo_and_setup env wemo_ap ssid password) = Raised e ->
         exn_cls e = SetupException ->
         setup_one env ssid password wemo_ap
         = ((Log INFO (DASHES (columns env)) []
             :: trace_of (connect_to_wemo_and_setup env wemo_ap ssid password)
             ++ [ Log ERROR (exn_msg e) [];
                  Log ERROR "|-- thus skipping: %s" [AStr wemo_ap] ])%list, Ok tt)).
Proof.
  repeat apply conj.
  - intros data wifi full reset_all name. apply boundary.
  - intros ssid password setup_all name. apply boundary.
  - reflexivity.
  - intros data wifi full name devices Hdisc Hsel.
    unfold click_wemo_reset, reset_body.
    destruct (discover_and_log_devices env None false 0) as [tD [devs|e]];
      cbn [outcome_of trace_of fst snd] in *; [injection Hdisc as ->|discriminate].
    cbn [bind]. rewrite Hsel. cbn. now rewrite app_nil_r.
  - intros data wifi full name devices selected e Hdisc Hsel Hreset Hcls.
    unfold click_wemo_reset, reset_body.
    destruct (discover_and_log_devices env None false 0) as [tD [devs|e']];
      cbn [outcome_of trace_of fst snd] in *; [injection Hdisc as ->|discriminate].
    cbn [bind]. rewrite Hsel. unfold do_call. rewrite Hreset. cbn.
    unfold is_class. rewrite Hcls. cbn. now rewrite <- app_assoc.
  - reflexivity.
  - intros ssid password name devices Hdisc Hsel.
    unfold click_wemo_setup, setup_body.
    destruct (discover_and_log_devices env None false 0) as [tD [devs|e]];
      cbn [outcome_of trace_of fst snd] in *; [injection Hdisc as ->|discriminate].
    cbn [bind]. rewrite Hsel. cbn. now rewrite app_nil_r.
  - intros ssid password name current Haps.
    unfold click_wemo_setup, setup_body.
    destruct (find_wemo_aps env) as [tF [found|e]];
      cbn [outcome_of trace_of fst snd] in *; [injection Haps as ->|discriminate].
    cbn. now rewrite app_nil_r.
  - intros ssid password name e Haps Hcls.
    unfold click_wemo_setup, setup_body.
    destruct (find_wemo_aps env) as [tF [found|e']];
      cbn [outcome_of trace_of fst snd] in *; [discriminate|injection Haps as ->].
    cbn. unfold is_class. rewrite Hcls. reflexivity.
  - intros data wifi device e Hreset Hcls.
    unfold reset_one, do_call. rewrite Hreset. cbn.
    unfold is_class. now rewrite Hcls.
  - intros ssid password wemo_ap e Hconn Hcls. unfold setup_one.
    destruct (connect_to_wemo_and_setup env wemo_ap ssid password) as [tC [[]|e']];
      cbn [outcome_of trace_of fst snd] in *; [discriminate|injection Hconn as ->].
    cbn. unfold is_class. now rewrite Hcls.
Qed.

(** C3 at a reset by a name that no device has. *)
Lemma C3_command_boundary_witness :
  outcome_of (click_wemo_reset (sample_env sample_devices true NotInstalled)
                false false false false (Some "Garage")) = Ok tt
  /\ critical_records
       (trace_of (click_wemo_reset (sample_env sample_devices true NotInstalled)
                    false false false false (Some "Garage")))
     = [msg_not_found "Garage"]
  /\ reset_attempts
       (trace_of (click_wemo_reset (sample_env sample_devices true NotInstalled)
                    false false false false (Some "Garage"))) = [].
Proof.
  destruct (C3_command_boundary (sample_env sample_devices true NotInstalled))
    as (_ & _ & _ & H & _).
  rewrite (H false false false "Garage" sample_devices);
    [|reflexivity|reflexivity].
  vm_compute. repeat split.
Defined.

(** ** Traces of setup-all *)

Lemma try_except_trace_all {A} (P : event -> Prop) (m : M A)
    (catches : exn_class -> bool) (h : exn -> M A) :
  Forall P (trace_of m) ->
  (forall e, Forall P (trace_of (h e))) ->
  Forall P (trace_of (try_except m catches h)).
Proof.
  intros Hm Hh. destruct m as [t [a|e]]; cbn [try_except]; [exact Hm|].
  destruct (catches (exn_cls e)); [|exact Hm].
  specialize (Hh e). destruct (h e) as [t' r]. cbn [trace_of fst] in *.
  apply Forall_app. now split.
Qed.

Section SetupAllInvariant.

Variable env : Env.
Variable P : event -> Prop.

(** [P] holds of the records that are not a count of found devices, of
    the prompt, and of what setup-all does besides calling devices. *)
Hypothesis P_log : forall lvl fmt args, fmt <> "found %s devices" -> P (Log lvl fmt args).
Hypothesis P_log_exc : forall lvl msg, P (Log lvl msg []).
Hypothesis P_confirm : forall prompt answer, P (Confirm prompt answer).
Hypothesis P_run : forall argv, P (Run argv).
Hypothesis P_sleep : forall n, P (Sleep n).
Hypothesis P_getpass : P Getpass.
Hypothesis P_devices : forall wemossid ssid password,
  Forall P (trace_of (setup_found_devices env wemossid ssid password)).

Lemma subprocess_run_trace (argv : list string) (check : bool) :
  Forall P (trace_of (subprocess_run env argv check)).
Proof.
  unfold subprocess_run. apply bind_trace_all; [repeat constructor; apply P_run|].
  intros _. destruct (nmcli env argv) as [|rc out err|e]; [constructor| |constructor].
  destruct (check && negb (rc =? 0)%Z); constructor.
Qed.

Lemma nmcli_guard_trace {A} (m : M A) (msg : string) :
  Forall P (trace_of m) -> Forall P (trace_of (nmcli_guard m msg)).
Proof.
  intros Hm. unfold nmcli_guard.
  apply try_except_trace_all; [|constructor].
  apply try_except_trace_all; [exact Hm|constructor].
Qed.

Lemma scan_lines_trace (lines nets : list string) (cur : string) :
  Forall P (trace_of (scan_lines lines nets cur)).
Proof.
  revert nets cur. induction lines as [|line lines IH]; intros nets cur.
  - constructor.
  - cbn [scan_lines].
    destruct (negb (PyStr.truthy (PyStr.strip line))); [apply IH|].
    destruct (PyStr.rsplit ":" 4 line)
      as [|ssid [|in_use [|channel [|signal [|security [|x l]]]]]];
      try constructor.
    apply bind_trace_all.
    { destruct (String.eqb in_use "*"); [|constructor].
      apply bind_trace_all; [|intros _; constructor].
      apply log_trace_all, P_log. discriminate. }
    intros c. apply bind_trace_all; [|intros n; apply IH].
    destruct (is_wemo_ssid ssid); [|constructor].
    apply bind_trace_all; [|intros _; constructor].
    apply log_trace_all, P_log. discriminate.
Qed.

Lemma find_wemo_aps_trace : Forall P (trace_of (find_wemo_aps env)).
Proof.
  unfold find_wemo_aps. apply bind_trace_all.
  - apply nmcli_guard_trace.
    apply bind_trace_all; [|intros _]; apply subprocess_run_trace.
  - intros networks. apply bind_trace_all.
    + apply log_trace_all, P_log. discriminate.
    + intros _. apply bind_trace_all; [|intros _; apply scan_lines_trace].
      destruct (negb _); [|constructor].
      apply log_trace_all, P_log. discriminate.
Qed.

Lemma connect_to_wemo_and_setup_trace (wemossid ssid password : string) :
  Forall P (trace_of (connect_to_wemo_and_setup env wemossid ssid password)).
Proof.
  unfold connect_to_wemo_and_setup. apply bind_trace_all.
  - apply nmcli_guard_trace, subprocess_run_trace.
  - intros networks.
    apply bind_trace_all; [apply log_trace_all, P_log; discriminate|intros _].
    apply bind_trace_all; [repeat constructor; apply P_sleep|intros _].
    apply bind_trace_all; [apply log_trace_all, P_log; discriminate|intros _].
    apply (P_devices wemossid ssid password).
Qed.

Lemma setup_one_trace (ssid password wemo_ap : string) :
  Forall P (trace_of (setup_one env ssid password wemo_ap)).
Proof.
  unfold setup_one.
  apply bind_trace_all; [apply log_trace_all, P_log_exc|intros _].
  apply try_except_trace_all; [apply connect_to_wemo_and_setup_trace|].
  intros e. apply bind_trace_all; [apply log_trace_all, P_log_exc|intros _].
  apply log_trace_all, P_log. discriminate.
Qed.

Lemma reconnect_trace (current : string) :
  Forall P (trace_of (reconnect env current)).
Proof.
  unfold reconnect. destruct (_ && _); [|constructor].
  apply try_except_trace_all; [|constructor].
  apply bind_trace_all; [apply log_trace_all, P_log; discriminate|intros _].
  apply bind_trace_all; [apply subprocess_run_trace|constructor].
Qed.

(** Every event of a run of setup-all satisfies [P]. *)
Lemma setup_all_trace (ssid password : string) (name : option string) :
  Forall P (trace_of (click_wemo_setup env ssid password true name)).
Proof.
  unfold click_wemo_setup.
  apply try_except_trace_all; [|intros e; apply log_trace_all, P_log_exc].
  unfold setup_body.
  apply bind_trace_all; [apply log_trace_all, P_log_exc|intros _].
  apply bind_trace_all; [apply log_trace_all, P_log; discriminate|intros _].
  apply bind_trace_all; [apply log_trace_all, P_log_exc|intros _].
  apply bind_trace_all; [apply find_wemo_aps_trace|intros [wemo_aps current]].
  destruct wemo_aps as [|ap aps]; [constructor|].
  apply bind_trace_all; [repeat constructor; apply P_confirm|intros yes].
  destruct yes; [|constructor].
  apply bind_trace_all; [apply log_trace_all, P_log_exc|intros _].
  apply bind_trace_all.
  { destruct (negb _); [|constructor]. repeat constructor. apply P_getpass. }
  intros pw. apply bind_trace_all.
  { apply for_each_trace_all. intros wemo_ap. apply setup_one_trace. }
  intros _. apply bind_trace_all; [apply log_trace_all, P_log_exc|intros _].
  apply reconnect_trace.
Qed.

End SetupAllInvariant.

(** ** No device found *)

Lemma discover_none (env : Env) (verbose : Z) :
  discover_devices env None = [] ->
  discover_and_log_devices env None false verbose
  = ([Discover; Log INFO "found %s devices" [AInt 0]], Ok []).
Proof. intros H. unfold discover_and_log_devices. now rewrite H. Qed.

Lemma setup_found_devices_none (env : Env) (wemossid ssid password : string) :
  discover_devices env (Some wemossid) = [] ->
  setup_found_devices env wemossid ssid password = ([Discover], Ok tt).
Proof.
  intros H. unfold setup_found_devices, discover_and_log_devices. now rewrite H.
Qed.

(** The discovery on an access point never reports a count of devices. *)
Lemma setup_found_devices_no_report (env : Env) (wemossid ssid password : string) :
  Forall (fun ev => found_report ev = [])
    (trace_of (setup_found_devices env wemossid ssid password)).
Proof.
  unfold setup_found_devices, discover_and_log_devices.
  apply bind_trace_all.
  - apply bind_trace_all; [repeat constructor|intros _]. cbn match.
    generalize (@nil Device) as not_setup.
    induction (discover_devices env (Some wemossid)) as [|device devices IH];
      intros not_setup; [constructor|].
    cbn [needing_setup_loop]. apply bind_trace_all.
    + unfold do_call. apply bind_trace_all; [repeat constructor|intros _].
      destruct (dev_network_status device); constructor.
    + intros status. destruct (negb (String.eqb status "1")); [|apply IH].
      apply bind_trace_all; [repeat constructor|intros _; apply IH].
  - intros devices. apply for_each_trace_all. intros device.
    unfold do_call. apply bind_trace_all; [repeat constructor|intros _].
    destruct (dev_setup device ssid password (Some 20%Z)); constructor.
Qed.

Lemma found_reports_none (t : list event) :
  Forall (fun ev => found_report ev = []) t -> found_reports t = [].
Proof.
  induction 1 as [|ev t Hev _ IH]; [reflexivity|].
  unfold found_reports in *. cbn [flat_map]. now rewrite Hev, IH.
Qed.

Lemma device_calls_none (t : list event) :
  Forall (fun ev => device_call ev = false) t -> device_calls t = [].
Proof.
  induction 1 as [|ev t Hev _ IH]; [reflexivity|].
  unfold device_calls in *. cbn [List.filter]. now rewrite Hev, IH.
Qed.

Lemma prompts_none (t : list event) :
  Forall (fun ev => match ev with Confirm _ _ => False | _ => True end) t ->
  prompts t = [].
Proof.
  induction 1 as [|ev t Hev _ IH]; [reflexivity|].
  unfold prompts in *. cbn [flat_map]. rewrite IH. now destruct ev.
Qed.

Lemma found_report_log (lvl : level) (fmt : string) (args : list arg) :
  fmt <> "found %s devices" -> found_report (Log lvl fmt args) = [].
Proof.
  intros Hfmt. unfold found_report.
  destruct lvl; try reflexivity. destruct args as [|[] []]; try reflexivity.
  now rewrite bool_decide_eq_false_2.
Qed.

Lemma setup_all_no_aps (env : Env) (ssid password : string)
    (name : option string) (current : string) :
  outcome_of (find_wemo_aps env) = Ok (@nil string, current) ->
  click_wemo_setup env ssid password true name
  = ((setup_banner env ++ trace_of (find_wemo_aps env)
      ++ [Log CRITICAL msg_no_aps []])%list, Ok tt).
Proof.
  intros Haps. unfold click_wemo_setup, setup_body.
  destruct (find_wemo_aps env) as [tF [found|e]];
    cbn [outcome_of trace_of fst snd] in *; [injection Haps as ->|discriminate].
  cbn. now rewrite app_nil_r.
Qed.

(** The claim C5 fails on setup-all, which scans for access points before
    it looks for any device.  On a host where no discovery finds a device,
    setup-all never reports a count of found devices, whether the scan lists
    no access point of a device or two of them; and with two such access
    points listed it does show the confirmation prompt. *)
Lemma C5_counterexample :
  discover_devices (sample_env [] true (Completed 0 sample_listing EmptyString)) None = []
  /\ discover_devices (sample_env [] true (Completed 0 sample_listing EmptyString))
       (Some "wemo.livingroom") = []
  /\ discover_devices (sample_env [] true (Completed 0 sample_listing EmptyString))
       (Some "WEMO.KITCHEN") = []
  /\ found_reports
       (trace_of (click_wemo_setup
                    (sample_env [] true (Completed 0 sample_listing EmptyString))
                    "home" "pw" true None)) = []
  /\ prompts
       (trace_of (click_wemo_setup
                    (sample_env [] true (Completed 0 sample_listing EmptyString))
                    "home" "pw" true None)) = [prompt_setup_all 2]
  /\ found_reports
       (trace_of (click_wemo_setup
                    (sample_env [] true (Completed 0 EmptyString EmptyString))
                    "home" "pw" true None)) = [].
Proof. vm_compute. repeat split. Qed.

(** C5, amended.  When the discovery of the list, rename and reset-all
    workflows yields no device, the workflow reports found 0 devices and
    calls no device, and reset-all shows no confirmation prompt.  Setup-all
    scans for access points first and never reports a count of found
    devices; when the scan yields no access point of a device it shows no
    prompt and calls no device, and when the discoveries on the access points
    yield no device it calls no device. *)
Theorem C5_no_devices (env : Env) :
  (discover_devices env None = [] ->
   (forall info,
       wemo_discover env info
       = ([Discover; Log INFO "found %s devices" [AInt 0]], Ok tt))
   /\ (forall rows maps,
          read_rows no_names rows = Ok maps ->
          wemo_rename env rows
          = ([Discover; Log INFO "found %s devices" [AInt 0]], Ok tt))
   /\ (forall data wifi full name,
          click_wemo_reset env data wifi full true name
          = ((Discover :: Log INFO "found %s devices" [AInt 0]
              :: name_warning name
              ++ [Log INFO "devices will take approximately 90 seconds to reset" []])%list,
             Ok tt)))
  /\ (forall ssid password name,
         found_reports (trace_of (click_wemo_setup env ssid password true name)) = [])
  /\ (forall ssid password name current,
         outcome_of (find_wemo_aps env) = Ok (@nil string, current) ->
         prompts (trace_of (click_wemo_setup env ssid password true name)) = []
         /\ device_calls (trace_of (click_wemo_setup env ssid password true name)) = [])
  /\ (forall ssid password name,
         (forall wemossid, discover_devices env (Some wemossid) = []) ->
         device_calls (trace_of (click_wemo_setup env ssid password true name)) = []).
Proof.
  split; [|split; [|split]].
  - intros Hnone. split; [|split].
    + intros info. unfold wemo_discover. now rewrite discover_none.
    + intros rows maps Hrows. unfold wemo_rename. rewrite Hrows.
      now rewrite discover_none.
    + intros data wifi full name. unfold click_wemo_reset, reset_body.
      rewrite discover_none by exact Hnone. now destruct name.
  - intros ssid password name. apply found_reports_none.
    apply setup_all_trace; try reflexivity.
    + intros lvl fmt args. apply found_report_log.
    + intros lvl msg. now destruct lvl.
    + apply setup_found_devices_no_report.
  - intros ssid password name current Haps.
    pose proof (find_wemo_aps_trace env
                  (fun ev => match ev with Confirm _ _ => False | _ => True end)
                  (fun _ _ _ _ => I) (fun _ => I)) as Hprompt.
    pose proof (find_wemo_aps_trace env (fun ev => device_call ev = false)
                  (fun _ _ _ _ => eq_refl) (fun _ => eq_refl)) as Hcalls.
    rewrite (setup_all_no_aps env ssid password name current Haps).
    cbn [trace_of fst]. split.
    + apply prompts_none. repeat constructor.
      apply Forall_app. split; [exact Hprompt|now repeat constructor].
    + apply device_calls_none. repeat constructor.
      apply Forall_app. split; [exact Hcalls|now repeat constructor].
  - intros ssid password name Hnone. apply device_calls_none.
    apply setup_all_trace; try reflexivity.
    intros wemossid ssid' password'.
    rewrite setup_found_devices_none by apply Hnone. now repeat constructor.
Qed.

(** C5 at a host that finds no device, for the list and reset-all
    workflows. *)
Lemma C5_no_devices_witness :
  wemo_discover (sample_env [] true NotInstalled) 0
  = ([Discover; Log INFO "found %s devices" [AInt 0]], Ok tt)
  /\ click_wemo_reset (sample_env [] true NotInstalled) false false false true None
     = ([ Discover; Log INFO "found %s devices" [AInt 0];
          Log INFO "devices will take approximately 90 seconds to reset" [] ], Ok tt).
Proof.
  destruct (C5_no_devices (sample_env [] true NotInstalled)) as (H & _).
  destruct (H eq_refl) as (Hlist & _ & Hreset).
  split; [apply Hlist|apply (Hreset false false false None)].
Defined.

(** ** Diagnostics *)

Lemma check_fault_fault (res : result) :
  is_fault res = true -> check_fault res = Deferred.
Proof.
  unfold is_fault, check_fault, subscript, val_lower.
  destruct res as [d|v]; [|discriminate].
  destruct (d !! "faultstring") as [[s| |z]|]; try discriminate.
  now intros ->.
Qed.

Lemma check_fault_no_fault (res : result) :
  is_fault res = false ->
  check_fault res = Printed
  \/ exists exc, check_fault res = CheckRaises exc
                 /\ catches_detail (exn_cls exc) = true.
Proof.
  unfold is_fault, check_fault, subscript, val_lower.
  destruct res as [d|v]; [|right; eexists; split; reflexivity].
  destruct (d !! "faultstring") as [[s| |z]|]; cbn.
  - intros ->. now left.
  - right. eexists. split; reflexivity.
  - right. eexists. split; reflexivity.
  - now left.
Qed.

Lemma subscript_raises (res : result) (key : option string) (exc : exn) :
  subscript res key = Throws exc -> catches_detail (exn_cls exc) = true.
Proof.
  unfold subscript. destruct res as [d|v].
  - destruct key as [k|]; [destruct (d !! k)|]; intros [= <-]; reflexivity.
  - intros [= <-]. reflexivity.
Qed.

(** A turn of the loop on a benign call ends normally: it made the call,
    logged at most records, and deferred the result if it is a fault. *)
Lemma log_detail_step_benign (device : Device) (failed : list (string * result))
    (item : string * string * option string) :
  benign_call device item = true ->
  exists t,
    log_detail_step device failed item
    = (CallAction (dev_str device) (fst (fst item)) (snd (fst item)) :: t,
       Ok (failed ++ deferred_calls device [item])%list)
    /\ action_calls t = [].
Proof.
  destruct item as [[service_name action_name] key].
  unfold benign_call, deferred_calls, log_detail_step. cbn [fst snd flat_map].
  destruct (dev_action device service_name action_name) as [res|exc].
  - intros _. destruct (is_fault res) eqn:Hfault.
    + rewrite (check_fault_fault res Hfault). cbn.
      exists []. cbn [app]. now rewrite ?app_nil_r.
    + cbn [app]; rewrite ?app_nil_r.
      destruct (check_fault_no_fault res Hfault) as [->|(exc & -> & Hexc)].
      * destruct (subscript res key) as [v|exc] eqn:Hsub.
        -- eexists. split; reflexivity.
        -- case_bool_decide; [eexists; split; reflexivity|].
           rewrite (subscript_raises _ _ _ Hsub). eexists. split; reflexivity.
      * rewrite Hexc. eexists. split; reflexivity.
  - intros ->. cbn [app]; rewrite ?app_nil_r. eexists. split; reflexivity.
Qed.

Lemma action_calls_app (t1 t2 : list event) :
  action_calls (t1 ++ t2) = (action_calls t1 ++ action_calls t2)%list.
Proof. apply flat_map_app. Qed.

Lemma action_calls_call (dev service action : string) (t : list event) :
  action_calls (CallAction dev service action :: t)
  = (service, action) :: action_calls t.
Proof. reflexivity. Qed.

Lemma deferred_calls_cons (device : Device)
    (item : string * string * option string)
    (items : list (string * string * option string)) :
  deferred_calls device (item :: items)
  = (deferred_calls device [item] ++ deferred_calls device items)%list.
Proof. unfold deferred_calls. cbn [flat_map]. now rewrite app_nil_r. Qed.

Lemma log_detail_loop_benign (device : Device)
    (items : list (string * string * option string))
    (failed : list (string * result)) :
  Forall (fun item => benign_call device item = true) items ->
  outcome_of (log_detail_loop device items failed)
  = Ok (failed ++ deferred_calls device items)%list
  /\ action_calls (trace_of (log_detail_loop device items failed))
     = map (fun item => (fst (fst item), snd (fst item))) items.
Proof.
  intros Hitems. revert failed.
  induction Hitems as [|item items Hitem _ IH]; intros failed.
  - cbn. now rewrite app_nil_r.
  - cbn [log_detail_loop map].
    destruct (log_detail_step_benign device failed item Hitem) as (t & -> & Ht).
    specialize (IH (failed ++ deferred_calls device [item])%list).
    cbn [bind].
    destruct (log_detail_loop device items _) as [t' o'].
    cbn [outcome_of trace_of fst snd] in *. destruct IH as [-> Hcalls].
    split.
    + now rewrite (deferred_calls_cons device item items), app_assoc.
    + rewrite action_calls_app, action_calls_call, Ht, Hcalls. reflexivity.
Qed.

Lemma log_failed_calls_run (failed : list (string * result)) :
  log_failed_calls failed = (failed_section failed, Ok tt).
Proof.
  unfold log_failed_calls, failed_section.
  assert (Hloop : for_each failed
                    (fun '(name, res) => log INFO fmt_detail [AStr name; ARes res])
                  = (map (fun call => Log INFO fmt_detail
                                        [AStr (fst call); ARes (snd call)]) failed,
                     Ok tt)).
  { induction failed as [|[name res] failed IH]; [reflexivity|].
    cbn [for_each map]. rewrite IH. reflexivity. }
  rewrite Hloop. destruct failed; reflexivity.
Qed.

Lemma action_calls_failed_section (failed : list (string * result)) :
  action_calls (failed_section failed) = [].
Proof.
  unfold failed_section. rewrite action_calls_app.
  assert (H : action_calls
                (map (fun call => Log INFO fmt_detail
                                    [AStr (fst call); ARes (snd call)]) failed) = []).
  { induction failed as [|c failed IH]; [reflexivity|exact IH]. }
  rewrite H. now destruct failed.
Qed.

(** The claim C6 fails in both of its parts.  A result that carries the
    field faultstring with another value than UPnPError is printed in place,
    with the successes, and nothing is deferred; and a call that raises an
    error of another class than the three handled ends [log_details] with
    that error after the first call, so the other actions are not listed. *)
Lemma C6_counterexample :
  (subscript (RDict (<["faultstring" := PStr "Invalid Action"]> ∅))
     (Some "faultstring") = Returns (PStr "Invalid Action")
   /\ log_details_of
        (probe_device (Returns (RDict (<["faultstring" := PStr "Invalid Action"]> ∅))))
        [("basicevent", "GetMacAddr", None)]
      = ([ CallAction "Lamp" "basicevent" "GetMacAddr";
           Log INFO fmt_detail
             [ AStr "basicevent.GetMacAddr[None]";
               ARes (RDict (<["faultstring" := PStr "Invalid Action"]> ∅)) ] ],
         Ok tt))
  /\ log_details
       (probe_device
          (Throws (Exn (OtherError "ActionException") "connection refused" None)))
       0
     = ([CallAction "Lamp" "basicevent" "GetFriendlyName"],
        Raised (Exn (OtherError "ActionException") "connection refused" None)).
Proof. vm_compute. repeat split. Qed.

(** C6, amended.  In the diagnostics of one device, a call whose result
    has a faultstring that lowers to upnperror is not printed in place: it is
    kept for the section of failed calls, which [log_details] writes after
    the loop, behind a warning.  A call that raises an AttributeError, a
    KeyError or a TypeError leaves a warning record and the loop goes on.  So
    when every call of the sequence returns or raises one of these three,
    every action of the sequence is called, in order, the deferred results
    are reported at the end, and [log_details] ends normally. *)
Theorem C6_log_details (device : Device) :
  (forall failed service action key res,
      dev_action device service action = Returns res ->
      is_fault res = true ->
      log_detail_step device failed (service, action, key)
      = ([CallAction (dev_str device) service action],
         Ok (failed ++ [((service ++ "." ++ action)%string, res)])%list))
  /\ (forall failed service action key exc,
         dev_action device service action = Throws exc ->
         catches_detail (exn_cls exc) = true ->
         log_detail_step device failed (service, action, key)
         = ([ CallAction (dev_str device) service action;
              Log WARNING fmt_detail
                [ AStr ("Failed to get result for s" ++ service ++ "." ++ action);
                  AExn exc ] ],
            Ok failed))
  /\ (forall items,
         Forall (fun item => benign_call device item = true) items ->
         outcome_of (log_details_of device items) = Ok tt
         /\ action_calls (trace_of (log_details_of device items))
            = map (fun item => (fst (fst item), snd (fst item))) items
         /\ trace_of (log_details_of device items)
            = (trace_of (log_detail_loop device items [])
               ++ failed_section (deferred_calls device items))%list)
  /\ (forall verbose,
         Forall (fun item => benign_call device item = true)
           (data_to_print device verbose) ->
         outcome_of (log_details device verbose) = Ok tt
         /\ action_calls (trace_of (log_details device verbose))
            = map (fun item => (fst (fst item), snd (fst item)))
                (data_to_print device verbose)).
Proof.
  assert (Hall : forall items,
             Forall (fun item => benign_call device item = true) items ->
             outcome_of (log_details_of device items) = Ok tt
             /\ action_calls (trace_of (log_details_of device items))
                = map (fun item => (fst (fst item), snd (fst item))) items
             /\ trace_of (log_details_of device items)
                = (trace_of (log_detail_loop device items [])
                   ++ failed_section (deferred_calls device items))%list).
  { intros items Hitems. unfold log_details_of.
    destruct (log_detail_loop_benign device items [] Hitems) as [Hout Hcalls].
    cbn [app] in Hout. rewrite (bind_outcome_Ok _ _ _ Hout).
    rewrite log_failed_calls_run. cbn [outcome_of trace_of fst snd].
    split; [reflexivity|]. split; [|reflexivity].
    now rewrite action_calls_app, Hcalls, action_calls_failed_section, app_nil_r. }
  split; [|split; [|split]].
  - intros failed service action key res Hcall Hfault.
    unfold log_detail_step. rewrite Hcall, (check_fault_fault res Hfault).
    reflexivity.
  - intros failed service action key exc Hcall Hexc.
    unfold log_detail_step. rewrite Hcall, Hexc. reflexivity.
  - exact Hall.
  - intros verbose Hitems. unfold log_details.
    destruct (Hall _ Hitems) as (Hout & Hcalls & _). now split.
Qed.

(** C6 at a device that reports a fault for the second of the three
    calls and raises a KeyError at the third. *)
Lemma C6_log_details_witness :
  outcome_of (log_details mixed_device 0) = Ok tt
  /\ action_calls (trace_of (log_details mixed_device 0))
     = [ ("basicevent", "GetFriendlyName");
         ("basicevent", "GetMacAddr");
         ("metainfo", "GetMetaInfo") ].
Proof.
  destruct (C6_log_details mixed_device) as (_ & _ & _ & H).
  apply (H 0%Z). repeat constructor.
Defined.

(* ===================================================================== *)
(** * Further properties of the workflows *)
(* ===================================================================== *)

(** ** Loops that stop at an error *)

Lemma for_each_raises {A} (pre post : list A) (x : A) (body : A -> M unit)
    (events : A -> list event) (t : list event) (e : exn) :
  Forall (fun y => body y = (events y, Ok tt)) pre ->
  body x = (t, Raised e) ->
  for_each (pre ++ x :: post) body = ((flat_map events pre ++ t)%list, Raised e).
Proof.
  intros Hpre Hx. induction Hpre as [|y pre Hy _ IH]; cbn [app for_each flat_map].
  - now rewrite Hx.
  - rewrite Hy, IH. cbn [bind]. now rewrite app_assoc.
Qed.

(** ** Rename: the file and the names *)

Lemma read_row_valid (maps : names) (udn ip name : string) :
  PyStr.startswith udn "#" = false ->
  PyStr.strip name <> EmptyString ->
  read_row maps [udn; ip; name] =
  Ok (Names
        (if PyStr.truthy (PyStr.strip udn)
         then <[PyStr.strip udn := PyStr.strip name]> (udn_to_name maps)
         else udn_to_name maps)
        (if PyStr.truthy (PyStr.strip ip)
         then <[PyStr.strip ip := PyStr.strip name]> (ip_to_name maps)
         else ip_to_name maps)).
Proof.
  intros Hhash Hname. unfold read_row. cbn [length nth map Nat.ltb Nat.leb orb].
  rewrite Hhash. apply truthy_true in Hname. now rewrite Hname.
Qed.

(** X1. A row with a name is stored and found again, and it wins over the
    rows before it: after a file whose last row has three fields, a first
    field that does not start with the comment sign and a name that is not
    blank, the stripped UDN and the stripped IP of that row, when not empty,
    are both mapped to the stripped name, whatever the earlier rows held
    for them, and every other key is mapped as the earlier rows left it. *)
Theorem X1_last_row_wins (maps0 maps : names) (rows : list (list string))
    (udn ip name : string) :
  read_rows maps0 rows = Ok maps ->
  PyStr.startswith udn "#" = false ->
  PyStr.strip name <> EmptyString ->
  exists maps',
    read_rows maps0 (rows ++ [[udn; ip; name]]) = Ok maps'
    /\ (PyStr.strip udn <> EmptyString ->
        udn_to_name maps' !! PyStr.strip udn = Some (PyStr.strip name))
    /\ (PyStr.strip ip <> EmptyString ->
        ip_to_name maps' !! PyStr.strip ip = Some (PyStr.strip name))
    /\ (forall k, k <> PyStr.strip udn ->
                  udn_to_name maps' !! k = udn_to_name maps !! k)
    /\ (forall k, k <> PyStr.strip ip ->
                  ip_to_name maps' !! k = ip_to_name maps !! k).
Proof.
  intros Hrows Hhash Hname.
  eexists. rewrite read_rows_app, Hrows. cbn [read_rows].
  rewrite (read_row_valid maps udn ip name Hhash Hname).
  split; [reflexivity|]. cbn [udn_to_name ip_to_name].
  split; [|split; [|split]].
  - intros Hudn. apply truthy_true in Hudn. rewrite Hudn. apply lookup_insert_eq.
  - intros Hip. apply truthy_true in Hip. rewrite Hip. apply lookup_insert_eq.
  - intros k Hk. destruct (PyStr.truthy (PyStr.strip udn)); [|reflexivity].
    now apply lookup_insert_ne.
  - intros k Hk. destruct (PyStr.truthy (PyStr.strip ip)); [|reflexivity].
    now apply lookup_insert_ne.
Qed.

(** X1 at a file that names the same UDN twice. *)
Lemma X1_last_row_wins_witness :
  exists maps',
    read_rows no_names
      ([ ["uuid:Socket-1"; "10.0.0.5"; "Lamp"] ]
       ++ [ [" uuid:Socket-1 "; EmptyString; " Desk lamp "] ]) = Ok maps'
    /\ udn_to_name maps' !! "uuid:Socket-1" = Some "Desk lamp"
    /\ ip_to_name maps' !! "10.0.0.5" = Some "Lamp".
Proof.
  destruct (X1_last_row_wins no_names
              (Names (<["uuid:Socket-1" := "Lamp"]> ∅) (<["10.0.0.5" := "Lamp"]> ∅))
              [ ["uuid:Socket-1"; "10.0.0.5"; "Lamp"] ]
              " uuid:Socket-1 " EmptyString " Desk lamp ")
    as (maps' & Hread & Hudn & _ & _ & Hips).
  - reflexivity.
  - reflexivity.
  - discriminate.
  - exists maps'. split; [exact Hread|]. split.
    + apply Hudn. discriminate.
    + rewrite Hips by discriminate. reflexivity.
Defined.

(** X2. The comment test looks at the first field as it stands in the
    file, before it is stripped: a row of three fields whose first field
    starts with white space and then the comment sign is not passed over,
    and its name is stored under the stripped field, comment sign
    included. *)
Theorem X2_indented_comment_is_data (maps : names) (udn ip name : string) :
  PyStr.startswith udn "#" = false ->
  PyStr.startswith (PyStr.strip udn) "#" = true ->
  PyStr.strip name <> EmptyString ->
  exists maps',
    read_row maps [udn; ip; name] = Ok maps'
    /\ udn_to_name maps' !! PyStr.strip udn = Some (PyStr.strip name).
Proof.
  intros Hraw Hstripped Hname. eexists.
  rewrite (read_row_valid maps udn ip name Hraw Hname).
  split; [reflexivity|]. cbn [udn_to_name].
  destruct (PyStr.strip udn) as [|c s]; [discriminate Hstripped|].
  apply lookup_insert_eq.
Qed.

(** X2 at a commented row that starts with a space. *)
Lemma X2_indented_comment_is_data_witness :
  exists maps',
    read_row no_names [" #uuid:Socket-1"; "10.0.0.5"; "Lamp"] = Ok maps'
    /\ udn_to_name maps' !! "#uuid:Socket-1" = Some "Lamp".
Proof.
  apply (X2_indented_comment_is_data no_names " #uuid:Socket-1" "10.0.0.5" "Lamp").
  - reflexivity.
  - reflexivity.
  - discriminate.
Defined.

(** A device without a name is passed over when the loop reaches it. *)
Lemma wemo_rename_unnamed (env : Env) (rows : list (list string)) (maps : names)
    (pre post : list Device) (d : Device) :
  read_rows no_names rows = Ok maps ->
  outcome_of (discover_and_log_devices env None false 0) = Ok (pre ++ d :: post)%list ->
  Forall (fun x => rename_returns maps x = true) pre ->
  chosen_name maps d = EmptyString ->
  wemo_rename env rows
  = ((trace_of (discover_and_log_devices env None false 0)
      ++ rename_events maps pre
      ++ [ Log INFO fmt_no_name
             [AStr (dev_str d); AStr (dev_UDN d); AStr (dev_host d)] ]
      ++ trace_of (for_each post (rename_device maps)))%list,
     outcome_of (for_each post (rename_device maps))).
Proof.
  intros Hrows Hdisc Hpre Hn.
  rewrite (wemo_rename_upto env rows maps pre (d :: post) Hrows Hdisc Hpre).
  cbn [for_each]. unfold rename_device at 1 3. rewrite Hn. cbn [PyStr.truthy].
  unfold log, emit. cbn [bind app].
  now destruct (for_each post (rename_device maps)) as [t o].
Qed.

(** X3. In the rename workflow a discovered device whose UDN is not in
    the file is named by its address: when the file maps the address to a
    name, the loop, once it reaches the device, logs the change and calls
    the rename action with that name.  A device that neither dictionary
    knows is left alone: the loop writes the record that no name was found
    and goes on to the next device, so that the rename calls of the
    workflow are those of the devices before it followed by those of the
    devices after it. *)
Theorem X3_ip_fallback (env : Env) (rows : list (list string)) (maps : names)
    (pre post : list Device) (d : Device) :
  read_rows no_names rows = Ok maps ->
  outcome_of (discover_and_log_devices env None false 0) = Ok (pre ++ d :: post)%list ->
  Forall (fun x => rename_returns maps x = true) pre ->
  udn_to_name maps !! dev_UDN d = None ->
  (forall n,
      ip_to_name maps !! dev_host d = Some n ->
      exists t2,
        trace_of (wemo_rename env rows)
        = (trace_of (discover_and_log_devices env None false 0)
           ++ rename_events maps pre
           ++ [ Log INFO "changing %s name to: %s" [AStr (dev_str d); AStr n];
                CallRename (dev_str d) n ]
           ++ t2)%list
        /\ rename_calls (trace_of (wemo_rename env rows))
           = (flat_map (planned_rename maps) pre
              ++ (dev_str d, n) :: rename_calls t2)%list)
  /\ (ip_to_name maps !! dev_host d = None ->
      wemo_rename env rows
      = ((trace_of (discover_and_log_devices env None false 0)
          ++ rename_events maps pre
          ++ [ Log INFO fmt_no_name
                 [AStr (dev_str d); AStr (dev_UDN d); AStr (dev_host d)] ]
          ++ trace_of (for_each post (rename_device maps)))%list,
         outcome_of (for_each post (rename_device maps)))
      /\ rename_calls (trace_of (wemo_rename env rows))
         = (flat_map (planned_rename maps) pre
            ++ rename_calls (trace_of (for_each post (rename_device maps))))%list).
Proof.
  intros Hrows Hdisc Hpre Hudn. split.
  - intros n Hip.
    destruct (read_rows_all_named rows no_names maps) as [_ Hi]; try exact Hrows;
      try (intros k v; cbn; rewrite lookup_empty; discriminate).
    apply (wemo_rename_named env rows maps pre post d n Hrows Hdisc Hpre).
    + unfold chosen_name, dict_get. now rewrite Hudn, Hip.
    + exact (Hi _ _ Hip).
  - intros Hip.
    assert (Hn : chosen_name maps d = EmptyString).
    { unfold chosen_name, dict_get. now rewrite Hudn, Hip. }
    rewrite (wemo_rename_unnamed env rows maps pre post d Hrows Hdisc Hpre Hn).
    split; [reflexivity|]. cbn [trace_of fst].
    rewrite rename_calls_upto, rename_calls_app. reflexivity.
Qed.

(** X3 at three devices and a file that knows the second by its address
    only and the others not at all: the second is renamed, and nothing is
    called for the first. *)
Lemma X3_ip_fallback_witness :
  (exists t2,
      rename_calls
        (trace_of (wemo_rename (sample_env sample_devices true NotInstalled)
                     address_rows))
      = (flat_map (planned_rename (Names ∅ (<["10.0.0.6" := "Ceiling fan"]> ∅)))
           [sample_device "Lamp" "10.0.0.5" "uuid:Socket-1" (Returns tt)]
         ++ ("Fan", "Ceiling fan") :: rename_calls t2)%list)
  /\ rename_calls
       (trace_of (wemo_rename (sample_env sample_devices true NotInstalled)
                    address_rows))
     = ([] ++ rename_calls
                (trace_of
                   (for_each (tl sample_devices)
                      (rename_device (Names ∅ (<["10.0.0.6" := "Ceiling fan"]> ∅))))))%list.
Proof.
  split.
  - destruct (X3_ip_fallback (sample_env sample_devices true NotInstalled)
                address_rows (Names ∅ (<["10.0.0.6" := "Ceiling fan"]> ∅))
                [sample_device "Lamp" "10.0.0.5" "uuid:Socket-1" (Returns tt)]
                [sample_device "Porch" "10.0.0.7" "uuid:Socket-3" (Returns tt)]
                (sample_device "Fan" "10.0.0.6" "uuid:Socket-2"
                   (Throws (Exn ResetException "Fan could not be reset" None))))
      as [H _].
    + vm_compute. reflexivity.
    + reflexivity.
    + repeat constructor.
    + reflexivity.
    + destruct (H "Ceiling fan") as (t2 & _ & Hcalls); [reflexivity|].
      exists t2. exact Hcalls.
  - destruct (X3_ip_fallback (sample_env sample_devices true NotInstalled)
                address_rows (Names ∅ (<["10.0.0.6" := "Ceiling fan"]> ∅))
                [] (tl sample_devices)
                (sample_device "Lamp" "10.0.0.5" "uuid:Socket-1" (Returns tt)))
      as [_ H].
    + vm_compute. reflexivity.
    + reflexivity.
    + constructor.
    + reflexivity.
    + destruct (H eq_refl) as [_ Hcalls]. exact Hcalls.
Defined.

(** ** Rename: the devices *)

(** X4. Once the file is loaded and the devices are found, [wemo_rename]
    calls the rename action once for every device it has a name for, in
    discovery order and with that name, and for no other device; when all
    these calls return it ends normally. *)
Theorem X4_rename_all (env : Env) (rows : list (list string)) (maps : names)
    (devices : list Device) :
  read_rows no_names rows = Ok maps ->
  outcome_of (discover_and_log_devices env None false 0) = Ok devices ->
  Forall (fun d => rename_returns maps d = true) devices ->
  outcome_of (wemo_rename env rows) = Ok tt
  /\ rename_calls (trace_of (wemo_rename env rows))
     = flat_map (planned_rename maps) devices.
Proof.
  intros Hrows Hdisc Hret. unfold wemo_rename. rewrite Hrows. cbn [bind app].
  pose proof (discover_trace env None false 0) as Hquiet.
  destruct (discover_and_log_devices env None false 0) as [tD [devs|e]];
    cbn [outcome_of trace_of fst snd] in *; [injection Hdisc as ->|discriminate].
  cbn [bind].
  rewrite (for_each_runs devices (rename_device maps)
             (fun d => trace_of (rename_device maps d))).
  - cbn [outcome_of trace_of fst snd]. split; [reflexivity|].
    now rewrite rename_calls_app, (rename_calls_discovery _ Hquiet),
      rename_calls_devices.
  - eapply Forall_impl; [exact Hret|]. intros d. apply rename_device_returns.
Qed.

(** X4 at three devices, one known by UDN, one by address, one unknown. *)
Lemma X4_rename_all_witness :
  rename_calls
    (trace_of (wemo_rename (sample_env sample_devices true NotInstalled)
                 [ ["uuid:Socket-1"; EmptyString; "Desk lamp"];
                   [EmptyString; "10.0.0.6"; "Ceiling fan"] ]))
  = [("Lamp", "Desk lamp"); ("Fan", "Ceiling fan")].
Proof.
  destruct (X4_rename_all (sample_env sample_devices true NotInstalled)
              [ ["uuid:Socket-1"; EmptyString; "Desk lamp"];
                [EmptyString; "10.0.0.6"; "Ceiling fan"] ]
              (Names (<["uuid:Socket-1" := "Desk lamp"]> ∅)
                     (<["10.0.0.6" := "Ceiling fan"]> ∅))
              sample_devices) as [_ H].
  - vm_compute. reflexivity.
  - reflexivity.
  - repeat constructor.
  - exact H.
Defined.

(** X5. [wemo_rename] has no handler around the rename action: when the
    action raises for a device, the command ends with that error, and the
    devices behind it in discovery order are not renamed. *)
Theorem X5_rename_stops_at_error (env : Env) (rows : list (list string))
    (maps : names) (pre post : list Device) (d : Device) (e : exn) :
  read_rows no_names rows = Ok maps ->
  outcome_of (discover_and_log_devices env None false 0) = Ok (pre ++ d :: post)%list ->
  Forall (fun x => rename_returns maps x = true) pre ->
  PyStr.truthy (chosen_name maps d) = true ->
  dev_rename d (chosen_name maps d) = Throws e ->
  outcome_of (wemo_rename env rows) = Raised e
  /\ rename_calls (trace_of (wemo_rename env rows))
     = (flat_map (planned_rename maps) pre
        ++ [(dev_str d, chosen_name maps d)])%list.
Proof.
  intros Hrows Hdisc Hpre Hname Hthrow. unfold wemo_rename.
  rewrite Hrows. cbn [bind app].
  pose proof (discover_trace env None false 0) as Hquiet.
  destruct (discover_and_log_devices env None false 0) as [tD [devs|e']];
    cbn [outcome_of trace_of fst snd] in *; [injection Hdisc as ->|discriminate].
  cbn [bind].
  rewrite (for_each_raises pre post d (rename_device maps)
             (fun x => trace_of (rename_device maps x))
             [ Log INFO "changing %s name to: %s"
                 [AStr (dev_str d); AStr (chosen_name maps d)];
               CallRename (dev_str d) (chosen_name maps d) ] e).
  - cbn [outcome_of trace_of fst snd]. split; [reflexivity|].
    rewrite !rename_calls_app, (rename_calls_discovery _ Hquiet),
      rename_calls_devices. reflexivity.
  - eapply Forall_impl; [exact Hpre|]. intros x. apply rename_device_returns.
  - unfold rename_device. rewrite Hname. unfold do_call. now rewrite Hthrow.
Qed.

(** X5 at three devices the second of which cannot be renamed. *)
Lemma X5_rename_stops_at_error_witness :
  outcome_of
    (wemo_rename
       (sample_env
          [ sample_device "Lamp" "10.0.0.5" "uuid:Socket-1" (Returns tt);
            stubborn_device "Fan" "10.0.0.6" "uuid:Socket-2";
            sample_device "Porch" "10.0.0.7" "uuid:Socket-3" (Returns tt) ]
          true NotInstalled)
       [ ["uuid:Socket-1"; EmptyString; "A"];
         ["uuid:Socket-2"; EmptyString; "B"];
         ["uuid:Socket-3"; EmptyString; "C"] ])
  = Raised (Exn (OtherError "ConnectionError") "no route to host" None)
  /\ rename_calls
       (trace_of
          (wemo_rename
             (sample_env
                [ sample_device "Lamp" "10.0.0.5" "uuid:Socket-1" (Returns tt);
                  stubborn_device "Fan" "10.0.0.6" "uuid:Socket-2";
                  sample_device "Porch" "10.0.0.7" "uuid:Socket-3" (Returns tt) ]
                true NotInstalled)
             [ ["uuid:Socket-1"; EmptyString; "A"];
               ["uuid:Socket-2"; EmptyString; "B"];
               ["uuid:Socket-3"; EmptyString; "C"] ]))
     = [("Lamp", "A"); ("Fan", "B")].
Proof.
  destruct (X5_rename_stops_at_error
              (sample_env
                 [ sample_device "Lamp" "10.0.0.5" "uuid:Socket-1" (Returns tt);
                   stubborn_device "Fan" "10.0.0.6" "uuid:Socket-2";
                   sample_device "Porch" "10.0.0.7" "uuid:Socket-3" (Returns tt) ]
                 true NotInstalled)
              [ ["uuid:Socket-1"; EmptyString; "A"];
                ["uuid:Socket-2"; EmptyString; "B"];
                ["uuid:Socket-3"; EmptyString; "C"] ]
              (Names (<["uuid:Socket-3" := "C"]>
                        (<["uuid:Socket-2" := "B"]> (<["uuid:Socket-1" := "A"]> ∅))) ∅)
              [sample_device "Lamp" "10.0.0.5" "uuid:Socket-1" (Returns tt)]
              [sample_device "Porch" "10.0.0.7" "uuid:Socket-3" (Returns tt)]
              (stubborn_device "Fan" "10.0.0.6" "uuid:Socket-2")
              (Exn (OtherError "ConnectionError") "no route to host" None))
    as [Hout Hcalls].
  - vm_compute. reflexivity.
  - reflexivity.
  - repeat constructor.
  - reflexivity.
  - reflexivity.
  - split; [exact Hout|exact Hcalls].
Defined.

(** ** Reset: the other ways reset-all ends *)

Lemma prompts_app (t1 t2 : list event) :
  prompts (t1 ++ t2) = (prompts t1 ++ prompts t2)%list.
Proof. apply flat_map_app. Qed.

(** X6. When the user answers no at the prompt of reset-all, no device is
    reset and the command ends normally; the record that devices take about
    90 seconds to reset is written all the same. *)
Theorem X6_reset_all_declined (env : Env) (data wifi full : bool)
    (name : option string) (devices : list Device) :
  outcome_of (discover_and_log_devices env None false 0) = Ok devices ->
  devices <> [] ->
  confirm env (prompt_reset_all (length devices)) = false ->
  click_wemo_reset env data wifi full true name
  = ((trace_of (discover_and_log_devices env None false 0)
      ++ name_warning name
      ++ [ Confirm (prompt_reset_all (length devices)) false;
           Log INFO "devices will take approximately 90 seconds to reset" [] ])%list,
     Ok tt)
  /\ reset_attempts (trace_of (click_wemo_reset env data wifi full true name)) = [].
Proof.
  intros Hdisc Hne Hno.
  pose proof (discover_trace env None false 0) as Hquiet.
  assert (Hrun : click_wemo_reset env data wifi full true name
    = ((trace_of (discover_and_log_devices env None false 0)
        ++ name_warning name
        ++ [ Confirm (prompt_reset_all (length devices)) false;
             Log INFO "devices will take approximately 90 seconds to reset" [] ])%list,
       Ok tt)).
  { unfold click_wemo_reset, reset_body.
    destruct (discover_and_log_devices env None false 0) as [tD [devs|e]];
      cbn [outcome_of trace_of fst snd] in *; [injection Hdisc as ->|discriminate].
    cbn [bind]. unfold ask. rewrite Hno.
    destruct devices as [|d0 l]; [now destruct Hne|].
    destruct name; cbn; rewrite <- ?app_assoc; reflexivity. }
  split; [exact Hrun|]. rewrite Hrun. cbn [trace_of fst].
  rewrite !reset_attempts_app, (reset_attempts_discovery _ Hquiet).
  now destruct name.
Qed.

(** X6 at three devices and the answer no. *)
Lemma X6_reset_all_declined_witness :
  reset_attempts
    (trace_of (click_wemo_reset (sample_env sample_devices false NotInstalled)
                 true true false true None)) = [].
Proof.
  apply (X6_reset_all_declined (sample_env sample_devices false NotInstalled)
           true true false None sample_devices).
  - reflexivity.
  - discriminate.
  - reflexivity.
Defined.

(** X7. The loop of reset-all handles reset errors only.  When the reset
    of a device raises an error of another class, the command ends with that
    error: no critical record is written and the devices behind it are not
    reset. *)
Theorem X7_reset_all_other_error (env : Env) (data wifi : bool)
    (name : option string) (pre post : list Device) (d : Device) (e : exn) :
  outcome_of (discover_and_log_devices env None false 0) = Ok (pre ++ d :: post)%list ->
  confirm env (prompt_reset_all (length (pre ++ d :: post))) = true ->
  Forall (fun x => reset_error_only data wifi x = true) pre ->
  dev_reset d data wifi = Throws e ->
  exn_cls e <> ResetException ->
  outcome_of (click_wemo_reset env data wifi false true name) = Raised e
  /\ reset_attempts (trace_of (click_wemo_reset env data wifi false true name))
     = map dev_str (pre ++ [d])
  /\ critical_records (trace_of (click_wemo_reset env data wifi false true name)) = [].
Proof.
  intros Hdisc Hyes Hpre Hthrow Hcls.
  pose proof (discover_trace env None false 0) as Hquiet.
  assert (Hone : reset_one env data wifi d
                 = ([Log INFO (DASHES (columns env)) [];
                     CallReset (dev_str d) data wifi], Raised e)).
  { unfold reset_one, do_call. rewrite Hthrow. cbn. unfold is_class.
    now rewrite bool_decide_eq_false_2. }
  assert (Hloop : for_each (pre ++ d :: post) (reset_one env data wifi)
                  = ((flat_map (reset_events env data wifi) pre
                      ++ [Log INFO (DASHES (columns env)) [];
                          CallReset (dev_str d) data wifi])%list, Raised e)).
  { apply for_each_raises; [|exact Hone].
    eapply Forall_impl; [exact Hpre|]. intros x. apply reset_one_run. }
  assert (Hrun : click_wemo_reset env data wifi false true name
    = ((trace_of (discover_and_log_devices env None false 0)
        ++ name_warning name
        ++ Confirm (prompt_reset_all (length (pre ++ d :: post))) true
           :: flat_map (reset_events env data wifi) pre
        ++ [Log INFO (DASHES (columns env)) [];
            CallReset (dev_str d) data wifi])%list, Raised e)).
  { unfold click_wemo_reset, reset_body.
    destruct (discover_and_log_devices env None false 0) as [tD [devs|e']];
      cbn [outcome_of trace_of fst snd] in *; [injection Hdisc as ->|discriminate].
    cbn [bind]. unfold ask. rewrite Hyes.
    destruct (pre ++ d :: post)%list as [|d0 l] eqn:Hl;
      [now destruct pre|].
    rewrite Hloop.
    destruct name; unfold log, emit, ret, try_except, is_class;
      cbn [bind app name_warning exn_cls];
      rewrite (bool_decide_eq_false_2 _ Hcls);
      rewrite <- ?app_assoc; cbn [app]; rewrite <- ?app_assoc; reflexivity. }
  rewrite Hrun. cbn [outcome_of trace_of fst snd].
  split; [reflexivity|].
  rewrite !reset_attempts_app, !critical_records_app,
    (reset_attempts_discovery _ Hquiet), (critical_records_discovery _ Hquiet).
  rewrite !reset_attempts_cons, !critical_records_cons,
    !reset_attempts_app, !critical_records_app,
    reset_attempts_loop, critical_records_loop, map_app.
  split; destruct name; reflexivity.
Qed.

(** X7 at three devices the second of which raises a connection error. *)
Lemma X7_reset_all_other_error_witness :
  outcome_of
    (click_wemo_reset
       (sample_env
          [ sample_device "Lamp" "10.0.0.5" "uuid:Socket-1" (Returns tt);
            stubborn_device "Fan" "10.0.0.6" "uuid:Socket-2";
            sample_device "Porch" "10.0.0.7" "uuid:Socket-3" (Returns tt) ]
          true NotInstalled)
       true true false true None)
  = Raised (Exn (OtherError "ConnectionError") "no route to host" None)
  /\ reset_attempts
       (trace_of
          (click_wemo_reset
             (sample_env
                [ sample_device "Lamp" "10.0.0.5" "uuid:Socket-1" (Returns tt);
                  stubborn_device "Fan" "10.0.0.6" "uuid:Socket-2";
                  sample_device "Porch" "10.0.0.7" "uuid:Socket-3" (Returns tt) ]
                true NotInstalled)
             true true false true None))
     = ["Lamp"; "Fan"].
Proof.
  destruct (X7_reset_all_other_error
              (sample_env
                 [ sample_device "Lamp" "10.0.0.5" "uuid:Socket-1" (Returns tt);
                   stubborn_device "Fan" "10.0.0.6" "uuid:Socket-2";
                   sample_device "Porch" "10.0.0.7" "uuid:Socket-3" (Returns tt) ]
                 true NotInstalled)
              true true None
              [sample_device "Lamp" "10.0.0.5" "uuid:Socket-1" (Returns tt)]
              [sample_device "Porch" "10.0.0.7" "uuid:Socket-3" (Returns tt)]
              (stubborn_device "Fan" "10.0.0.6" "uuid:Socket-2")
              (Exn (OtherError "ConnectionError") "no route to host" None))
    as (Hout & Hcalls & _).
  - reflexivity.
  - reflexivity.
  - repeat constructor.
  - reflexivity.
  - discriminate.
  - split; [exact Hout|exact Hcalls].
Defined.

(** X8. With reset-all the name option selects nothing: a run with a name
    ends as the run without it, asks the same question, and resets the same
    devices in the same order; the name only adds a warning. *)
Theorem X8_reset_all_ignores_name (env : Env) (data wifi full : bool) (name : string) :
  outcome_of (click_wemo_reset env data wifi full true (Some name))
  = outcome_of (click_wemo_reset env data wifi full true None)
  /\ reset_attempts (trace_of (click_wemo_reset env data wifi full true (Some name)))
     = reset_attempts (trace_of (click_wemo_reset env data wifi full true None))
  /\ prompts (trace_of (click_wemo_reset env data wifi full true (Some name)))
     = prompts (trace_of (click_wemo_reset env data wifi full true None)).
Proof.
  unfold click_wemo_reset, reset_body.
  destruct (discover_and_log_devices env None false 0) as [tD [devices|e]];
    [|now repeat split].
  cbn [bind].
  set (rest := match devices with
               | [] => ret tt
               | _ :: _ =>
                   yes <- ask env (prompt_reset_all (length devices));;
                   (if yes
                    then for_each devices
                           (reset_one env (if full then true else data)
                              (if full then true else wifi));;;
                         log INFO (DASHES (columns env)) []
                    else ret tt)
               end).
  destruct rest as [tR [[]|e]]; unfold log, emit, ret; cbn [bind app].
  - cbn. rewrite !reset_attempts_app, !prompts_app. now repeat split.
  - unfold try_except. destruct (is_class ResetException (exn_cls e));
      cbn; rewrite ?reset_attempts_app, ?prompts_app; now repeat split.
Qed.

(** ** The scan: the current network and lines it cannot read *)

Lemma scan_lines_app (pre rest : list string) (nets : list string) (cur : string) :
  scan_lines (pre ++ rest) nets cur
  = bind (scan_lines pre nets cur) (fun r => scan_lines rest (fst r) (snd r)).
Proof.
  revert nets cur. induction pre as [|line pre IH]; intros nets cur.
  - cbn [app scan_lines]. unfold ret. cbn [bind fst snd app].
    now destruct (scan_lines rest nets cur).
  - cbn [app scan_lines].
    destruct (negb (PyStr.truthy (PyStr.strip line))); [apply IH|].
    destruct (PyStr.rsplit ":" 4 line)
      as [|ssid [|in_use [|channel [|signal [|security [|x l]]]]]];
      try reflexivity.
    destruct (String.eqb in_use "*"), (is_wemo_ssid ssid);
      unfold log, emit, ret; cbn [bind app]; rewrite IH;
      destruct (scan_lines pre _ _) as [t [r|e]]; cbn [bind];
      try reflexivity;
      destruct (scan_lines rest _ _) as [t' o']; rewrite <- ?app_assoc; reflexivity.
Qed.

Lemma first_in_use_cons (line : string) (lines : list string) :
  first_in_use (line :: lines)
  = if negb (blank_line line)
       && String.eqb (nth 1 (PyStr.rsplit ":" 4 line) EmptyString) "*"
       && PyStr.truthy (ssid_of_line line)
    then ssid_of_line line else first_in_use lines.
Proof.
  unfold first_in_use, in_use_ssids. cbn [List.filter].
  destruct (negb (blank_line line)
            && String.eqb (nth 1 (PyStr.rsplit ":" 4 line) EmptyString) "*");
    cbn [andb map List.filter]; [|reflexivity].
  now destruct (PyStr.truthy (ssid_of_line line)).
Qed.

Lemma scan_lines_current (lines : list string) (nets : list string) (cur : string)
    (r : list string * string) :
  outcome_of (scan_lines lines nets cur) = Ok r ->
  snd r = if PyStr.truthy cur then cur else first_in_use lines.
Proof.
  revert nets cur. induction lines as [|line lines IH]; intros nets cur.
  - cbn. intros [= <-]. cbn. now destruct cur.
  - cbn [scan_lines]. rewrite first_in_use_cons. unfold blank_line, ssid_of_line.
    destruct (negb (PyStr.truthy (PyStr.strip line))) eqn:Hblank; cbn [negb andb].
    { apply IH. }
    destruct (PyStr.rsplit ":" 4 line)
      as [|ssid [|in_use [|channel [|signal [|security [|x l]]]]]];
      try (cbn; discriminate).
    cbn [nth].
    destruct (String.eqb in_use "*"), (is_wemo_ssid ssid);
      unfold log, emit, ret; cbn [bind andb];
      match goal with
      | |- context [scan_lines lines ?n ?c] =>
          specialize (IH n c); destruct (scan_lines lines n c) as [t o]
      end;
      cbn [outcome_of snd] in *; intros Hr; rewrite (IH Hr);
      destruct (PyStr.truthy cur) eqn:Hcur; rewrite ?Hcur; try reflexivity;
      destruct (PyStr.truthy ssid) eqn:Hssid; rewrite ?Hssid; reflexivity.
Qed.

(** X9. The network the scan reports as the host's current one is the SSID
    of the first line of the listing that is marked in use and has a
    non-empty SSID, and the empty string when there is no such line; lines
    marked in use further down do not replace it. *)
Theorem X9_current_network (env : Env) (rc0 : Z) (out0 err0 out err : string) :
  nmcli env argv_rescan = Completed rc0 out0 err0 ->
  nmcli env argv_list = Completed 0 out err ->
  Forall (fun line => well_formed_line line = true)
    (PyStr.split PyStr.LF (PyStr.strip out)) ->
  exists nets,
    outcome_of (find_wemo_aps env)
    = Ok (nets, first_in_use (PyStr.split PyStr.LF (PyStr.strip out))).
Proof.
  intros Hrescan Hlist Hwf.
  rewrite (find_wemo_aps_listing env rc0 out0 err0 out err Hrescan Hlist).
  destruct (scan_lines_total _ [] EmptyString Hwf) as [[nets cur] Hr].
  pose proof (scan_lines_current _ _ _ _ Hr) as Hcur. cbn [snd PyStr.truthy] in Hcur.
  exists nets. cbv zeta. unfold outcome_of at 1. cbn [snd].
  rewrite Hr. now subst cur.
Qed.

(** X9 at a listing with two networks in use. *)
Lemma X9_current_network_witness :
  exists nets,
    outcome_of
      (find_wemo_aps
         (sample_env [] true
            (Completed 0
               (PyStr.join (String PyStr.LF EmptyString)
                  ["office:*:1:80:WPA2"; "wemo.plug::6:60:"; "guest:*:11:40:"])
               EmptyString)))
    = Ok (nets, "office").
Proof.
  destruct (X9_current_network
              (sample_env [] true
                 (Completed 0
                    (PyStr.join (String PyStr.LF EmptyString)
                       ["office:*:1:80:WPA2"; "wemo.plug::6:60:"; "guest:*:11:40:"])
                    EmptyString))
              0 EmptyString EmptyString
              (PyStr.join (String PyStr.LF EmptyString)
                 ["office:*:1:80:WPA2"; "wemo.plug::6:60:"; "guest:*:11:40:"])
              EmptyString) as [nets H].
  - reflexivity.
  - reflexivity.
  - vm_compute. repeat constructor.
  - exists nets. exact H.
Defined.

Lemma scan_lines_short (line : string) (rest : list string)
    (nets : list string) (cur : string) :
  well_formed_line line = false ->
  scan_lines (line :: rest) nets cur
  = ([], Raised (short_line_error (length (PyStr.rsplit ":" 4 line)))).
Proof.
  unfold well_formed_line, blank_line. cbn [scan_lines].
  destruct (negb (PyStr.truthy (PyStr.strip line))); [discriminate|].
  cbn [orb]. intros Hlen. apply Nat.eqb_neq in Hlen.
  destruct (PyStr.rsplit ":" 4 line)
    as [|ssid [|in_use [|channel [|signal [|security [|x l]]]]]];
    try reflexivity.
  now destruct Hlen.
Qed.

Lemma critical_records_none (t : list event) :
  Forall (fun ev => match ev with Log CRITICAL _ _ => False | _ => True end) t ->
  critical_records t = [].
Proof.
  induction 1 as [|ev t Hev _ IH]; [reflexivity|].
  unfold critical_records in *. cbn [flat_map]. rewrite IH.
  destruct ev as [[] ? ?| | | | | | | | | |]; easy.
Qed.

(** The scan writes no critical record. *)
Lemma find_wemo_aps_no_critical (env : Env) :
  critical_records (trace_of (find_wemo_aps env)) = [].
Proof.
  apply critical_records_none. unfold find_wemo_aps. apply bind_trace_all.
  - unfold nmcli_guard.
    apply try_except_trace_all; [|constructor].
    apply try_except_trace_all; [|constructor].
    apply bind_trace_all; [|intros _]; unfold subprocess_run;
      (apply bind_trace_all; [now repeat constructor|intros _]);
      destruct (nmcli env _) as [|rc o e|e]; try constructor;
      destruct (_ && _); constructor.
  - intros networks. apply bind_trace_all; [now repeat constructor|intros _].
    apply bind_trace_all.
    { destruct (negb _); now repeat constructor. }
    intros _. generalize (@nil string) as nets, EmptyString as cur.
    induction (PyStr.split PyStr.LF (PyStr.strip (fst networks))) as [|line lines IH];
      intros nets cur; [constructor|].
    cbn [scan_lines]. destruct (negb _); [apply IH|].
    destruct (PyStr.rsplit ":" 4 line)
      as [|ssid [|in_use [|channel [|signal [|security [|x l]]]]]];
      try constructor.
    apply bind_trace_all.
    { destruct (String.eqb in_use "*"); now repeat constructor. }
    intros c. apply bind_trace_all; [|intros n; apply IH].
    destruct (is_wemo_ssid ssid); now repeat constructor.
Qed.

(** X10. A line of the listing that is not blank and has fewer than four
    colons makes the scan raise the ValueError of the unpacking, whose
    message tells the number of pieces the line has.  The setup command
    handles setup errors only, so setup-all ends with that error: it asks
    nothing and writes no critical record. *)
Theorem X10_short_line (env : Env) (rc0 : Z) (out0 err0 out err : string)
    (pre post : list string) (line : string) :
  nmcli env argv_rescan = Completed rc0 out0 err0 ->
  nmcli env argv_list = Completed 0 out err ->
  PyStr.split PyStr.LF (PyStr.strip out) = (pre ++ line :: post)%list ->
  Forall (fun l => well_formed_line l = true) pre ->
  well_formed_line line = false ->
  outcome_of (find_wemo_aps env)
  = Raised (short_line_error (length (PyStr.rsplit ":" 4 line)))
  /\ exn_cls (short_line_error (length (PyStr.rsplit ":" 4 line))) = ValueError
  /\ forall ssid password name,
       outcome_of (click_wemo_setup env ssid password true name)
       = Raised (short_line_error (length (PyStr.rsplit ":" 4 line)))
       /\ prompts (trace_of (click_wemo_setup env ssid password true name)) = []
       /\ critical_records (trace_of (click_wemo_setup env ssid password true name)) = [].
Proof.
  intros Hrescan Hlist Hsplit Hpre Hline.
  assert (Hfind : outcome_of (find_wemo_aps env)
                  = Raised (short_line_error (length (PyStr.rsplit ":" 4 line)))).
  { rewrite (find_wemo_aps_listing env rc0 out0 err0 out err Hrescan Hlist).
    cbv zeta. unfold outcome_of at 1. cbn [snd].
    rewrite Hsplit, scan_lines_app.
    destruct (scan_lines_total pre [] EmptyString Hpre) as [r Hr].
    destruct (scan_lines pre [] EmptyString) as [t o].
    cbn [outcome_of snd] in Hr. subst o. cbn [bind].
    now rewrite (scan_lines_short line post _ _ Hline). }
  split; [exact Hfind|]. split; [reflexivity|]. intros ssid password name.
  pose proof (find_wemo_aps_trace env
                (fun ev => match ev with Confirm _ _ => False | _ => True end)
                (fun _ _ _ _ => I) (fun _ => I)) as Hprompt.
  pose proof (find_wemo_aps_no_critical env) as Hcrit.
  unfold click_wemo_setup, setup_body.
  destruct (find_wemo_aps env) as [tF [found|e]];
    cbn [outcome_of trace_of fst snd] in *; [discriminate|injection Hfind as ->].
  cbn [bind try_except app log emit exn_cls short_line_error].
  unfold is_class. rewrite bool_decide_eq_false_2 by discriminate.
  cbn [outcome_of trace_of fst snd]. split; [reflexivity|]. split.
  - apply prompts_none. repeat constructor. exact Hprompt.
  - exact Hcrit.
Qed.

(** X10 at a listing whose second line has one colon, hence two pieces. *)
Lemma X10_short_line_witness :
  outcome_of
    (click_wemo_setup (sample_env [] true (Completed 0 broken_listing EmptyString))
       "home" "pw" true None)
  = Raised (Exn ValueError "not enough values to unpack (expected 5, got 2)" None).
Proof.
  destruct (X10_short_line
              (sample_env [] true (Completed 0 broken_listing EmptyString))
              0 EmptyString EmptyString broken_listing EmptyString
              ["wemo.livingroom::1:50:"] ["WEMO.KITCHEN::6:60:"] "home:*")
    as [_ [_ H]].
  - reflexivity.
  - reflexivity.
  - reflexivity.
  - repeat constructor.
  - reflexivity.
  - destruct (H "home" "pw" None) as [Ho _]. exact Ho.
Defined.

(** X11. When nmcli prints nothing, or only white space, the scan warns
    that there is no result and returns no access point and no current
    network; setup-all then reports that no access point of a device was
    found, as a critical record, without asking anything. *)
Theorem X11_empty_listing (env : Env) (rc0 : Z) (out0 err0 out err : string) :
  nmcli env argv_rescan = Completed rc0 out0 err0 ->
  nmcli env argv_list = Completed 0 out err ->
  PyStr.strip out = EmptyString ->
  find_wemo_aps env
  = ([ Run argv_rescan; Run argv_list;
       Log DEBUG fmt_result_of [AStr (PyStr.join " " argv_list); AStr EmptyString];
       Log WARNING "no result from nmcli, try again" [] ],
     Ok ([], EmptyString))
  /\ forall ssid password name,
       click_wemo_setup env ssid password true name
       = ((setup_banner env
           ++ [ Run argv_rescan; Run argv_list;
                Log DEBUG fmt_result_of
                  [AStr (PyStr.join " " argv_list); AStr EmptyString];
                Log WARNING "no result from nmcli, try again" [];
                Log CRITICAL msg_no_aps [] ])%list, Ok tt).
Proof.
  intros Hrescan Hlist Hout.
  assert (Hfind : find_wemo_aps env
    = ([ Run argv_rescan; Run argv_list;
         Log DEBUG fmt_result_of [AStr (PyStr.join " " argv_list); AStr EmptyString];
         Log WARNING "no result from nmcli, try again" [] ],
       Ok ([], EmptyString))).
  { rewrite (find_wemo_aps_listing env rc0 out0 err0 out err Hrescan Hlist).
    rewrite Hout. reflexivity. }
  split; [exact Hfind|]. intros ssid password name.
  rewrite (setup_all_no_aps env ssid password name EmptyString);
    rewrite Hfind; reflexivity.
Qed.

(** X11 at a listing of two blank lines. *)
Lemma X11_empty_listing_witness :
  critical_records
    (trace_of
       (click_wemo_setup
          (sample_env [] true
             (Completed 0 (String PyStr.LF (String PyStr.LF EmptyString)) EmptyString))
          "home" "pw" true None))
  = [msg_no_aps].
Proof.
  destruct (X11_empty_listing
              (sample_env [] true
                 (Completed 0 (String PyStr.LF (String PyStr.LF EmptyString))
                    EmptyString))
              0 EmptyString EmptyString
              (String PyStr.LF (String PyStr.LF EmptyString)) EmptyString)
    as [_ H].
  - reflexivity.
  - reflexivity.
  - reflexivity.
  - rewrite (H "home" "pw" None). reflexivity.
Defined.

(** ** The scan: SSIDs with colons *)

Lemma split_not_nil (c : ascii) (s : string) : PyStr.split c s <> [].
Proof.
  destruct s as [|a s]; cbn [PyStr.split]; [discriminate|].
  destruct (ascii_dec a c); [discriminate|].
  destruct (PyStr.split c s); discriminate.
Qed.

Lemma split_no_sep (c : ascii) (s : string) :
  contains c s = false -> PyStr.split c s = [s].
Proof.
  induction s as [|a s IH]; cbn [contains PyStr.split]; [reflexivity|].
  destruct (ascii_dec a c); [discriminate|]. intros H. now rewrite (IH H).
Qed.

Lemma string_app_cons (a : ascii) (s1 s2 : string) :
  (String a s1 ++ s2)%string = String a (s1 ++ s2).
Proof. reflexivity. Qed.

Lemma split_app_sep (c : ascii) (s1 s2 : string) :
  PyStr.split c (s1 ++ String c s2)
  = (PyStr.split c s1 ++ PyStr.split c s2)%list.
Proof.
  induction s1 as [|a s1 IH].
  - change (EmptyString ++ String c s2)%string with (String c s2).
    cbn [PyStr.split]. now destruct (ascii_dec c c).
  - rewrite string_app_cons. cbn [PyStr.split].
    destruct (ascii_dec a c); rewrite IH; [reflexivity|].
    pose proof (split_not_nil c s1) as Hne.
    now destruct (PyStr.split c s1).
Qed.

Lemma join_split (c : ascii) (s : string) :
  PyStr.join (String c EmptyString) (PyStr.split c s) = s.
Proof.
  induction s as [|a s IH]; [reflexivity|]. cbn [PyStr.split].
  pose proof (split_not_nil c s) as Hne.
  destruct (ascii_dec a c) as [->|Hac].
  - destruct (PyStr.split c s) as [|w ws]; [now destruct Hne|].
    change (PyStr.join (String c EmptyString) (EmptyString :: w :: ws))
      with (String c (PyStr.join (String c EmptyString) (w :: ws))).
    now rewrite IH.
  - destruct (PyStr.split c s) as [|w ws]; [now destruct Hne|].
    destruct ws as [|w' ws].
    + cbn in IH. cbn. now rewrite IH.
    + change (PyStr.join (String c EmptyString) (String a w :: w' :: ws))
        with (String a (PyStr.join (String c EmptyString) (w :: w' :: ws))).
      now rewrite IH.
Qed.

Lemma rsplit_listing_line (ssid in_use channel signal security : string) :
  contains ":" in_use = false -> contains ":" channel = false ->
  contains ":" signal = false -> contains ":" security = false ->
  PyStr.rsplit ":" 4 (listing_line ssid in_use channel signal security)
  = [ssid; in_use; channel; signal; security].
Proof.
  intros H1 H2 H3 H4. unfold PyStr.rsplit, listing_line.
  change (ssid ++ ":" ++ in_use ++ ":" ++ channel ++ ":" ++ signal ++ ":" ++ security)%string
    with (ssid ++ String ":" (in_use ++ String ":" (channel ++ String ":"
            (signal ++ String ":" security))))%string.
  rewrite !split_app_sep.
  rewrite (split_no_sep _ _ H1), (split_no_sep _ _ H2), (split_no_sep _ _ H3),
    (split_no_sep _ _ H4).
  cbn [app]. rewrite length_app. cbn [length].
  pose proof (split_not_nil ":" ssid) as Hne.
  pose proof (join_split ":" ssid) as Hjoin.
  destruct (PyStr.split ":" ssid) as [|w ws]; [now destruct Hne|].
  destruct ws as [|w' ws].
  - cbn in Hjoin. subst w. reflexivity.
  - replace (length (w :: w' :: ws) + 4 <=? 5)%nat with false
      by (symmetry; apply Nat.leb_gt; cbn [length]; lia).
    replace (length (w :: w' :: ws) + 4 - 4)%nat with (length (w :: w' :: ws)) by lia.
    rewrite take_app_length, drop_app_length. now rewrite Hjoin.
Qed.

(** X12. The scan cuts a line of the listing at its last four colons, so
    an SSID keeps the colons it has: for a line made of an SSID and four
    fields without colons, the scan tests that very SSID, returns it as a
    candidate when it passes, and takes it as the current network when the
    line is marked in use. *)
Theorem X12_ssid_keeps_colons (ssid in_use channel signal security : string)
    (nets : list string) :
  contains ":" in_use = false -> contains ":" channel = false ->
  contains ":" signal = false -> contains ":" security = false ->
  blank_line (listing_line ssid in_use channel signal security) = false ->
  ssid_of_line (listing_line ssid in_use channel signal security) = ssid
  /\ outcome_of
       (scan_lines [listing_line ssid in_use channel signal security] nets EmptyString)
     = Ok ((nets ++ if is_wemo_ssid ssid then [ssid] else [])%list,
           if String.eqb in_use "*" then ssid else EmptyString).
Proof.
  intros H1 H2 H3 H4 Hblank.
  pose proof (rsplit_listing_line ssid in_use channel signal security H1 H2 H3 H4)
    as Hsplit.
  split.
  - unfold ssid_of_line. now rewrite Hsplit.
  - cbn [scan_lines]. unfold blank_line in Hblank. rewrite Hblank, Hsplit.
    destruct (String.eqb in_use "*"), (is_wemo_ssid ssid);
      cbn; rewrite ?app_nil_r; reflexivity.
Qed.

(** X12 at an access point of a device whose SSID has two colons. *)
Lemma X12_ssid_keeps_colons_witness :
  outcome_of (scan_lines ["Wemo.Mini:A1:B2:*:6:70:WPA2"] [] EmptyString)
  = Ok (["Wemo.Mini:A1:B2"], "Wemo.Mini:A1:B2").
Proof.
  destruct (X12_ssid_keeps_colons "Wemo.Mini:A1:B2" "*" "6" "70" "WPA2" [])
    as [_ H].
  - reflexivity.
  - reflexivity.
  - reflexivity.
  - reflexivity.
  - reflexivity.
  - exact H.
Defined.

(** ** Setup: the devices of one access point *)

Lemma needing_setup_loop_run (devices not_setup : list Device) :
  Forall (fun d => status_returns d = true) devices ->
  needing_setup_loop devices not_setup
  = (flat_map status_events devices,
     Ok (not_setup ++ List.filter needs_setup devices)%list).
Proof.
  intros Hst. revert not_setup.
  induction Hst as [|d devices Hd _ IH]; intros not_setup.
  - cbn. now rewrite app_nil_r.
  - cbn [needing_setup_loop flat_map List.filter].
    unfold status_returns in Hd.
    destruct (dev_network_status d) as [status|e] eqn:Hs; [|discriminate].
    assert (Hneeds : needs_setup d = negb (String.eqb status "1")).
    { unfold needs_setup. now rewrite Hs. }
    assert (Hev : status_events d
                  = CallNetworkStatus (dev_str d)
                    :: if negb (String.eqb status "1")
                       then [Log INFO "found device needing setup: %s"
                               [AStr (dev_str d)]]
                       else []).
    { unfold status_events. now rewrite Hneeds. }
    rewrite Hneeds, Hev. unfold do_call, log, emit. cbn [bind ret app].
    destruct (negb (String.eqb status "1")); cbn [bind app]; rewrite IH;
      cbn [app]; rewrite <- ?app_assoc; reflexivity.
Qed.

Lemma discover_needing_setup_run (env : Env) (net : option string) (verbose : Z) :
  Forall (fun d => status_returns d = true) (discover_devices env net) ->
  discover_and_log_devices env net true verbose
  = (Discover :: flat_map status_events (discover_devices env net),
     Ok (List.filter needs_setup (discover_devices env net))).
Proof.
  intros Hst. unfold discover_and_log_devices.
  rewrite (needing_setup_loop_run _ [] Hst). reflexivity.
Qed.

(** X13. The discovery that setup-all runs on an access point returns the
    devices whose network status is not 1, in discovery order, and no
    other, and writes no count of found devices. *)
Theorem X13_devices_needing_setup (env : Env) (net : option string) (verbose : Z) :
  Forall (fun d => status_returns d = true) (discover_devices env net) ->
  discover_and_log_devices env net true verbose
  = (Discover :: flat_map status_events (discover_devices env net),
     Ok (List.filter needs_setup (discover_devices env net))).
Proof.
  apply discover_needing_setup_run.
Qed.

(** X13 at an access point with a fresh and a configured device. *)
Lemma X13_devices_needing_setup_witness :
  outcome_of
    (discover_and_log_devices
       (ap_env [configured_device "Switch"; fresh_device "Plug"] true)
       (Some "wemo.plug") true 0)
  = Ok [fresh_device "Plug"].
Proof.
  rewrite (X13_devices_needing_setup
             (ap_env [configured_device "Switch"; fresh_device "Plug"] true)
             (Some "wemo.plug") 0).
  - reflexivity.
  - repeat constructor.
Defined.

Lemma flat_map_singleton {A B} (f : A -> B) (l : list A) :
  flat_map (fun x => [f x]) l = map f l.
Proof. induction l as [|x l IH]; [reflexivity|]. cbn. now rewrite IH. Qed.

Lemma connect_run (env : Env) (wemossid ssid password out err : string) :
  nmcli env (argv_connect wemossid) = Completed 0 out err ->
  connect_to_wemo_and_setup env wemossid ssid password
  = bind
      ([ Run (argv_connect wemossid);
         Log DEBUG fmt_result_of
           [AStr (PyStr.join " " (argv_connect wemossid)); AStr (PyStr.strip out)];
         Sleep 2;
         Log INFO "searching %s for wemo devices" [AStr wemossid] ], Ok tt)
      (fun _ => setup_found_devices env wemossid ssid password).
Proof.
  intros Hrun. unfold connect_to_wemo_and_setup, nmcli_guard.
  rewrite (subprocess_run_completed env _ true 0 out err Hrun) by now right.
  cbn [try_except bind fst]. unfold log, emit. cbn [bind app].
  fold (setup_found_devices env wemossid ssid password).
  now destruct (setup_found_devices env wemossid ssid password).
Qed.

(** X14. Once the host has joined the access point of a device,
    [connect_to_wemo_and_setup] waits two seconds, looks for devices, and
    sends the credentials, with a timeout of 20 seconds, to each device that
    is not set up, in discovery order, and to no device that is. *)
Theorem X14_setup_on_access_point (env : Env) (wemossid ssid password out err : string) :
  nmcli env (argv_connect wemossid) = Completed 0 out err ->
  Forall (fun d => status_returns d = true) (discover_devices env (Some wemossid)) ->
  Forall (fun d => setup_returns ssid password d = true)
    (List.filter needs_setup (discover_devices env (Some wemossid))) ->
  connect_to_wemo_and_setup env wemossid ssid password
  = (([ Run (argv_connect wemossid);
        Log DEBUG fmt_result_of
          [AStr (PyStr.join " " (argv_connect wemossid)); AStr (PyStr.strip out)];
        Sleep 2;
        Log INFO "searching %s for wemo devices" [AStr wemossid];
        Discover ]
      ++ flat_map status_events (discover_devices env (Some wemossid))
      ++ map (fun d => CallSetup (dev_str d) ssid password (Some 20%Z))
           (List.filter needs_setup (discover_devices env (Some wemossid))))%list,
     Ok tt).
Proof.
  intros Hrun Hst Hsetup. rewrite (connect_run env _ _ _ out err Hrun).
  unfold setup_found_devices. rewrite (discover_needing_setup_run env (Some wemossid) 0 Hst).
  cbn [bind].
  rewrite (for_each_runs _ _
             (fun d => [CallSetup (dev_str d) ssid password (Some 20%Z)])).
  - rewrite flat_map_singleton. cbn [app]. rewrite <- ?app_assoc. reflexivity.
  - eapply Forall_impl; [exact Hsetup|]. intros d Hd.
    unfold setup_returns in Hd. unfold do_call, emit.
    destruct (dev_setup d ssid password (Some 20%Z)) as [[]|e];
      [reflexivity|discriminate].
Qed.

(** X14 at an access point with a configured and a fresh device. *)
Lemma X14_setup_on_access_point_witness :
  setup_attempts
    (trace_of
       (connect_to_wemo_and_setup
          (ap_env [configured_device "Switch"; fresh_device "Plug"] true)
          "wemo.plug" "home" "pw"))
  = ["Plug"].
Proof.
  rewrite (X14_setup_on_access_point
             (ap_env [configured_device "Switch"; fresh_device "Plug"] true)
             "wemo.plug" "home" "pw" EmptyString EmptyString).
  - reflexivity.
  - reflexivity.
  - repeat constructor.
  - repeat constructor.
Defined.

Lemma setup_attempts_app (t1 t2 : list event) :
  setup_attempts (t1 ++ t2) = (setup_attempts t1 ++ setup_attempts t2)%list.
Proof. apply flat_map_app. Qed.

Lemma setup_attempts_cons (ev : event) (t : list event) :
  setup_attempts (ev :: t)
  = (match ev with CallSetup d _ _ _ => [d] | _ => [] end ++ setup_attempts t)%list.
Proof. reflexivity. Qed.

Lemma setup_attempts_status (devices : list Device) :
  setup_attempts (flat_map status_events devices) = [].
Proof.
  induction devices as [|x xs IH]; [reflexivity|].
  cbn [flat_map]. rewrite setup_attempts_app, IH. unfold status_events.
  now destruct (needs_setup x).
Qed.

Lemma setup_attempts_calls (ssid password : string) (timeout : option Z)
    (l : list Device) :
  setup_attempts (map (fun x => CallSetup (dev_str x) ssid password timeout) l)
  = map dev_str l.
Proof.
  induction l as [|x l IH]; [reflexivity|].
  cbn [map]. now rewrite setup_attempts_cons, IH.
Qed.

Lemma skipped_devices_status (devices : list Device) :
  skipped_devices (flat_map status_events devices) = [].
Proof.
  induction devices as [|x xs IH]; [reflexivity|].
  cbn [flat_map]. rewrite skipped_devices_app, IH. unfold status_events.
  now destruct (needs_setup x).
Qed.

Lemma skipped_devices_calls (ssid password : string) (timeout : option Z)
    (l : list Device) :
  skipped_devices (map (fun x => CallSetup (dev_str x) ssid password timeout) l) = [].
Proof. induction l as [|x l IH]; [reflexivity|]. exact IH. Qed.

(** X15. On one access point there is no handler around the setup of a
    device: when the setup of a device raises, the devices behind it on that
    access point are not set up and [connect_to_wemo_and_setup] ends with the
    error; when it is a setup error, the loop over the access points logs it
    and the access point as skipped, and ends its turn normally. *)
Theorem X15_setup_stops_at_error (env : Env) (wemossid ssid password out err : string)
    (pre post : list Device) (d : Device) (e : exn) :
  nmcli env (argv_connect wemossid) = Completed 0 out err ->
  Forall (fun x => status_returns x = true) (discover_devices env (Some wemossid)) ->
  List.filter needs_setup (discover_devices env (Some wemossid))
  = (pre ++ d :: post)%list ->
  Forall (fun x => setup_returns ssid password x = true) pre ->
  dev_setup d ssid password (Some 20%Z) = Throws e ->
  outcome_of (connect_to_wemo_and_setup env wemossid ssid password) = Raised e
  /\ setup_attempts (trace_of (connect_to_wemo_and_setup env wemossid ssid password))
     = map dev_str (pre ++ [d])
  /\ (exn_cls e = SetupException ->
      outcome_of (setup_one env ssid password wemossid) = Ok tt
      /\ skipped_devices (trace_of (setup_one env ssid password wemossid))
         = [wemossid]).
Proof.
  intros Hrun Hst Hneed Hpre Hthrow.
  assert (Hconn : connect_to_wemo_and_setup env wemossid ssid password
    = (([ Run (argv_connect wemossid);
          Log DEBUG fmt_result_of
            [AStr (PyStr.join " " (argv_connect wemossid)); AStr (PyStr.strip out)];
          Sleep 2;
          Log INFO "searching %s for wemo devices" [AStr wemossid];
          Discover ]
        ++ flat_map status_events (discover_devices env (Some wemossid))
        ++ map (fun x => CallSetup (dev_str x) ssid password (Some 20%Z))
             (pre ++ [d]))%list, Raised e)).
  { rewrite (connect_run env _ _ _ out err Hrun). unfold setup_found_devices.
    rewrite (discover_needing_setup_run env (Some wemossid) 0 Hst), Hneed.
    cbn [bind].
    rewrite (for_each_raises pre post d _
               (fun x => [CallSetup (dev_str x) ssid password (Some 20%Z)])
               [CallSetup (dev_str d) ssid password (Some 20%Z)] e).
    - rewrite flat_map_singleton, map_app. cbn [app map].
      rewrite <- ?app_assoc. reflexivity.
    - eapply Forall_impl; [exact Hpre|]. intros x Hx.
      unfold setup_returns in Hx. unfold do_call, emit.
      destruct (dev_setup x ssid password (Some 20%Z)) as [[]|e'];
        [reflexivity|discriminate].
    - unfold do_call, emit. now rewrite Hthrow. }
  rewrite Hconn. cbn [outcome_of trace_of fst snd].
  split; [reflexivity|]. split.
  - cbn [app]. rewrite !setup_attempts_cons. cbn [app].
    rewrite setup_attempts_app, setup_attempts_status, setup_attempts_calls.
    reflexivity.
  - intros Hcls. unfold setup_one. rewrite Hconn.
    unfold log, log_exc, emit, try_except, is_class. cbn [bind app].
    rewrite Hcls, bool_decide_eq_true_2 by reflexivity.
    cbn [outcome_of trace_of fst snd]. split; [reflexivity|].
    rewrite !skipped_devices_cons. cbn [skip_record app].
    rewrite !skipped_devices_app, skipped_devices_status, skipped_devices_calls.
    cbn [app]. rewrite !skipped_devices_cons. cbn [skip_record app].
    destruct (exn_msg e) as [|c m]; reflexivity.
Qed.

(** X15 at an access point with three fresh devices, the second of which
    refuses the credentials. *)
Lemma X15_setup_stops_at_error_witness :
  outcome_of
    (connect_to_wemo_and_setup
       (ap_env [ fresh_device "Plug1"; stubborn_device "Plug2" "10.22.22.1" "Plug2";
                 fresh_device "Plug3" ] true)
       "wemo.plug" "home" "pw")
  = Raised (Exn SetupException "device did not join the network" None)
  /\ setup_attempts
       (trace_of
          (connect_to_wemo_and_setup
             (ap_env [ fresh_device "Plug1";
                       stubborn_device "Plug2" "10.22.22.1" "Plug2";
                       fresh_device "Plug3" ] true)
             "wemo.plug" "home" "pw"))
     = ["Plug1"; "Plug2"].
Proof.
  destruct (X15_setup_stops_at_error
              (ap_env [ fresh_device "Plug1";
                        stubborn_device "Plug2" "10.22.22.1" "Plug2";
                        fresh_device "Plug3" ] true)
              "wemo.plug" "home" "pw" EmptyString EmptyString
              [fresh_device "Plug1"] [fresh_device "Plug3"]
              (stubborn_device "Plug2" "10.22.22.1" "Plug2")
              (Exn SetupException "device did not join the network" None))
    as (Hout & Hcalls & _).
  - reflexivity.
  - repeat constructor.
  - reflexivity.
  - repeat constructor.
  - reflexivity.
  - split; [exact Hout|exact Hcalls].
Defined.

Lemma connect_failed_run (env : Env) (wemossid ssid password : string)
    (rc : Z) (out err : string) :
  nmcli env (argv_connect wemossid) = Completed rc out err -> rc <> 0%Z ->
  connect_to_wemo_and_setup env wemossid ssid password
  = ([Run (argv_connect wemossid)],
     Raised (Exn SetupException msg_nmcli_connect_failed (Some CalledProcessError))).
Proof.
  intros Hrun Hrc. unfold connect_to_wemo_and_setup, nmcli_guard.
  now rewrite (subprocess_run_failed env _ rc out err Hrun Hrc).
Qed.

Lemma connect_missing_run (env : Env) (wemossid ssid password : string) :
  nmcli env (argv_connect wemossid) = NotInstalled ->
  connect_to_wemo_and_setup env wemossid ssid password
  = ([Run (argv_connect wemossid)], Raised scanner_unavailable).
Proof.
  intros Hrun. unfold connect_to_wemo_and_setup, nmcli_guard.
  now rewrite (subprocess_run_missing env _ true Hrun).
Qed.

(** X16. When the host cannot join the access point of a device, because
    nmcli exits with a non-zero status or is missing,
    [connect_to_wemo_and_setup] raises a setup error right after the attempt:
    it does not wait, looks for no device and sets nothing up. *)
Theorem X16_connect_fails (env : Env) (wemossid ssid password : string) :
  (forall rc out err,
      nmcli env (argv_connect wemossid) = Completed rc out err -> rc <> 0%Z ->
      connect_to_wemo_and_setup env wemossid ssid password
      = ([Run (argv_connect wemossid)],
         Raised (Exn SetupException msg_nmcli_connect_failed (Some CalledProcessError))))
  /\ (nmcli env (argv_connect wemossid) = NotInstalled ->
      connect_to_wemo_and_setup env wemossid ssid password
      = ([Run (argv_connect wemossid)], Raised scanner_unavailable)).
Proof.
  split.
  - intros rc out err. apply connect_failed_run.
  - apply connect_missing_run.
Qed.

(** X16 at a host that cannot join the first access point. *)
Lemma X16_connect_fails_witness :
  connect_to_wemo_and_setup unreachable_ap_env "wemo.livingroom" "home" "pw"
  = ([Run (argv_connect "wemo.livingroom")],
     Raised (Exn SetupException msg_nmcli_connect_failed (Some CalledProcessError))).
Proof.
  destruct (X16_connect_fails unreachable_ap_env "wemo.livingroom" "home" "pw")
    as [H _].
  apply (H 10%Z EmptyString "No network with SSID found");
    [reflexivity|discriminate].
Defined.

(** ** Setup: the loop over the access points *)

Lemma connect_attempt_connect (ssid : string) :
  connect_attempt (Run (argv_connect ssid)) = [ssid].
Proof.
  unfold connect_attempt, argv_connect. now rewrite bool_decide_eq_true_2.
Qed.

Lemma connect_attempts_app (t1 t2 : list event) :
  connect_attempts (t1 ++ t2) = (connect_attempts t1 ++ connect_attempts t2)%list.
Proof. apply flat_map_app. Qed.

Lemma connect_attempts_none (t : list event) :
  Forall (fun ev => match ev with Run _ => False | _ => True end) t ->
  connect_attempts t = [].
Proof.
  induction 1 as [|ev t Hev _ IH]; [reflexivity|].
  unfold connect_attempts in *. cbn [flat_map]. rewrite IH. now destruct ev.
Qed.

(** The devices of an access point are looked for and set up without any
    sub-process. *)
Lemma setup_found_devices_no_run (env : Env) (wemossid ssid password : string) :
  Forall (fun ev => match ev with Run _ => False | _ => True end)
    (trace_of (setup_found_devices env wemossid ssid password)).
Proof.
  unfold setup_found_devices, discover_and_log_devices.
  apply bind_trace_all.
  - apply bind_trace_all; [now repeat constructor|intros _]. cbn match.
    generalize (@nil Device) as not_setup.
    induction (discover_devices env (Some wemossid)) as [|device devices IH];
      intros not_setup; [constructor|].
    cbn [needing_setup_loop]. apply bind_trace_all.
    + unfold do_call. apply bind_trace_all; [now repeat constructor|intros _].
      destruct (dev_network_status device); constructor.
    + intros status. destruct (negb (String.eqb status "1")); [|apply IH].
      apply bind_trace_all; [now repeat constructor|intros _; apply IH].
  - intros devices. apply for_each_trace_all. intros device.
    unfold do_call. apply bind_trace_all; [now repeat constructor|intros _].
    destruct (dev_setup device ssid password (Some 20%Z)); constructor.
Qed.

(** Joining an access point is the one sub-process of
    [connect_to_wemo_and_setup], and its first event. *)
Lemma connect_attempts_cons (ev : event) (t : list event) :
  connect_attempts (ev :: t) = (connect_attempt ev ++ connect_attempts t)%list.
Proof. reflexivity. Qed.

Lemma connect_raises_trace (env : Env) (wemossid ssid password : string) (e : exn) :
  nmcli env (argv_connect wemossid) = RunRaises e ->
  trace_of (connect_to_wemo_and_setup env wemossid ssid password)
  = [Run (argv_connect wemossid)].
Proof.
  intros Hrun. unfold connect_to_wemo_and_setup, nmcli_guard.
  rewrite (subprocess_run_raises env _ true e Hrun).
  unfold try_except, raise.
  destruct (is_class FileNotFoundError (exn_cls e)); cbn [exn_cls app].
  - now destruct (is_class CalledProcessError SetupException).
  - now destruct (is_class CalledProcessError (exn_cls e)).
Qed.

Lemma connect_attempts_one (env : Env) (wemossid ssid password : string) :
  connect_attempts (trace_of (connect_to_wemo_and_setup env wemossid ssid password))
  = [wemossid].
Proof.
  destruct (nmcli env (argv_connect wemossid)) as [|rc out err|e] eqn:Hrun;
    [| |rewrite (connect_raises_trace env _ _ _ e Hrun);
        now rewrite connect_attempts_cons, connect_attempt_connect].
  - rewrite (connect_missing_run env _ _ _ Hrun). cbn [trace_of fst].
    now rewrite connect_attempts_cons, connect_attempt_connect.
  - destruct (Z.eq_dec rc 0%Z) as [->|Hrc].
    + rewrite (connect_run env _ _ _ out err Hrun).
      pose proof (setup_found_devices_no_run env wemossid ssid password) as Hno.
      destruct (setup_found_devices env wemossid ssid password) as [t o].
      cbn [bind trace_of fst app] in *.
      rewrite connect_attempts_cons, connect_attempt_connect,
        connect_attempts_none; [reflexivity|].
      now repeat constructor.
    + rewrite (connect_failed_run env _ _ _ rc out err Hrun Hrc). cbn [trace_of fst].
      now rewrite connect_attempts_cons, connect_attempt_connect.
Qed.

(** X17. The loop of setup-all tries every access point: when the work on
    each of them returns or raises a setup error, the host is asked to join
    each access point once, in the order of the listing, whatever happened
    on the ones before, and the loop ends normally. *)
Theorem X17_every_access_point (env : Env) (ssid password : string)
    (wemo_aps : list string) :
  Forall
    (fun ap =>
       match outcome_of (connect_to_wemo_and_setup env ap ssid password) with
       | Ok _ => True
       | Raised e => exn_cls e = SetupException
       end) wemo_aps ->
  outcome_of (for_each wemo_aps (setup_one env ssid password)) = Ok tt
  /\ connect_attempts (trace_of (for_each wemo_aps (setup_one env ssid password)))
     = wemo_aps.
Proof.
  induction 1 as [|ap aps Hap _ IH]; [now split|].
  cbn [for_each].
  pose proof (connect_attempts_one env ap ssid password) as Hone.
  assert (Hturn : outcome_of (setup_one env ssid password ap) = Ok tt
                  /\ connect_attempts (trace_of (setup_one env ssid password ap)) = [ap]).
  { unfold setup_one.
    destruct (connect_to_wemo_and_setup env ap ssid password) as [t [[]|e]];
      cbn [outcome_of trace_of fst snd] in *;
      unfold log, log_exc, emit, try_except, is_class; cbn [bind app].
    - split; [reflexivity|exact Hone].
    - rewrite Hap, bool_decide_eq_true_2 by reflexivity.
      cbn [outcome_of trace_of fst snd]. split; [reflexivity|].
      change (connect_attempts (?ev :: ?l)) with (connect_attempts l).
      now rewrite connect_attempts_app, Hone. }
  destruct Hturn as [Hok Hcalls]. destruct IH as [IHok IHcalls].
  destruct (setup_one env ssid password ap) as [t1 o1].
  destruct (for_each aps (setup_one env ssid password)) as [t2 o2].
  cbn [outcome_of trace_of fst snd] in *. subst o1 o2. cbn [bind].
  cbn [outcome_of trace_of fst snd]. split; [reflexivity|].
  now rewrite connect_attempts_app, Hcalls, IHcalls.
Qed.

(** X17 at a host that cannot join the first of two access points. *)
Lemma X17_every_access_point_witness :
  connect_attempts
    (trace_of (for_each ["wemo.livingroom"; "WEMO.KITCHEN"]
                 (setup_one unreachable_ap_env "home" "pw")))
  = ["wemo.livingroom"; "WEMO.KITCHEN"].
Proof.
  apply (X17_every_access_point unreachable_ap_env "home" "pw"
           ["wemo.livingroom"; "WEMO.KITCHEN"]).
  repeat constructor.
Defined.

(** X18. The reconnection of the host to its own network is attempted
    exactly when the scan reported a current network that is not itself the
    access point of a device.  When nmcli then runs, whatever its exit
    status, or is not installed, the step ends normally after the record of
    the attempt and the run.  An error of the run of another class than the
    two the step handles, such as a PermissionError, is not handled: it
    leaves the step as it was raised; an error of one of the two classes is
    passed over. *)
Theorem X18_reconnect (env : Env) (current : string) :
  (PyStr.truthy current && negb (is_wemo_ssid current) = false ->
   reconnect env current = ([], Ok tt))
  /\ (PyStr.truthy current && negb (is_wemo_ssid current) = true ->
      (forall rc out err,
          nmcli env (argv_connect current) = Completed rc out err ->
          reconnect env current
          = ([ Log INFO "attempting to reconnect host to %s" [AStr current];
               Run (argv_connect current) ], Ok tt))
      /\ (nmcli env (argv_connect current) = NotInstalled ->
          reconnect env current
          = ([ Log INFO "attempting to reconnect host to %s" [AStr current];
               Run (argv_connect current) ], Ok tt))
      /\ (forall e,
             nmcli env (argv_connect current) = RunRaises e ->
             exn_cls e <> CalledProcessError ->
             exn_cls e <> FileNotFoundError ->
             reconnect env current
             = ([ Log INFO "attempting to reconnect host to %s" [AStr current];
                  Run (argv_connect current) ], Raised e))
      /\ (forall e,
             nmcli env (argv_connect current) = RunRaises e ->
             exn_cls e = CalledProcessError \/ exn_cls e = FileNotFoundError ->
             reconnect env current
             = ([ Log INFO "attempting to reconnect host to %s" [AStr current];
                  Run (argv_connect current) ], Ok tt))).
Proof.
  unfold reconnect. split; intros ->; [reflexivity|].
  unfold log, emit. cbn [bind app]. split; [|split; [|split]].
  - intros rc out err Hrun. destruct (Z.eq_dec rc 0%Z) as [->|Hrc].
    + now rewrite (subprocess_run_completed env _ true 0 out err Hrun) by now right.
    + now rewrite (subprocess_run_failed env _ rc out err Hrun Hrc).
  - intros Hrun. now rewrite (subprocess_run_missing env _ true Hrun).
  - intros e Hrun Hcpe Hfnf.
    rewrite (subprocess_run_raises env _ true e Hrun).
    unfold try_except, is_class. cbn [bind app].
    now rewrite !bool_decide_eq_false_2 by assumption.
  - intros e Hrun Hcls.
    rewrite (subprocess_run_raises env _ true e Hrun).
    unfold try_except, is_class. cbn [bind app].
    destruct Hcls as [-> | ->]; reflexivity.
Qed.

(** X18 at three hosts back on the network home: one where nmcli exits
    with status 10, one without nmcli, and one that may not execute it. *)
Lemma X18_reconnect_witness :
  outcome_of (reconnect (reconnect_env (Completed 10 EmptyString "No network")) "home")
  = Ok tt
  /\ outcome_of (reconnect (reconnect_env NotInstalled) "home") = Ok tt
  /\ outcome_of (reconnect (reconnect_env (RunRaises permission_error)) "home")
     = Raised permission_error
  /\ reconnect (reconnect_env NotInstalled) "wemo.livingroom" = ([], Ok tt).
Proof.
  destruct (X18_reconnect (reconnect_env (Completed 10 EmptyString "No network")) "home")
    as [_ H1].
  destruct (H1 eq_refl) as [H1c _].
  destruct (X18_reconnect (reconnect_env NotInstalled) "home") as [_ H2].
  destruct (H2 eq_refl) as [_ [H2m _]].
  destruct (X18_reconnect (reconnect_env (RunRaises permission_error)) "home")
    as [_ H3].
  destruct (H3 eq_refl) as [_ [_ [H3r _]]].
  destruct (X18_reconnect (reconnect_env NotInstalled) "wemo.livingroom") as [H4 _].
  split; [|split; [|split]].
  - now rewrite (H1c 10%Z EmptyString "No network" eq_refl).
  - now rewrite (H2m eq_refl).
  - rewrite (H3r permission_error eq_refl); [reflexivity|discriminate|discriminate].
  - exact (H4 eq_refl).
Defined.

(** X19. When the user answers no at the prompt of setup-all, the command
    ends normally right there: the host joins no access point, no password
    is asked for and no reconnection is attempted. *)
Theorem X19_setup_all_declined (env : Env) (ssid password : string)
    (name : option string) (wemo_ap : string) (wemo_aps : list string)
    (current : string) :
  outcome_of (find_wemo_aps env) = Ok (wemo_ap :: wemo_aps, current) ->
  confirm env (prompt_setup_all (length (wemo_ap :: wemo_aps))) = false ->
  click_wemo_setup env ssid password true name
  = ((setup_banner env ++ trace_of (find_wemo_aps env)
      ++ [Confirm (prompt_setup_all (length (wemo_ap :: wemo_aps))) false])%list,
     Ok tt).
Proof.
  intros Haps Hno. unfold click_wemo_setup, setup_body.
  destruct (find_wemo_aps env) as [tF [found|e]];
    cbn [outcome_of trace_of fst snd] in *; [injection Haps as ->|discriminate].
  unfold log, emit, ask. cbn [bind app]. rewrite Hno. cbn [bind app try_except ret].
  rewrite ?app_nil_r. reflexivity.
Qed.

(** X19 at a listing with two access points and the answer no. *)
Lemma X19_setup_all_declined_witness :
  connect_attempts
    (trace_of
       (click_wemo_setup (sample_env [] false (Completed 0 sample_listing EmptyString))
          "home" "pw" true None)) = [].
Proof.
  rewrite (X19_setup_all_declined
             (sample_env [] false (Completed 0 sample_listing EmptyString))
             "home" "pw" None "wemo.livingroom" ["WEMO.KITCHEN"] "mywemodevice").
  - reflexivity.
  - reflexivity.
  - reflexivity.
Defined.

(** ** Setup: the hidden password *)

Lemma getpass_count_app (t1 t2 : list event) :
  getpass_count (t1 ++ t2) = (getpass_count t1 + getpass_count t2)%nat.
Proof. unfold getpass_count. now rewrite List.filter_app, length_app. Qed.

Lemma getpass_count_cons (ev : event) (t : list event) :
  getpass_count (ev :: t)
  = ((if bool_decide (ev = Getpass) then 1 else 0) + getpass_count t)%nat.
Proof.
  unfold getpass_count. cbn [List.filter].
  now destruct (bool_decide (ev = Getpass)).
Qed.

Lemma getpass_count_nil : getpass_count [] = 0%nat.
Proof. reflexivity. Qed.

Lemma getpass_count_none (t : list event) :
  Forall (fun ev => ev <> Getpass) t -> getpass_count t = 0%nat.
Proof.
  induction 1 as [|ev t Hev _ IH]; [reflexivity|].
  unfold getpass_count in *. cbn [List.filter].
  now rewrite bool_decide_eq_false_2.
Qed.

Lemma setup_found_devices_no_getpass (env : Env) (wemossid ssid password : string) :
  Forall (fun ev => ev <> Getpass)
    (trace_of (setup_found_devices env wemossid ssid password)).
Proof.
  unfold setup_found_devices, discover_and_log_devices.
  apply bind_trace_all.
  - apply bind_trace_all; [now repeat constructor|intros _]. cbn match.
    generalize (@nil Device) as not_setup.
    induction (discover_devices env (Some wemossid)) as [|device devices IH];
      intros not_setup; [constructor|].
    cbn [needing_setup_loop]. apply bind_trace_all.
    + unfold do_call. apply bind_trace_all; [now repeat constructor|intros _].
      destruct (dev_network_status device); constructor.
    + intros status. destruct (negb (String.eqb status "1")); [|apply IH].
      apply bind_trace_all; [now repeat constructor|intros _; apply IH].
  - intros devices. apply for_each_trace_all. intros device.
    unfold do_call. apply bind_trace_all; [now repeat constructor|intros _].
    destruct (dev_setup device ssid password (Some 20%Z)); constructor.
Qed.

(** X20. In setup-all the hidden password prompt is shown at most once,
    after the user has said yes, and only when no password was given on the
    command line. *)
Theorem X20_password_prompt (env : Env) (ssid password : string)
    (name : option string) (wemo_ap : string) (wemo_aps : list string)
    (current : string) :
  outcome_of (find_wemo_aps env) = Ok (wemo_ap :: wemo_aps, current) ->
  confirm env (prompt_setup_all (length (wemo_ap :: wemo_aps))) = true ->
  getpass_count (trace_of (click_wemo_setup env ssid password true name))
  = if PyStr.truthy password then 0%nat else 1%nat.
Proof.
  intros Haps Hyes.
  pose proof (find_wemo_aps_trace env (fun ev => ev <> Getpass)
                (fun _ _ _ _ => ltac:(discriminate)) (fun _ => ltac:(discriminate)))
    as Hfind.
  assert (Hloop : forall pw,
             Forall (fun ev => ev <> Getpass)
               (trace_of (for_each (wemo_ap :: wemo_aps) (setup_one env ssid pw)))).
  { intros pw. apply for_each_trace_all. intros ap.
    apply setup_one_trace; try (intros; discriminate).
    apply setup_found_devices_no_getpass. }
  pose proof (reconnect_trace env (fun ev => ev <> Getpass)
                (fun _ _ _ _ => ltac:(discriminate)) (fun _ => ltac:(discriminate))
                current) as Hrec.
  unfold click_wemo_setup, setup_body.
  destruct (find_wemo_aps env) as [tF [found|e]];
    cbn [outcome_of trace_of fst snd] in *; [injection Haps as ->|discriminate].
  unfold ask, log, log_exc, emit, ret. cbn [bind app]. rewrite Hyes. cbn [bind app].
  destruct (reconnect env current) as [tR [[]|eR]]; cbn [trace_of fst] in Hrec;
  destruct (PyStr.truthy password); cbn [negb bind app];
    match goal with
    | |- context [for_each (wemo_ap :: wemo_aps) (setup_one env ssid ?pw)] =>
        specialize (Hloop pw);
        destruct (for_each (wemo_ap :: wemo_aps) (setup_one env ssid pw))
          as [tL [[]|eL]]
    end;
    cbn [trace_of fst bind app try_except] in *;
    try (destruct (is_class SetupException (exn_cls eL)));
    try (destruct (is_class SetupException (exn_cls eR)));
    unfold log_exc, emit; cbn [trace_of fst app];
    rewrite ?app_nil_r;
    rewrite ?getpass_count_cons, ?getpass_count_app, ?getpass_count_cons,
      ?getpass_count_app, ?getpass_count_cons, ?getpass_count_app,
      ?getpass_count_cons, ?getpass_count_nil,
      ?(getpass_count_none _ Hfind), ?(getpass_count_none _ Hloop),
      ?(getpass_count_none _ Hrec);
    repeat (rewrite bool_decide_eq_false_2 by discriminate);
    rewrite ?bool_decide_eq_true_2 by reflexivity;
    cbn; repeat (rewrite bool_decide_eq_false_2 by discriminate); cbn; lia.
Qed.

(** X20 at a run of setup-all without a password on the command line. *)
Lemma X20_password_prompt_witness :
  getpass_count
    (trace_of (click_wemo_setup (ap_env [fresh_device "Plug"] true)
                 "home" EmptyString true None)) = 1%nat.
Proof.
  rewrite (X20_password_prompt (ap_env [fresh_device "Plug"] true)
             "home" EmptyString None "wemo.livingroom" ["WEMO.KITCHEN"]
             "mywemodevice").
  - reflexivity.
  - reflexivity.
  - reflexivity.
Defined.

(** ** Diagnostics: what is printed, and errors that are not handled *)

Lemma log_detail_loop_app (device : Device)
    (pre rest : list (string * string * option string))
    (failed : list (string * result)) :
  log_detail_loop device (pre ++ rest) failed
  = bind (log_detail_loop device pre failed)
      (fun failed' => log_detail_loop device rest failed').
Proof.
  revert failed. induction pre as [|item pre IH]; intros failed.
  - cbn [app log_detail_loop]. unfold ret. cbn [bind app].
    now destruct (log_detail_loop device rest failed).
  - cbn [app log_detail_loop].
    destruct (log_detail_step device failed item) as [t [f|e]]; cbn [bind];
      [|reflexivity].
    rewrite IH. destruct (log_detail_loop device pre f) as [t1 [f1|e1]];
      cbn [bind]; [|reflexivity].
    destruct (log_detail_loop device rest f1) as [t2 o2].
    now rewrite app_assoc.
Qed.

(** The loop of [log_details] calls actions and writes records with the
    format of a detail, nothing else. *)
Lemma log_detail_loop_events (device : Device)
    (items : list (string * string * option string))
    (failed : list (string * result)) :
  Forall (fun ev => match ev with
                    | Log _ fmt _ => fmt = fmt_detail
                    | CallAction _ _ _ => True
                    | _ => False
                    end)
    (trace_of (log_detail_loop device items failed)).
Proof.
  revert failed. induction items as [|item items IH]; intros failed; [constructor|].
  cbn [log_detail_loop]. apply bind_trace_all; [|intros f; apply IH].
  destruct item as [[service_name action_name] key]. unfold log_detail_step.
  apply bind_trace_all; [now repeat constructor|intros _].
  destruct (dev_action device service_name action_name) as [res|exc].
  - destruct (check_fault res) as [| |exc].
    + constructor.
    + destruct (subscript res key) as [v|exc].
      * now repeat constructor.
      * case_bool_decide; [now repeat constructor|].
        destruct (catches_detail (exn_cls exc)); now repeat constructor.
    + destruct (catches_detail (exn_cls exc)); now repeat constructor.
  - destruct (catches_detail (exn_cls exc)); now repeat constructor.
Qed.

(** X21. An error of another class than AttributeError, KeyError and
    TypeError ends [log_details] at the call that raised it: the actions
    behind it are not called, and the section of failed calls is not written,
    so the faults met before it are not reported at all. *)
Theorem X21_diagnostics_stop_at_error (device : Device)
    (pre post : list (string * string * option string))
    (service action : string) (key : option string) (exc : exn) :
  Forall (fun item => benign_call device item = true) pre ->
  dev_action device service action = Throws exc ->
  catches_detail (exn_cls exc) = false ->
  outcome_of (log_details_of device (pre ++ (service, action, key) :: post))
  = Raised exc
  /\ action_calls (trace_of (log_details_of device (pre ++ (service, action, key) :: post)))
     = (map (fun item => (fst (fst item), snd (fst item))) pre
        ++ [(service, action)])%list
  /\ Forall (fun ev => ev <> Log WARNING msg_failed_calls [])
       (trace_of (log_details_of device (pre ++ (service, action, key) :: post))).
Proof.
  intros Hpre Hcall Hexc.
  pose proof (log_detail_loop_events device pre []) as Hevents.
  destruct (log_detail_loop_benign device pre [] Hpre) as [Hout Hcalls].
  unfold log_details_of. rewrite log_detail_loop_app.
  destruct (log_detail_loop device pre []) as [t o].
  cbn [outcome_of trace_of fst snd] in *. subst o. cbn [bind log_detail_loop].
  unfold log_detail_step. rewrite Hcall, Hexc. unfold emit, raise. cbn [bind app].
  cbn [outcome_of trace_of fst snd]. split; [reflexivity|]. split.
  - rewrite ?app_nil_r, action_calls_app, Hcalls. reflexivity.
  - rewrite ?app_nil_r. apply Forall_app. split; [|now repeat constructor].
    eapply Forall_impl; [exact Hevents|]. intros ev Hev ->. discriminate Hev.
Qed.

(** X21 at a device that reports a fault at the first call and is
    unreachable at the second. *)
Lemma X21_diagnostics_stop_at_error_witness :
  outcome_of
    (log_details_of
       {| dev_str := "Lamp"; dev_name := "Lamp"; dev_host := "10.0.0.5";
          dev_UDN := "uuid:Socket-1"; dev_services := [];
          dev_action := fun _ action =>
            if String.eqb action "GetFriendlyName"
            then Returns (RDict (<["faultstring" := PStr "UPnPError"]> ∅))
            else Throws (Exn (OtherError "ConnectionError") "no route to host" None);
          dev_network_status := Returns "1";
          dev_reset := fun _ _ => Returns tt;
          dev_setup := fun _ _ _ => Returns tt;
          dev_rename := fun _ => Returns tt |}
       ([("basicevent", "GetFriendlyName", Some "FriendlyName")]
        ++ ("basicevent", "GetMacAddr", None)
        :: [("metainfo", "GetMetaInfo", Some "MetaInfo")]))
  = Raised (Exn (OtherError "ConnectionError") "no route to host" None).
Proof.
  apply X21_diagnostics_stop_at_error.
  - repeat constructor.
  - reflexivity.
  - reflexivity.
Defined.

(** X22. A result that is a dictionary and no fault is printed in place,
    under the name of the call followed by the key in brackets: the value
    of the key when the dictionary has it, the whole dictionary when it has
    not or when no key is asked for. *)
Theorem X22_detail_printed (device : Device) (failed : list (string * result))
    (service action : string) (key : option string) (d : gmap string pyval) :
  dev_action device service action = Returns (RDict d) ->
  (d !! "faultstring" = None
   \/ exists s, d !! "faultstring" = Some (PStr s)
                /\ PyStr.lower s <> "upnperror") ->
  log_detail_step device failed (service, action, key)
  = ([ CallAction (dev_str device) service action;
       Log INFO fmt_detail
         [ AStr ((service ++ "." ++ action) ++ "[" ++ key_str key ++ "]");
           match key with
           | Some k =>
               match d !! k with
               | Some v => AVal v
               | None => ARes (RDict d)
               end
           | None => ARes (RDict d)
           end ] ],
     Ok failed).
Proof.
  intros Hcall Hfault. unfold log_detail_step. rewrite Hcall.
  assert (Hcheck : check_fault (RDict d) = Printed).
  { unfold check_fault, subscript, val_lower.
    destruct Hfault as [->|(s & -> & Hs)]; [reflexivity|].
    apply String.eqb_neq in Hs. now rewrite Hs. }
  rewrite Hcheck. unfold subscript.
  destruct key as [k|]; [destruct (d !! k)|]; reflexivity.
Qed.

(** X22 at a result that has the key asked for. *)
Lemma X22_detail_printed_witness :
  log_detail_step mixed_device [] ("basicevent", "GetFriendlyName", Some "FriendlyName")
  = ([ CallAction "Lamp" "basicevent" "GetFriendlyName";
       Log INFO fmt_detail
         [AStr "basicevent.GetFriendlyName[FriendlyName]"; AVal (PStr "Lamp")] ],
     Ok []).
Proof.
  rewrite (X22_detail_printed mixed_device [] "basicevent" "GetFriendlyName"
             (Some "FriendlyName") (<["FriendlyName" := PStr "Lamp"]> ∅)).
  - reflexivity.
  - reflexivity.
  - left. reflexivity.
Defined.

(** ** Diagnostics: which actions are called *)

Lemma get_actions_In (services : list (string * list string))
    (skip_actions : list string) (service action : string) (key : option string) :
  In (service, action, key) (get_actions services skip_actions)
  <-> key = None
      /\ (exists actions, In (service, actions) services /\ In action actions)
      /\ ~ In (PyStr.lower action) skip_actions
      /\ PyStr.startswith (PyStr.lower action) "get" = true.
Proof.
  unfold get_actions. rewrite in_flat_map. split.
  - intros ([s actions] & Hs & Hin). apply in_flat_map in Hin.
    destruct Hin as (a & Ha & Hin).
    case_bool_decide as Hskip; [destruct Hin|].
    destruct (PyStr.startswith (PyStr.lower a) "get") eqn:Hget; [|destruct Hin].
    destruct Hin as [[= <- <- <-]|[]].
    split; [reflexivity|]. split; [now exists actions|]. split; [|exact Hget].
    intros Hin. apply Hskip. now apply list_elem_of_In.
  - intros (-> & (actions & Hs & Ha) & Hskip & Hget).
    exists (service, actions). split; [exact Hs|]. apply in_flat_map.
    exists action. split; [exact Ha|].
    rewrite bool_decide_eq_false_2, Hget; [now left|].
    intros Hin. apply Hskip. now apply list_elem_of_In.
Qed.

(** X23. From the second level of detail on, [log_details] calls exactly
    the actions of the device whose lowered name starts with get, each with
    no key; at the second level it leaves out the two scans, getaplist
    and getnetworklist, whatever their case, and above it calls them too. *)
Theorem X23_get_actions (device : Device) (verbose : Z)
    (service action : string) (key : option string) :
  (2 <= verbose)%Z ->
  In (service, action, key) (data_to_print device verbose)
  <-> key = None
      /\ (exists actions, In (service, actions) (dev_services device)
                          /\ In action actions)
      /\ PyStr.startswith (PyStr.lower action) "get" = true
      /\ (verbose = 2%Z ->
          PyStr.lower action <> "getaplist"
          /\ PyStr.lower action <> "getnetworklist").
Proof.
  intros Hv. unfold data_to_print.
  replace (verbose =? 0)%Z with false by (symmetry; apply Z.eqb_neq; lia).
  replace (verbose =? 1)%Z with false by (symmetry; apply Z.eqb_neq; lia).
  rewrite get_actions_In.
  destruct (verbose =? 2)%Z eqn:H2.
  - apply Z.eqb_eq in H2. cbn [In]. split.
    + intros (Hk & Hs & Hskip & Hget). repeat split; try assumption.
      * intros Heq. apply Hskip. left. now rewrite Heq.
      * intros Heq. apply Hskip. right. left. now rewrite Heq.
    + intros (Hk & Hs & Hget & Hskip). destruct (Hskip H2) as [H3 H4].
      repeat split; try assumption.
      intros [Heq|[Heq|[]]]; [now apply H3|now apply H4].
  - apply Z.eqb_neq in H2. cbn [In]. split.
    + intros (Hk & Hs & _ & Hget). repeat split; try assumption; now destruct H2.
    + intros (Hk & Hs & Hget & _). repeat split; try assumption. intros [].
Qed.

(** X23 at a device with a scan among its actions. *)
Lemma X23_get_actions_witness :
  In ("basicevent", "getSignalStrength", None) (data_to_print rich_device 2)
  /\ ~ In ("WiFiSetup", "GetApList", None) (data_to_print rich_device 2).
Proof.
  split.
  - apply (X23_get_actions rich_device 2 "basicevent" "getSignalStrength" None);
      [lia|].
    split; [reflexivity|]. split.
    + exists ["GetFriendlyName"; "SetBinaryState"; "getSignalStrength"].
      split; [now left|]. right. right. now left.
    + split; [reflexivity|]. intros _. split; discriminate.
  - intros Hin.
    apply (X23_get_actions rich_device 2 "WiFiSetup" "GetApList" None) in Hin;
      [|lia].
    destruct Hin as (_ & _ & _ & Hskip). destruct (Hskip eq_refl) as [H _].
    now apply H.
Defined.

(** ** Discovery and the list command *)

Lemma log_details_benign (device : Device) (verbose : Z) :
  Forall (fun item => benign_call device item = true) (data_to_print device verbose) ->
  outcome_of (log_details device verbose) = Ok tt
  /\ action_calls (trace_of (log_details device verbose))
     = map call_of (data_to_print device verbose).
Proof.
  intros Hitems. unfold log_details, log_details_of.
  destruct (log_detail_loop_benign device _ [] Hitems) as [Hout Hcalls].
  cbn [app] in Hout. rewrite (bind_outcome_Ok _ _ _ Hout).
  rewrite log_failed_calls_run. cbn [outcome_of trace_of fst snd].
  split; [reflexivity|].
  now rewrite action_calls_app, Hcalls, action_calls_failed_section, app_nil_r.
Qed.

Lemma log_details_no_report (device : Device) (verbose : Z) :
  Forall (fun ev => found_report ev = []) (trace_of (log_details device verbose)).
Proof.
  unfold log_details, log_details_of. apply bind_trace_all.
  - eapply Forall_impl; [apply log_detail_loop_events|].
    intros [lvl fmt args| | | | | | | | | |] Hev; try reflexivity.
    apply found_report_log. rewrite Hev. discriminate.
  - intros failed. rewrite log_failed_calls_run. cbn [trace_of fst].
    unfold failed_section. apply Forall_app. split.
    + destruct failed; now repeat constructor.
    + apply List.Forall_forall. intros ev Hin. apply in_map_iff in Hin.
      destruct Hin as (c & <- & _). reflexivity.
Qed.

Lemma found_reports_app (t1 t2 : list event) :
  found_reports (t1 ++ t2) = (found_reports t1 ++ found_reports t2)%list.
Proof. apply flat_map_app. Qed.

Lemma found_reports_cons (ev : event) (t : list event) :
  found_reports (ev :: t) = (found_report ev ++ found_reports t)%list.
Proof. reflexivity. Qed.

(** X24. When discovery of all devices returns, what it returns is what
    the network answered, and the count it reports on its last record is the
    number of these devices; when it ends with an error, no count is
    reported. *)
Theorem X24_found_count (env : Env) (net : option string) (verbose : Z) :
  match outcome_of (discover_and_log_devices env net false verbose) with
  | Ok devices =>
      devices = discover_devices env net
      /\ found_reports (trace_of (discover_and_log_devices env net false verbose))
         = [Z.of_nat (length devices)]
  | Raised _ =>
      found_reports (trace_of (discover_and_log_devices env net false verbose)) = []
  end.
Proof.
  unfold discover_and_log_devices.
  assert (Hloop : Forall (fun ev => found_report ev = [])
            (trace_of
               (for_each (discover_devices env net)
                  (fun device =>
                     log INFO (DASHES (columns env)) [];;;
                     log INFO "found device: %s" [AStr (dev_str device)];;;
                     (if (0 <=? verbose)%Z then log_details device verbose
                      else ret tt))))).
  { apply for_each_trace_all. intros device.
    apply bind_trace_all; [now repeat constructor|intros _].
    apply bind_trace_all; [now repeat constructor|intros _].
    destruct (0 <=? verbose)%Z; [apply log_details_no_report|constructor]. }
  unfold emit at 1. cbn [bind app].
  destruct (for_each (discover_devices env net) _) as [tL [[]|e]];
    cbn [trace_of fst] in Hloop.
  - unfold log, emit, ret.
    destruct (discover_devices env net) as [|d l] eqn:Hd;
      cbn [bind app outcome_of trace_of fst snd];
      (split; [reflexivity|]);
      rewrite ?found_reports_cons, ?found_reports_app, ?found_reports_cons,
        (found_reports_none _ Hloop);
      cbn [found_report app]; rewrite bool_decide_eq_true_2 by reflexivity;
      reflexivity.
  - unfold emit. cbn [bind app outcome_of trace_of fst snd].
    now rewrite found_reports_cons, (found_reports_none _ Hloop).
Qed.

(** X25. The list command runs the diagnostics one level above the number
    of its info flags, so without a flag it already asks each device the
    seven questions of the first level and never only the three of level
    zero.  When every call returns or raises one of the three handled
    errors, each device found is asked all the questions of that level, in
    discovery order, and the command ends normally. *)
Theorem X25_list_calls (env : Env) (info : Z) :
  (0 <= info)%Z ->
  Forall
    (fun d =>
       Forall (fun item => benign_call d item = true) (data_to_print d (info + 1)))
    (discover_devices env None) ->
  outcome_of (wemo_discover env info) = Ok tt
  /\ action_calls (trace_of (wemo_discover env info))
     = flat_map (fun d => map call_of (data_to_print d (info + 1)))
         (discover_devices env None).
Proof.
  intros Hinfo Hbenign. unfold wemo_discover, discover_and_log_devices.
  replace (0 <=? info + 1)%Z with true by (symmetry; apply Z.leb_le; lia).
  rewrite (for_each_runs (discover_devices env None) _
             (fun d => Log INFO (DASHES (columns env)) []
                       :: Log INFO "found device: %s" [AStr (dev_str d)]
                       :: trace_of (log_details d (info + 1)))).
  - unfold log, emit, ret. cbn [bind app].
    assert (Hcalls : action_calls
                       (flat_map
                          (fun d => Log INFO (DASHES (columns env)) []
                                    :: Log INFO "found device: %s" [AStr (dev_str d)]
                                    :: trace_of (log_details d (info + 1)))
                          (discover_devices env None))
                     = flat_map (fun d => map call_of (data_to_print d (info + 1)))
                         (discover_devices env None)).
    { induction Hbenign as [|d l Hd _ IH]; [reflexivity|].
      cbn [flat_map]. rewrite action_calls_app, IH.
      destruct (log_details_benign d (info + 1) Hd) as [_ Hc].
      change (action_calls (?a :: ?b :: ?t)) with (action_calls t).
      now rewrite Hc. }
    destruct (discover_devices env None) as [|d0 l0];
      cbn [bind app outcome_of trace_of fst snd]; (split; [reflexivity|]).
    + reflexivity.
    + change (action_calls (Discover :: ?t)) with (action_calls t).
      rewrite !action_calls_app, Hcalls. cbn [action_calls flat_map app].
      now rewrite !app_nil_r.
  - eapply Forall_impl; [exact Hbenign|]. intros d Hd. cbn beta.
    destruct (log_details_benign d (info + 1) Hd) as [Hout _].
    unfold log, emit. cbn [bind app].
    destruct (log_details d (info + 1)) as [t o].
    cbn [outcome_of trace_of fst snd] in *. now subst o.
Qed.

(** X25 at three devices and no info flag. *)
Lemma X25_list_calls_witness :
  outcome_of (wemo_discover (sample_env sample_devices true NotInstalled) 0) = Ok tt
  /\ length (action_calls
               (trace_of (wemo_discover (sample_env sample_devices true NotInstalled) 0)))
     = 21%nat.
Proof.
  destruct (X25_list_calls (sample_env sample_devices true NotInstalled) 0)
    as [Hout Hcalls].
  - lia.
  - repeat constructor.
  - split; [exact Hout|]. rewrite Hcalls. reflexivity.
Defined.

(** X26. The rescan that opens the scan is run without a check of its
    exit status: whatever status it ends with and whatever it prints, the
    scan goes on to the listing, and what it logs and returns is decided by
    the listing alone. *)
Theorem X26_rescan_status_ignored (env : Env) (rc0 : Z) (out0 err0 out err : string) :
  nmcli env argv_rescan = Completed rc0 out0 err0 ->
  nmcli env argv_list = Completed 0 out err ->
  find_wemo_aps env
  = ((Run argv_rescan :: Run argv_list
      :: Log DEBUG fmt_result_of
           [AStr (PyStr.join " " argv_list); AStr (PyStr.strip out)]
      :: (if PyStr.truthy (PyStr.strip out) then []
          else [Log WARNING "no result from nmcli, try again" []])
      ++ trace_of (scan_lines (PyStr.split PyStr.LF (PyStr.strip out)) [] EmptyString))%list,
     outcome_of (scan_lines (PyStr.split PyStr.LF (PyStr.strip out)) [] EmptyString)).
Proof. apply find_wemo_aps_listing. Qed.

(** X26 at a host where the rescan exits with status 10. *)
Lemma X26_rescan_status_ignored_witness :
  outcome_of
    (find_wemo_aps
       {| nmcli := fun argv =>
            if bool_decide (argv = argv_list)
            then Completed 0 sample_listing EmptyString
            else Completed 10 EmptyString "Scanning not allowed";
          discover_devices := fun _ => [];
          confirm := fun _ => true;
          getpass := "secret";
          columns := 80 |})
  = Ok (["wemo.livingroom"; "WEMO.KITCHEN"], "mywemodevice").
Proof.
  rewrite (X26_rescan_status_ignored _ 10 EmptyString "Scanning not allowed"
             sample_listing EmptyString).
  - reflexivity.
  - reflexivity.
  - reflexivity.
Defined.
